(** * ExpenseXpert: the transaction query and analytics layer

    A shallow embedding of [server/controllers/transactionController.js],
    of the static methods of the Transaction model
    ([getUserSummary], [getCategoryBreakdown], [getMonthlyTrends]) and of
    the part of the document store those functions drive.

    Conventions of the embedding.
    - The collection is a list of documents in natural (insertion) order;
      [_id] is unique in a well-formed collection ([wf_store]).
    - [amount] is an exact integer number of hundredths (the schema bounds
      0.01 and 1,000,000 become 1 and 100,000,000); the source stores an
      IEEE double, whose rounding is not modelled.
    - A timestamp is the number of milliseconds since the epoch, in UTC;
      the time zone of the server, in which [setMonth] works, is part of
      the environment of a request, as the clock is.
    - Only the schema paths that a query, a sort or an aggregation of the
      controllers reads are kept in [Transaction].
    - Store calls run in a monad that threads the collection and a log of
      the calls made, and in which a store call may throw.
    - A date of the query string is taken with the value that [new Date]
      gives it, Invalid Date included, where the list is requested; the
      aggregation pipelines, which the store does not cast, are modelled on
      well-formed instants only.
    - Patterns handed to [$regex] are modelled for ordinary characters and
      the wildcard [.], with the case folding of ASCII; a sort is modelled
      on the paths kept.  The properties that depend on either say so in
      their hypotheses.
    - An identifier of a route is a string; an element of the array of a
      bulk delete is any JSON value.
    - [page], [limit] and [months] are the integers that [parseInt] yields.

    The file has three parts: the embedding, the vocabulary in which the
    properties are stated, and the properties. *)

From Stdlib Require Import ZArith NArith List String Ascii Bool Lia.
From Stdlib Require Import Sorted Permutation QArith_base.
Import ListNotations.

Local Open Scope string_scope.
Local Open Scope list_scope.
Local Open Scope Z_scope.

(** ** Documents *)

Definition ObjectId := N.

Inductive txn_type := Income | Expense.

Definition type_name (ty : txn_type) : string :=
  match ty with Income => "income" | Expense => "expense" end.

Definition parse_type (s : string) : option txn_type :=
  if String.eqb s "income" then Some Income
  else if String.eqb s "expense" then Some Expense
  else None.

Definition txn_type_eqb (a b : txn_type) : bool :=
  match a, b with
  | Income, Income | Expense, Expense => true
  | _, _ => false
  end.

Record Transaction := {
  _id : ObjectId;
  user : ObjectId;
  type : txn_type;
  amount : Z;
  category : string;
  description : option string;
  date : Z;
  notes : option string
}.

Definition store := list Transaction.

Fixpoint distinct (l : list ObjectId) : bool :=
  match l with
  | [] => true
  | x :: r => negb (existsb (N.eqb x) r) && distinct r
  end.

(** [_id] carries a unique index. *)
Definition wf_store (s : store) : Prop := distinct (map _id s) = true.

Definition owned (uid : ObjectId) (t : Transaction) : bool := N.eqb (user t) uid.

(** ** Regular expressions of the store

    [{ $regex: p, $options: 'i' }] hands the string [p] to the store's
    regular-expression engine.  The fragment modelled here is the one made
    of ordinary characters and of the wildcard [.]; a pattern that uses any
    other operator is outside the fragment ([compile] gives [None]) and the
    model then reports no match.  Case folding is that of the ASCII
    letters. *)
Module Regex.

Inductive atom := Lit (c : ascii) | Dot.

Definition metachars : list ascii :=
  list_ascii_of_string "\^$.|?*+()[]{}".

Definition is_meta (c : ascii) : bool := existsb (Ascii.eqb c) metachars.

Fixpoint compile (p : string) : option (list atom) :=
  match p with
  | EmptyString => Some []
  | String c r =>
      match compile r with
      | None => None
      | Some k =>
          if Ascii.eqb c "." then Some (Dot :: k)
          else if is_meta c then None
          else Some (Lit c :: k)
      end
  end.

Definition lower (c : ascii) : ascii :=
  let n := nat_of_ascii c in
  if (Nat.leb 65 n && Nat.leb n 90)%bool then ascii_of_nat (n + 32) else c.

Definition newline : ascii := ascii_of_nat 10.

Definition atom_match (a : atom) (c : ascii) : bool :=
  match a with
  | Lit x => Ascii.eqb (lower x) (lower c)
  | Dot => negb (Ascii.eqb c newline)
  end.

Fixpoint match_here (k : list atom) (s : string) : bool :=
  match k with
  | [] => true
  | a :: k' =>
      match s with
      | EmptyString => false
      | String c s' => atom_match a c && match_here k' s'
      end
  end.

(** An unanchored pattern matches when it matches at some position. *)
Fixpoint search (k : list atom) (s : string) : bool :=
  match_here k s ||
  match s with
  | EmptyString => false
  | String _ s' => search k s'
  end.

Definition re_test (p : string) (s : string) : bool :=
  match compile p with
  | Some k => search k s
  | None => false
  end.


End Regex.

(** A missing path never satisfies [$regex]. *)
Definition regex_field (p : string) (v : option string) : bool :=
  match v with
  | Some s => Regex.re_test p s
  | None => false
  end.

(** ** Request values

    An identifier received in a request is classified by
    [mongoose.Types.ObjectId.isValid]; a date string by what [new Date]
    makes of it. *)

Inductive req_id :=
| BadId (raw : string)
| GoodId (oid : ObjectId).

Definition ObjectId_isValid (i : req_id) : bool :=
  match i with GoodId _ => true | BadId _ => false end.

(** An element of the array [transactionIds] of a request body is a JSON
    value of any kind.  For a string, [isValid] and the cast that a query
    applies to an [_id] agree ([req_id]).  A number passes [isValid], and
    the cast of a query refuses it.  The cast refuses every other value as
    well; [passes] says whether [isValid] accepts it, which it does not for
    [null], a boolean or an array, and does for an object that looks like
    an ObjectId. *)
Inductive json_id :=
| JString (i : req_id)
| JNumber (n : Z)
| JOther (passes : bool).

(** [mongoose.Types.ObjectId.isValid(id)] on an element of the body. *)
Definition isValid (j : json_id) : bool :=
  match j with
  | JString i => ObjectId_isValid i
  | JNumber _ => true
  | JOther passes => passes
  end.

(** The cast of an element of [$in] to the type of [_id]. *)
Definition cast_id (j : json_id) : option ObjectId :=
  match j with JString (GoodId o) => Some o | _ => None end.

Definition casts (j : json_id) : bool :=
  match cast_id j with Some _ => true | None => false end.

(** The identifiers of a list, cast to ObjectId. *)
Definition oids (ids : list json_id) : list ObjectId :=
  flat_map (fun j => match cast_id j with Some o => [o] | None => [] end) ids.

Inductive jsdate :=
| InvalidDate
| Instant (t : Z).

(** A date parameter of the query string: absent (or empty, which is falsy
    as well), or a non-empty string [s] given with [new Date(s)]. *)
Inductive date_param :=
| NoDate
| DateString (d : jsdate).

Definition date_truthy (p : date_param) : bool :=
  match p with NoDate => false | DateString _ => true end.

Definition new_Date (p : date_param) : jsdate :=
  match p with NoDate => InvalidDate | DateString d => d end.

(** Truthiness of an optional string parameter. *)
Definition truthy (p : option string) : bool :=
  match p with
  | Some s => negb (String.eqb s "")
  | None => false
  end.

Definition str (p : option string) : string :=
  match p with Some s => s | None => "" end.

(** ** Store predicates *)

Inductive id_cond :=
| IdIs (i : req_id)
| IdIn (l : list json_id).

Record query := {
  q_id : option id_cond;
  q_user : option ObjectId;
  q_type : option string;
  q_category : option string;
  q_gte : option jsdate;
  q_lte : option jsdate;
  q_or : option string
}.

Definition q_all : query :=
  {| q_id := None; q_user := None; q_type := None; q_category := None;
     q_gte := None; q_lte := None; q_or := None |}.

Definition by_user (uid : ObjectId) : query :=
  {| q_id := None; q_user := Some uid; q_type := None; q_category := None;
     q_gte := None; q_lte := None; q_or := None |}.

Definition with_id (c : id_cond) (q : query) : query :=
  {| q_id := Some c; q_user := q_user q; q_type := q_type q;
     q_category := q_category q; q_gte := q_gte q; q_lte := q_lte q;
     q_or := q_or q |}.

Definition with_type (ty : string) (q : query) : query :=
  {| q_id := q_id q; q_user := q_user q; q_type := Some ty;
     q_category := q_category q; q_gte := q_gte q; q_lte := q_lte q;
     q_or := q_or q |}.

Definition with_category (p : string) (q : query) : query :=
  {| q_id := q_id q; q_user := q_user q; q_type := q_type q;
     q_category := Some p; q_gte := q_gte q; q_lte := q_lte q;
     q_or := q_or q |}.

Definition with_date (lo hi : option jsdate) (q : query) : query :=
  {| q_id := q_id q; q_user := q_user q; q_type := q_type q;
     q_category := q_category q; q_gte := lo; q_lte := hi;
     q_or := q_or q |}.

Definition with_or (p : string) (q : query) : query :=
  {| q_id := q_id q; q_user := q_user q; q_type := q_type q;
     q_category := q_category q; q_gte := q_gte q; q_lte := q_lte q;
     q_or := Some p |}.

Definition opt_test {A} (c : option A) (f : A -> bool) : bool :=
  match c with Some a => f a | None => true end.

Definition id_test (t : Transaction) (c : id_cond) : bool :=
  match c with
  | IdIs (GoodId i) => N.eqb (_id t) i
  | IdIs (BadId _) => false
  | IdIn l => existsb (N.eqb (_id t)) (oids l)
  end.

Definition gte_test (t : Transaction) (d : jsdate) : bool :=
  match d with Instant lo => lo <=? date t | InvalidDate => false end.

Definition lte_test (t : Transaction) (d : jsdate) : bool :=
  match d with Instant hi => date t <=? hi | InvalidDate => false end.

(** [$or] over the three searched paths, each with the same pattern. *)
Definition or_test (t : Transaction) (p : string) : bool :=
  regex_field p (description t)
  || Regex.re_test p (category t)
  || regex_field p (notes t).

(** The conditions of a predicate are combined by conjunction. *)
Definition matches (q : query) (t : Transaction) : bool :=
  opt_test (q_id q) (id_test t)
  && opt_test (q_user q) (N.eqb (user t))
  && opt_test (q_type q) (String.eqb (type_name (type t)))
  && opt_test (q_category q) (fun p => Regex.re_test p (category t))
  && opt_test (q_gte q) (gte_test t)
  && opt_test (q_lte q) (lte_test t)
  && opt_test (q_or q) (or_test t).

(** Query casting against the schema: a malformed [_id], an element of
    [$in] that is no ObjectId, and an Invalid Date are refused
    (CastError). *)
Definition date_castable (d : option jsdate) : bool :=
  match d with Some InvalidDate => false | _ => true end.

Definition castable (q : query) : bool :=
  match q_id q with
  | Some (IdIs (BadId _)) => false
  | Some (IdIn l) => forallb casts l
  | _ => true
  end
  && date_castable (q_gte q) && date_castable (q_lte q).

(** ** Sorting and cursors *)

Section Sort.
Context {A : Type} (leb : A -> A -> bool).

Fixpoint insert (x : A) (l : list A) : list A :=
  match l with
  | [] => [x]
  | y :: r => if leb x y then x :: l else y :: insert x r
  end.

(** Stable: among equal keys the earlier document stays first. *)
Definition sort (l : list A) : list A := fold_right insert [] l.
End Sort.

Definition opt_string_leb (a b : option string) : bool :=
  match a, b with
  | None, _ => true
  | Some _, None => false
  | Some x, Some y => String.leb x y
  end.

(** Ascending comparison on a path of the document, for the paths kept in
    [Transaction].  The other paths of the schema, and the names that the
    store refuses as a sort key, are outside the model, which leaves all
    documents equal for them. *)
Definition field_leb (path : string) (a b : Transaction) : bool :=
  if String.eqb path "date" then date a <=? date b
  else if String.eqb path "amount" then amount a <=? amount b
  else if String.eqb path "category" then String.leb (category a) (category b)
  else if String.eqb path "type" then
    String.leb (type_name (type a)) (type_name (type b))
  else if String.eqb path "description" then
    opt_string_leb (description a) (description b)
  else if String.eqb path "notes" then opt_string_leb (notes a) (notes b)
  else if String.eqb path "_id" then N.leb (_id a) (_id b)
  else if String.eqb path "user" then N.leb (user a) (user b)
  else true.

(** [.sort({ [path]: dir })] with [dir] 1 or -1. *)
Definition sort_leb (path : string) (dir : Z) (a b : Transaction) : bool :=
  if dir =? -1 then field_leb path b a else field_leb path a b.

Definition sort_docs (path : string) (dir : Z) (l : list Transaction) :=
  sort (sort_leb path dir) l.

(** [.skip(n)]. *)
Definition cursor_skip {A} (n : Z) (l : list A) : list A := skipn (Z.to_nat n) l.

(** [.limit(n)]: zero means no limit, a negative number stands for its
    absolute value. *)
Definition cursor_limit {A} (n : Z) (l : list A) : list A :=
  if n =? 0 then l else firstn (Z.to_nat (Z.abs n)) l.

(** ** The store monad

    A computation reads and writes the collection, appends to the log of
    store calls, reads the clock, and either returns or throws. *)

Inductive exn :=
| CastError
| ValidationError (paths : list string)
| MongoServerError.

Inductive store_call :=
| Find (q : query)
| CountDocuments (q : query)
| FindOne (q : query)
| FindByIdAndUpdate (i : req_id)
| FindByIdAndDelete (i : req_id)
| Create
| DeleteMany (q : query)
| Aggregate (q : query).

(** The predicate that a call hands to the store; [findById...(i)] is
    [findOne...({ _id: i })]. *)
Definition call_predicate (c : store_call) : option query :=
  match c with
  | Find q | CountDocuments q | FindOne q | DeleteMany q | Aggregate q => Some q
  | FindByIdAndUpdate i | FindByIdAndDelete i => Some (with_id (IdIs i) q_all)
  | Create => None
  end.

(** The local time zone adjustment of the server, as ECMAScript has it:
    [LocalTZA t true] is the offset of local time at the UTC instant [t],
    [LocalTZA t false] the offset that applies at the local time value
    [t]; both in milliseconds. *)
Definition time_zone := Z -> bool -> Z.

Definition utc : time_zone := fun _ _ => 0.

Record world := {
  docs : store;
  calls : list store_call;
  now : Z;
  zone : time_zone
}.

Inductive outcome (A : Type) :=
| Return (a : A)
| Throw (e : exn).
Arguments Return {A} a.
Arguments Throw {A} e.

Definition M (A : Type) := world -> outcome A * world.

Definition ret {A} (a : A) : M A := fun w => (Return a, w).

Definition bind {A B} (m : M A) (k : A -> M B) : M B :=
  fun w =>
    match m w with
    | (Return a, w') => k a w'
    | (Throw e, w') => (Throw e, w')
    end.

Definition throw {A} (e : exn) : M A := fun w => (Throw e, w).

(** [try { m } catch (error) { h error }]. *)
Definition try_catch {A} (m : M A) (h : exn -> M A) : M A :=
  fun w =>
    match m w with
    | (Return a, w') => (Return a, w')
    | (Throw e, w') => h e w'
    end.

(** [await Promise.all([m1, m2])]: both operations are started; the first
    rejection, if any, is the one thrown. *)
Definition both {A B} (m1 : M A) (m2 : M B) : M (A * B) :=
  fun w =>
    let (o1, w1) := m1 w in
    let (o2, w2) := m2 w1 in
    match o1, o2 with
    | Return a, Return b => (Return (a, b), w2)
    | Throw e, _ => (Throw e, w2)
    | _, Throw e => (Throw e, w2)
    end.

Notation "x <- m ;; k" := (bind m (fun x => k))
  (at level 61, m at next level, right associativity).
Notation "m ;;; k" := (bind m (fun _ => k))
  (at level 61, right associativity).

Definition call (c : store_call) : M unit :=
  fun w => (Return tt, {| docs := docs w; calls := calls w ++ [c]; now := now w; zone := zone w |}).

Definition get_docs : M store := fun w => (Return (docs w), w).

Definition put_docs (s : store) : M unit :=
  fun w => (Return tt, {| docs := s; calls := calls w; now := now w; zone := zone w |}).

Definition new_Date_now : M Z := fun w => (Return (now w), w).

Definition LocalTZA : M time_zone := fun w => (Return (zone w), w).

Definition cast (q : query) : M unit :=
  if castable q then ret tt else throw CastError.

(** ** Store operations *)

(** [Model.find(q).sort({[path]: dir}).skip(skip).limit(limit)]; the server
    refuses a negative skip. *)
Definition find (q : query) (path : string) (dir skip limit : Z)
  : M (list Transaction) :=
  call (Find q) ;;;
  cast q ;;;
  (if skip <? 0 then throw MongoServerError else ret tt) ;;;
  s <- get_docs ;;
  ret (cursor_limit limit (cursor_skip skip (sort_docs path dir (filter (matches q) s)))).

Definition countDocuments (q : query) : M Z :=
  call (CountDocuments q) ;;;
  cast q ;;;
  s <- get_docs ;;
  ret (Z.of_nat (List.length (filter (matches q) s))).

Definition findOne (q : query) : M (option Transaction) :=
  call (FindOne q) ;;;
  cast q ;;;
  s <- get_docs ;;
  ret (List.find (matches q) s).

(** [deleteMany(q)] gives the number of documents removed. *)
Definition deleteMany (q : query) : M Z :=
  call (DeleteMany q) ;;;
  cast q ;;;
  s <- get_docs ;;
  put_docs (filter (fun t => negb (matches q t)) s) ;;;
  ret (Z.of_nat (List.length (filter (matches q) s))).

(** The [$match] stage of an aggregation; the pipeline is not cast against
    the schema. *)
Definition aggregate_match (q : query) : M (list Transaction) :=
  call (Aggregate q) ;;;
  s <- get_docs ;;
  ret (filter (matches q) s).

Fixpoint remove_first (p : Transaction -> bool) (l : store) : store :=
  match l with
  | [] => []
  | t :: r => if p t then r else t :: remove_first p r
  end.

Definition findByIdAndDelete (i : req_id) : M unit :=
  call (FindByIdAndDelete i) ;;;
  cast (with_id (IdIs i) q_all) ;;;
  s <- get_docs ;;
  put_docs (remove_first (matches (with_id (IdIs i) q_all)) s).

(** ** Writing documents

    A request body as the schema casts it: the paths it supplies. Setters
    ([trim]) are not modelled: strings are taken as already trimmed. *)

Record body := {
  b_user : option ObjectId;
  b_type : option string;
  b_amount : option Z;
  b_category : option string;
  b_description : option string;
  b_date : option Z;
  b_notes : option string
}.

Definition too_long (n : nat) (v : option string) : bool :=
  match v with Some s => Nat.ltb n (String.length s) | None => false end.

Definition fails (b : bool) (path : string) : list string :=
  if b then [path] else [].

(** The validators of the paths present in [b] ([runValidators: true]). *)
Definition validate (b : body) : list string :=
  fails (match b_type b with
         | Some s => match parse_type s with None => true | Some _ => false end
         | None => false end) "type"
  ++ fails (match b_amount b with
            | Some a => (a <? 1) || (100000000 <? a)
            | None => false end) "amount"
  ++ fails (match b_category b with
            | Some s => String.eqb s "" || Nat.ltb 50 (String.length s)
            | None => false end) "category"
  ++ fails (too_long 200 (b_description b)) "description"
  ++ fails (too_long 500 (b_notes b)) "notes".

(** The paths that a new document must have. *)
Definition validate_required (b : body) : list string :=
  fails (match b_user b with None => true | Some _ => false end) "user"
  ++ fails (match b_type b with None => true | Some _ => false end) "type"
  ++ fails (match b_amount b with None => true | Some _ => false end) "amount"
  ++ fails (match b_category b with None => true | Some _ => false end) "category".

Definition or_else {A} (o : option A) (d : A) : A :=
  match o with Some a => a | None => d end.

Definition or_keep {A} (o : option A) (d : option A) : option A :=
  match o with Some a => Some a | None => d end.

Definition cast_type (s : option string) (d : txn_type) : txn_type :=
  match s with
  | Some n => or_else (parse_type n) d
  | None => d
  end.

(** [$set] of every path the body supplies. *)
Definition apply_update (b : body) (t : Transaction) : Transaction :=
  {| _id := _id t;
     user := or_else (b_user b) (user t);
     type := cast_type (b_type b) (type t);
     amount := or_else (b_amount b) (amount t);
     category := or_else (b_category b) (category t);
     description := or_keep (b_description b) (description t);
     date := or_else (b_date b) (date t);
     notes := or_keep (b_notes b) (notes t) |}.

Fixpoint update_first (p : Transaction -> bool)
    (f : Transaction -> Transaction) (l : store) : store :=
  match l with
  | [] => []
  | t :: r => if p t then f t :: r else t :: update_first p f r
  end.

(** [findByIdAndUpdate(i, b, { new: true, runValidators: true })] gives the
    document after the update, or null when there is none. *)
Definition findByIdAndUpdate (i : req_id) (b : body) : M (option Transaction) :=
  call (FindByIdAndUpdate i) ;;;
  cast (with_id (IdIs i) q_all) ;;;
  (match validate b with
   | [] => ret tt
   | errs => throw (ValidationError errs)
   end) ;;;
  s <- get_docs ;;
  put_docs (update_first (matches (with_id (IdIs i) q_all)) (apply_update b) s) ;;;
  ret (option_map (apply_update b) (List.find (matches (with_id (IdIs i) q_all)) s)).

(** A fresh identifier: one more than the greatest in the collection. *)
Definition fresh_id (s : store) : ObjectId :=
  N.succ (fold_right N.max 0%N (map _id s)).

(** [Model.create(b)]: the defaults of the schema fill what is missing. *)
Definition create (b : body) : M Transaction :=
  call Create ;;;
  (match validate_required b ++ validate b with
   | [] => ret tt
   | errs => throw (ValidationError errs)
   end) ;;;
  s <- get_docs ;;
  t0 <- new_Date_now ;;
  let t := {| _id := fresh_id s;
              user := or_else (b_user b) 0%N;
              type := cast_type (b_type b) Expense;
              amount := or_else (b_amount b) 0;
              category := or_else (b_category b) "";
              description := b_description b;
              date := or_else (b_date b) t0;
              notes := b_notes b |} in
  put_docs (s ++ [t]) ;;;
  ret t.

(** ** Responses *)

(** [res.status(n).json({ success: true, ... })] and
    [res.status(n).json({ success: false, message, errors })]; [errors]
    lists the paths that failed validation. *)
Inductive response (A : Type) :=
| Ok (status : Z) (data : A)
| Fail (status : Z) (message : string) (errors : list string).
Arguments Ok {A} status data.
Arguments Fail {A} status message errors.

(** A JavaScript number that may fail to be finite. *)
Inductive jsnum :=
| Num (z : Z)
| Infinity
| NaN.

(** [Math.ceil(a / b)] for a count [a] (not negative) and an integer [b]. *)
Definition Math_ceil_div (a b : Z) : jsnum :=
  if b =? 0 then (if a =? 0 then NaN else Infinity)
  else Num (- ((- a) / b)).

(** [n < x]. *)
Definition js_lt (n : Z) (x : jsnum) : bool :=
  match x with
  | Num z => n <? z
  | Infinity => true
  | NaN => false
  end.

(** ** The static methods of the model *)

(** An output document of a [$group] stage: the key and the [$sum]
    accumulators of [amount] and of 1. *)
Record group (K : Type) := {
  g_id : K;
  total : Z;
  count : Z
}.
Arguments g_id {K} g.
Arguments total {K} g.
Arguments count {K} g.

(** [$avg] is the quotient of the two sums. *)
Definition avgAmount {K} (g : group K) : Q := Qmake (total g) (Z.to_pos (count g)).

Section Group.
Context {K : Type} (eqb : K -> K -> bool).

Fixpoint accumulate (k : K) (x : Z) (gs : list (group K)) : list (group K) :=
  match gs with
  | [] => [{| g_id := k; total := x; count := 1 |}]
  | g :: r =>
      if eqb (g_id g) k
      then {| g_id := g_id g; total := total g + x; count := count g + 1 |} :: r
      else g :: accumulate k x r
  end.

(** One pass over the documents; a group is created at the first
    document that has its key. *)
Definition group_by (key : Transaction -> K) (l : list Transaction)
  : list (group K) :=
  fold_left (fun gs t => accumulate (key t) (amount t) gs) l [].
End Group.

(** Civil calendar of a timestamp, as [$year] and [$month] read it. *)
Module Calendar.

Definition ms_per_day : Z := 86400000.

Definition day_of (t : Z) : Z := t / ms_per_day.

(** Year, month (1 to 12) and day of the month of a day number. *)
Definition civil (days : Z) : Z * Z * Z :=
  let z := days + 719468 in
  let era := z / 146097 in
  let doe := z - era * 146097 in
  let yoe := (doe - doe / 1460 + doe / 36524 - doe / 146096) / 365 in
  let doy := doe - (365 * yoe + yoe / 4 - yoe / 100) in
  let mp := (5 * doy + 2) / 153 in
  let d := doy - (153 * mp + 2) / 5 + 1 in
  let m := if mp <? 10 then mp + 3 else mp - 9 in
  let y := yoe + era * 400 + (if m <=? 2 then 1 else 0) in
  (y, m, d).

(** Day number of the first day of month [m] (1 to 12) of year [y]. *)
Definition first_day (y m : Z) : Z :=
  let y' := if m <=? 2 then y - 1 else y in
  let era := y' / 400 in
  let yoe := y' - era * 400 in
  let doy := (153 * (if 2 <? m then m - 3 else m + 9) + 2) / 5 in
  let doe := yoe * 365 + yoe / 4 - yoe / 100 + doy in
  era * 146097 + doe - 719468.

Definition year (t : Z) : Z := let '(y, _, _) := civil (day_of t) in y.
Definition month (t : Z) : Z := let '(_, m, _) := civil (day_of t) in m.

(** [d.setMonth(d.getMonth() - n)] in the time zone [tza].  The fields are
    those of the local time of [t]; the month index is renormalised into a
    year and a month, the day of the month and the time of day are kept,
    and a day past the end of the month runs into the next one; the local
    time value so made is taken back to UTC. *)
Definition setMonth_back (tza : Z -> bool -> Z) (t n : Z) : Z :=
  let local := t + tza t true in
  let '(y, m, d) := civil (day_of local) in
  let idx := y * 12 + (m - 1) - n in
  let day := first_day (idx / 12) (idx mod 12 + 1) + (d - 1) in
  let newDate := day * ms_per_day + local mod ms_per_day in
  newDate - tza newDate false.

End Calendar.

Definition opt_instant (d : option Z) : option jsdate := option_map Instant d.

Definition both_given (a b : option Z) : bool :=
  match a, b with Some _, Some _ => true | _, _ => false end.

Module Model.

(** The date arguments are well-formed instants, [None] standing for a
    falsy argument. *)
Definition getUserSummary (userId : ObjectId) (startDate endDate : option Z)
  : M (list (group txn_type)) :=
  let matchStage := by_user userId in
  let matchStage :=
    if both_given startDate endDate
    then with_date (opt_instant startDate) (opt_instant endDate) matchStage
    else matchStage in
  l <- aggregate_match matchStage ;;
  ret (group_by txn_type_eqb type l).

Definition getCategoryBreakdown (userId : ObjectId) (ty : string)
    (startDate endDate : option Z) : M (list (group string)) :=
  let matchStage := with_type ty (by_user userId) in
  let matchStage :=
    if both_given startDate endDate
    then with_date (opt_instant startDate) (opt_instant endDate) matchStage
    else matchStage in
  l <- aggregate_match matchStage ;;
  ret (sort (fun a b => total b <=? total a) (group_by String.eqb category l)).

Definition month_key : Type := Z * Z * txn_type.

Definition month_key_of (t : Transaction) : month_key :=
  (Calendar.year (date t), Calendar.month (date t), type t).

Definition month_key_eqb (a b : month_key) : bool :=
  let '(y1, m1, t1) := a in
  let '(y2, m2, t2) := b in
  (y1 =? y2) && (m1 =? m2) && txn_type_eqb t1 t2.

(** Ascending on year, then month, then the name of the type. *)
Definition month_key_leb (a b : month_key) : bool :=
  let '(y1, m1, t1) := a in
  let '(y2, m2, t2) := b in
  if y1 =? y2 then
    if m1 =? m2 then String.leb (type_name t1) (type_name t2)
    else m1 <? m2
  else y1 <? y2.

Definition getMonthlyTrends (userId : ObjectId) (months : Z)
  : M (list (group month_key)) :=
  t0 <- new_Date_now ;;
  tza <- LocalTZA ;;
  let startDate := Calendar.setMonth_back tza t0 months in
  l <- aggregate_match (with_date (Some (Instant startDate)) None (by_user userId)) ;;
  ret (sort (fun a b => month_key_leb (g_id a) (g_id b))
            (group_by month_key_eqb month_key_of l)).

End Model.

(** ** The controllers *)

Record list_query := {
  rq_page : option Z;
  rq_limit : option Z;
  rq_type : option string;
  rq_category : option string;
  rq_startDate : date_param;
  rq_endDate : date_param;
  rq_search : option string;
  rq_sortBy : option string;
  rq_sortOrder : option string
}.

Record pagination := {
  currentPage : Z;
  totalPages : jsnum;
  totalItems : Z;
  itemsPerPage : Z;
  hasNextPage : bool;
  hasPrevPage : bool
}.

Record page_result := {
  data : list Transaction;
  paging : pagination
}.

Record summary := {
  income : Z;
  expense : Z;
  balance : Z;
  incomeCount : Z;
  expenseCount : Z;
  totalTransactions : Z
}.

Definition allowed_type (ty : string) : bool :=
  existsb (String.eqb ty) ["income"; "expense"].


Module Controller.

(** The [query] object that [getTransactions] builds. *)
Definition list_predicate (uid : ObjectId) (rq : list_query) : query :=
  let query := by_user uid in
  let query :=
    if truthy (rq_type rq) && allowed_type (str (rq_type rq))
    then with_type (str (rq_type rq)) query else query in
  let query :=
    if truthy (rq_category rq)
    then with_category (str (rq_category rq)) query else query in
  let query :=
    if date_truthy (rq_startDate rq) || date_truthy (rq_endDate rq)
    then with_date
           (if date_truthy (rq_startDate rq)
            then Some (new_Date (rq_startDate rq)) else None)
           (if date_truthy (rq_endDate rq)
            then Some (new_Date (rq_endDate rq)) else None)
           query
    else query in
  let query :=
    if truthy (rq_search rq) then with_or (str (rq_search rq)) query
    else query in
  query.

Definition getTransactions (uid : ObjectId) (rq : list_query)
  : M (response page_result) :=
  try_catch
    (let page := or_else (rq_page rq) 1 in
     let limit := or_else (rq_limit rq) 10 in
     let sortBy := or_else (rq_sortBy rq) "date" in
     let sortOrder := or_else (rq_sortOrder rq) "desc" in
     let query := list_predicate uid rq in
     let dir := if String.eqb sortOrder "desc" then -1 else 1 in
     let skip := (page - 1) * limit in
     r <- both (find query sortBy dir skip limit) (countDocuments query) ;;
     let '(transactions, total) := r in
     let totalPages := Math_ceil_div total limit in
     ret (Ok 200
            {| data := transactions;
               paging :=
                 {| currentPage := page;
                    totalPages := totalPages;
                    totalItems := total;
                    itemsPerPage := limit;
                    hasNextPage := js_lt page totalPages;
                    hasPrevPage := 1 <? page |} |}))
    (fun _ => ret (Fail 500 "Server error fetching transactions" [])).

Definition getTransaction (uid : ObjectId) (id : req_id)
  : M (response Transaction) :=
  try_catch
    (transaction <- findOne (with_id (IdIs id) (by_user uid)) ;;
     match transaction with
     | None => ret (Fail 404 "Transaction not found" [])
     | Some t => ret (Ok 200 t)
     end)
    (fun _ => ret (Fail 500 "Server error fetching transaction" [])).

(** The document handed to [create]: the body, with [user] overwritten by
    the requesting user. *)
Definition transactionData (uid : ObjectId) (b : body) : body :=
  {| b_user := Some uid;
     b_type := b_type b;
     b_amount := b_amount b;
     b_category := b_category b;
     b_description := b_description b;
     b_date := b_date b;
     b_notes := b_notes b |}.

Definition createTransaction (uid : ObjectId) (b : body)
  : M (response Transaction) :=
  try_catch
    (transaction <- create (transactionData uid b) ;;
     ret (Ok 201 transaction))
    (fun error =>
       match error with
       | ValidationError errors => ret (Fail 400 "Validation failed" errors)
       | _ => ret (Fail 500 "Server error creating transaction" [])
       end).

Definition updateTransaction (uid : ObjectId) (id : req_id) (b : body)
  : M (response (option Transaction)) :=
  try_catch
    (transaction <- findOne (with_id (IdIs id) (by_user uid)) ;;
     match transaction with
     | None => ret (Fail 404 "Transaction not found" [])
     | Some _ =>
         transaction <- findByIdAndUpdate id b ;;
         ret (Ok 200 transaction)
     end)
    (fun error =>
       match error with
       | ValidationError errors => ret (Fail 400 "Validation failed" errors)
       | _ => ret (Fail 500 "Server error updating transaction" [])
       end).

Definition deleteTransaction (uid : ObjectId) (id : req_id)
  : M (response unit) :=
  try_catch
    (transaction <- findOne (with_id (IdIs id) (by_user uid)) ;;
     match transaction with
     | None => ret (Fail 404 "Transaction not found" [])
     | Some _ =>
         findByIdAndDelete id ;;;
         ret (Ok 200 tt)
     end)
    (fun _ => ret (Fail 500 "Server error deleting transaction" [])).

Definition zero_summary : summary :=
  {| income := 0; expense := 0; balance := 0;
     incomeCount := 0; expenseCount := 0; totalTransactions := 0 |}.

(** The body of the [forEach] over the groups. *)
Definition format_item (f : summary) (item : group txn_type) : summary :=
  if String.eqb (type_name (g_id item)) "income" then
    {| income := total item; expense := expense f; balance := balance f;
       incomeCount := count item; expenseCount := expenseCount f;
       totalTransactions := totalTransactions f |}
  else if String.eqb (type_name (g_id item)) "expense" then
    {| income := income f; expense := total item; balance := balance f;
       incomeCount := incomeCount f; expenseCount := count item;
       totalTransactions := totalTransactions f |}
  else f.

Definition formattedSummary (groups : list (group txn_type)) : summary :=
  let f := fold_left format_item groups zero_summary in
  {| income := income f; expense := expense f;
     balance := income f - expense f;
     incomeCount := incomeCount f; expenseCount := expenseCount f;
     totalTransactions := incomeCount f + expenseCount f |}.

Definition getTransactionSummary (uid : ObjectId)
    (startDate endDate : option Z) : M (response summary) :=
  try_catch
    (groups <- Model.getUserSummary uid startDate endDate ;;
     ret (Ok 200 (formattedSummary groups)))
    (fun _ => ret (Fail 500 "Server error fetching transaction summary" [])).

Definition getCategoryBreakdown (uid : ObjectId) (ty : string)
    (startDate endDate : option Z) : M (response (list (group string))) :=
  try_catch
    (if negb (allowed_type ty)
     then ret (Fail 400 "Type must be either income or expense" [])
     else
       breakdown <- Model.getCategoryBreakdown uid ty startDate endDate ;;
       ret (Ok 200 breakdown))
    (fun _ => ret (Fail 500 "Server error fetching category breakdown" [])).

(** [months] is the query parameter, 12 when absent. *)
Definition getMonthlyTrends (uid : ObjectId) (months : option Z)
  : M (response (list (group Model.month_key))) :=
  try_catch
    (trends <- Model.getMonthlyTrends uid (or_else months 12) ;;
     ret (Ok 200 trends))
    (fun _ => ret (Fail 500 "Server error fetching monthly trends" [])).

(** [transactionIds] is [None] when the body does not hold an array; the
    data of a success is [deletedCount]. *)
Definition bulkDeleteTransactions (uid : ObjectId)
    (transactionIds : option (list json_id)) : M (response Z) :=
  try_catch
    (match transactionIds with
     | None | Some [] =>
         ret (Fail 400 "Please provide an array of transaction IDs" [])
     | Some ids =>
         let validIds := filter isValid ids in
         if negb (Nat.eqb (List.length validIds) (List.length ids))
         then ret (Fail 400 "Some transaction IDs are invalid" [])
         else
           deletedCount <-
             deleteMany (with_id (IdIn validIds) (by_user uid)) ;;
           ret (Ok 200 deletedCount)
     end)
    (fun _ => ret (Fail 500 "Server error deleting transactions" [])).

End Controller.

(** * Vocabulary of the statements *)

(** ** Running a request *)

(** A request served on the collection [s] at time [t0], with an empty log. *)
Definition run {A} (m : M A) (s : store) (t0 : Z) : outcome A * world :=
  m {| docs := s; calls := []; now := t0; zone := utc |}.

Definition logged (w : world) (cs : list store_call) : world :=
  {| docs := docs w; calls := calls w ++ cs; now := now w; zone := zone w |}.

(** The collection with the documents of the other users taken away. *)
Definition own_world (uid : ObjectId) (w : world) : world :=
  {| docs := filter (owned uid) (docs w); calls := calls w; now := now w; zone := zone w |}.

(** ** The documents that an aggregation keeps *)

Definition sum_amounts (l : list Transaction) : Z :=
  fold_right (fun t a => amount t + a) 0 l.

Definition has_type (ty : txn_type) (t : Transaction) : bool :=
  txn_type_eqb (type t) ty.

(** The documents that the two date-ranged pipelines keep: those of the
    user, within the range when both of its ends are given. *)
Definition selected (uid : ObjectId) (startDate endDate : option Z)
    (t : Transaction) : bool :=
  owned uid t &&
  match startDate, endDate with
  | Some lo, Some hi => (lo <=? date t) && (date t <=? hi)
  | _, _ => true
  end.

(** The documents that the breakdown groups: the selected ones whose type
    has the name [ty]. *)
Definition selected_of_type (uid : ObjectId) (ty : string)
    (startDate endDate : option Z) (t : Transaction) : bool :=
  selected uid startDate endDate t && String.eqb (type_name (type t)) ty.

(** The [$match] stage of the two date-ranged pipelines. *)
Definition with_range (startDate endDate : option Z) (q : query) : query :=
  if both_given startDate endDate
  then with_date (opt_instant startDate) (opt_instant endDate) q
  else q.

(** The range as the specification words it: each bound that is supplied
    constrains [date], also when the other one is absent. *)
Definition spec_in_range (startDate endDate : option Z) (t : Transaction) : bool :=
  opt_test startDate (fun lo => lo <=? date t)
  && opt_test endDate (fun hi => date t <=? hi).


(** ** Groups

    What the output of a [$group] stage must be, for a key function [key]
    and an equality test [eqb] on keys. *)

Section GroupVocabulary.
Context {K : Type} (eqb : K -> K -> bool) (key : Transaction -> K).

(** The documents of [l] that carry the key [k]. *)
Definition bucket (k : K) (l : list Transaction) : list Transaction :=
  filter (fun t => eqb (key t) k) l.

(** The group that the documents of key [k] make, if there are any. *)
Definition group_of (k : K) (l : list Transaction) : option (group K) :=
  match bucket k l with
  | [] => None
  | b => Some {| g_id := k; total := sum_amounts b;
                 count := Z.of_nat (List.length b) |}
  end.

Definition lookup (k : K) (gs : list (group K)) : option (group K) :=
  List.find (fun g => eqb (g_id g) k) gs.

End GroupVocabulary.

(** ** List requests and their pages *)

Definition page_of (rq : list_query) : Z := or_else (rq_page rq) 1.
Definition limit_of (rq : list_query) : Z := or_else (rq_limit rq) 10.
Definition dir_of (rq : list_query) : Z :=
  if String.eqb (or_else (rq_sortOrder rq) "desc") "desc" then -1 else 1.

(** The whole sorted sequence of the documents that a list request
    matches. *)
Definition sorted_matches (uid : ObjectId) (rq : list_query) (s : store)
  : list Transaction :=
  sort_docs (or_else (rq_sortBy rq) "date") (dir_of rq)
    (filter (matches (Controller.list_predicate uid rq)) s).

Definition no_filter : list_query :=
  {| rq_page := None; rq_limit := None; rq_type := None; rq_category := None;
     rq_startDate := NoDate; rq_endDate := NoDate; rq_search := None;
     rq_sortBy := None; rq_sortOrder := None |}.

Definition with_startDate (d : date_param) (rq : list_query) : list_query :=
  {| rq_page := rq_page rq; rq_limit := rq_limit rq; rq_type := rq_type rq;
     rq_category := rq_category rq; rq_startDate := d;
     rq_endDate := rq_endDate rq; rq_search := rq_search rq;
     rq_sortBy := rq_sortBy rq; rq_sortOrder := rq_sortOrder rq |}.


Definition with_page (n : Z) (rq : list_query) : list_query :=
  {| rq_page := Some n; rq_limit := rq_limit rq; rq_type := rq_type rq;
     rq_category := rq_category rq; rq_startDate := rq_startDate rq;
     rq_endDate := rq_endDate rq; rq_search := rq_search rq;
     rq_sortBy := rq_sortBy rq; rq_sortOrder := rq_sortOrder rq |}.

Definition with_limit (n : Z) (rq : list_query) : list_query :=
  {| rq_page := rq_page rq; rq_limit := Some n; rq_type := rq_type rq;
     rq_category := rq_category rq; rq_startDate := rq_startDate rq;
     rq_endDate := rq_endDate rq; rq_search := rq_search rq;
     rq_sortBy := rq_sortBy rq; rq_sortOrder := rq_sortOrder rq |}.


(** The records that the same request shows when asked for page [n]. *)
Definition page_data (w : world) (uid : ObjectId) (rq : list_query) (n : Z)
  : list Transaction :=
  match fst (Controller.getTransactions uid (with_page n rq) w) with
  | Return (Ok _ r) => data r
  | _ => []
  end.

(** ** Occurrence of a search string *)

(** Two characters are the same letter, case aside: they are equal, or one
    is an upper-case letter of ASCII (codes 65 to 90) and the other is its
    lower-case form (the code plus 32). *)
Definition same_letter (a b : ascii) : Prop :=
  a = b
  \/ (65 <= nat_of_ascii a <= 90 /\ nat_of_ascii b = nat_of_ascii a + 32)%nat
  \/ (65 <= nat_of_ascii b <= 90 /\ nat_of_ascii a = nat_of_ascii b + 32)%nat.

(** Two strings of the same length, character by character the same
    letters. *)
Fixpoint same_text (s1 s2 : string) : Prop :=
  match s1, s2 with
  | EmptyString, EmptyString => True
  | String a r1, String b r2 => same_letter a b /\ same_text r1 r2
  | _, _ => False
  end.

(** [needle] occurs in [hay] as a substring, letter case aside. *)
Definition ci_substring (needle hay : string) : Prop :=
  exists pre mid post : string,
    hay = (pre ++ mid ++ post)%string /\ same_text needle mid.

Definition field_contains (needle : string) (v : option string) : Prop :=
  match v with Some s => ci_substring needle s | None => False end.

(** The search string occurs in the description, the category or the
    notes. *)
Definition occurs (needle : string) (t : Transaction) : Prop :=
  field_contains needle (description t)
  \/ ci_substring needle (category t)
  \/ field_contains needle (notes t).


(** ** Single documents and bulk delete *)

(** The predicate [{ _id: id, user: uid }] of the ownership lookup, and the
    predicate [{ _id: id }] of the write that follows it. *)
Definition own_doc (uid : ObjectId) (id : req_id) : query :=
  with_id (IdIs id) (by_user uid).

Definition any_doc (id : req_id) : query := with_id (IdIs id) q_all.

(** The documents that a bulk delete of [ids] by [uid] removes. *)
Definition bulk_target (uid : ObjectId) (ids : list json_id) (t : Transaction)
  : bool :=
  owned uid t && existsb (N.eqb (_id t)) (oids ids).

(** ** The operations and what isolation asks of them *)

(** The operations of the transaction layer, as the router lists them, and
    their answers. *)
Inductive operation :=
| ListTransactions (rq : list_query)
| GetTransaction (id : req_id)
| UpdateTransaction (id : req_id) (b : body)
| DeleteTransaction (id : req_id)
| BulkDelete (transactionIds : option (list json_id))
| Summary (startDate endDate : option Z)
| CategoryBreakdown (ty : string) (startDate endDate : option Z)
| MonthlyTrends (months : option Z).

Inductive reply :=
| Listed (r : response page_result)
| Fetched (r : response Transaction)
| Updated (r : response (option Transaction))
| Deleted (r : response unit)
| BulkDeleted (r : response Z)
| Summarised (r : response summary)
| BrokenDown (r : response (list (group string)))
| Trended (r : response (list (group Model.month_key))).

Definition fmap {A B} (f : A -> B) (m : M A) : M B := x <- m ;; ret (f x).

Definition route (uid : ObjectId) (op : operation) : M reply :=
  match op with
  | ListTransactions rq => fmap Listed (Controller.getTransactions uid rq)
  | GetTransaction id => fmap Fetched (Controller.getTransaction uid id)
  | UpdateTransaction id b => fmap Updated (Controller.updateTransaction uid id b)
  | DeleteTransaction id => fmap Deleted (Controller.deleteTransaction uid id)
  | BulkDelete ids => fmap BulkDeleted (Controller.bulkDeleteTransactions uid ids)
  | Summary sd ed => fmap Summarised (Controller.getTransactionSummary uid sd ed)
  | CategoryBreakdown ty sd ed =>
      fmap BrokenDown (Controller.getCategoryBreakdown uid ty sd ed)
  | MonthlyTrends months => fmap Trended (Controller.getMonthlyTrends uid months)
  end.

(** The documents that an answer carries. *)
Definition returned (r : reply) : list Transaction :=
  match r with
  | Listed (Ok _ p) => data p
  | Fetched (Ok _ t) => [t]
  | Updated (Ok _ (Some t)) => [t]
  | _ => []
  end.

Definition reply_of (o : outcome reply) : list Transaction :=
  match o with Return r => returned r | Throw _ => [] end.

(** A store call is scoped when its predicate names the user. *)
Definition scoped (uid : ObjectId) (c : store_call) : bool :=
  match call_predicate c with
  | Some q => match q_user q with Some u => N.eqb u uid | None => false end
  | None => false
  end.

(** What isolation asks of one request: the answer does not depend on the
    documents of the other users; every document in it is one of the
    requester's, or the updated form of one; the documents of the other users
    stay in the collection; every document of the collection afterwards is
    one from before or carries the identifier of one of the requester's; and
    each store call is scoped to the requester, or is the write by [_id] that
    follows a scoped lookup which found that [_id] among the requester's
    documents. *)
Definition isolation_at (w : world) (uid : ObjectId) (op : operation) : Prop :=
  fst (route uid op (own_world uid w)) = fst (route uid op w)
  /\ (forall t, In t (reply_of (fst (route uid op w))) ->
        exists t0, In t0 (docs w) /\ user t0 = uid /\ _id t0 = _id t
                   /\ (t = t0 \/ exists id b, op = UpdateTransaction id b
                                               /\ t = apply_update b t0))
  /\ (forall t, In t (docs w) -> user t <> uid ->
        In t (docs (snd (route uid op w))))
  /\ (forall t, In t (docs (snd (route uid op w))) ->
        In t (docs w)
        \/ exists t0, In t0 (docs w) /\ user t0 = uid /\ _id t0 = _id t)
  /\ exists cs, calls (snd (route uid op w)) = calls w ++ cs
       /\ forall c, In c cs ->
            scoped uid c = true
            \/ exists i t0,
                 (c = FindByIdAndUpdate (GoodId i) \/ c = FindByIdAndDelete (GoodId i))
                 /\ In t0 (docs w) /\ user t0 = uid /\ _id t0 = i.

(** ** Sample documents *)

Definition early_income : Transaction :=
  {| _id := 1%N; user := 7%N; type := Income; amount := 500;
     category := "Salary"; description := None; date := 10; notes := None |}.

Definition two_owned : store :=
  [ {| _id := 1%N; user := 7%N; type := Expense; amount := 5000;
       category := "Food"; description := None; date := 10; notes := None |};
    {| _id := 2%N; user := 7%N; type := Income; amount := 100000;
       category := "Salary"; description := None; date := 20; notes := None |} ].

Definition dotted : Transaction :=
  {| _id := 1%N; user := 7%N; type := Expense; amount := 5000;
     category := "Food"; description := Some "abc"; date := 10;
     notes := None |}.

Definition foreign : Transaction :=
  {| _id := 2%N; user := 8%N; type := Income; amount := 100000;
     category := "Salary"; description := None; date := 20; notes := None |}.

(** The two transactions of user A in the scenario of the specification:
    5 and 10 January 2024. *)
Definition january : store :=
  [ {| _id := 1%N; user := 1%N; type := Expense; amount := 5000;
       category := "Food"; description := None; date := 1704412800000;
       notes := None |};
    {| _id := 2%N; user := 1%N; type := Income; amount := 100000;
       category := "Salary"; description := None; date := 1704844800000;
       notes := None |} ].

Definition to_other_user : body :=
  {| b_user := Some 8%N; b_type := Some "expense"; b_amount := Some 5000;
     b_category := Some "Food"; b_description := Some "abc"; b_date := Some 10;
     b_notes := None |}.

(** * Further vocabulary

    Definitions for the rest of the controllers, for the callers of the
    model in [userController.js] and for the client's calls. *)

(** ** Schema bounds of a stored document *)

Definition within (n : nat) (v : option string) : Prop :=
  match v with Some s => (String.length s <= n)%nat | None => True end.

(** What the validators of the schema ask of the paths kept in
    [Transaction]. *)
Definition schema_ok (t : Transaction) : Prop :=
  1 <= amount t <= 100000000
  /\ category t <> ""
  /\ (String.length (category t) <= 50)%nat
  /\ within 200 (description t)
  /\ within 500 (notes t).

Definition with_rq_type (ty : option string) (rq : list_query) : list_query :=
  {| rq_page := rq_page rq; rq_limit := rq_limit rq; rq_type := ty;
     rq_category := rq_category rq; rq_startDate := rq_startDate rq;
     rq_endDate := rq_endDate rq; rq_search := rq_search rq;
     rq_sortBy := rq_sortBy rq; rq_sortOrder := rq_sortOrder rq |}.

(** What a list request without pattern filters asks of a document. *)
Definition type_passes (rq : list_query) (t : Transaction) : Prop :=
  match rq_type rq with
  | Some ty =>
      if truthy (Some ty) && allowed_type ty then type_name (type t) = ty else True
  | None => True
  end.

Definition from_passes (rq : list_query) (t : Transaction) : Prop :=
  match rq_startDate rq with
  | NoDate => True
  | DateString (Instant lo) => lo <= date t
  | DateString InvalidDate => False
  end.

Definition until_passes (rq : list_query) (t : Transaction) : Prop :=
  match rq_endDate rq with
  | NoDate => True
  | DateString (Instant hi) => date t <= hi
  | DateString InvalidDate => False
  end.

Definition sum_totals {K} (gs : list (group K)) : Z :=
  fold_right (fun g a => total g + a) 0 gs.

Definition sum_counts {K} (gs : list (group K)) : Z :=
  fold_right (fun g a => count g + a) 0 gs.

(** A body that changes the amount only. *)
Definition new_amount : body :=
  {| b_user := None; b_type := None; b_amount := Some 7500; b_category := None;
     b_description := None; b_date := None; b_notes := None |}.

(** The document that a creation by [uid] with body [b] stores. *)
Definition created (w : world) (uid : ObjectId) (b : body) : Transaction :=
  {| _id := fresh_id (docs w);
     user := uid;
     type := cast_type (b_type b) Expense;
     amount := or_else (b_amount b) 0;
     category := or_else (b_category b) "";
     description := b_description b;
     date := or_else (b_date b) (now w);
     notes := b_notes b |}.

(** The paths that make the creation fail. *)
Definition create_errors (uid : ObjectId) (b : body) : list string :=
  validate_required (Controller.transactionData uid b)
  ++ validate (Controller.transactionData uid b).

Definition lunch : body :=
  {| b_user := Some 8%N; b_type := Some "expense"; b_amount := Some 1250;
     b_category := Some "Food"; b_description := None; b_date := None;
     b_notes := None |}.

(** For patterns in which every character stands for itself: the category
    holds the [category] parameter, and one of the searched paths holds the
    [search] parameter, letter case aside. *)
Definition category_passes (rq : list_query) (t : Transaction) : Prop :=
  if truthy (rq_category rq)
  then ci_substring (str (rq_category rq)) (category t) else True.

Definition search_passes (rq : list_query) (t : Transaction) : Prop :=
  if truthy (rq_search rq) then occurs (str (rq_search rq)) t else True.

(** All that a list request asks of a document of the user. *)
Definition passes (rq : list_query) (t : Transaction) : Prop :=
  type_passes rq t /\ category_passes rq t /\ from_passes rq t
  /\ until_passes rq t /\ search_passes rq t.

Definition with_sortOrder (o : option string) (rq : list_query) : list_query :=
  {| rq_page := rq_page rq; rq_limit := rq_limit rq; rq_type := rq_type rq;
     rq_category := rq_category rq; rq_startDate := rq_startDate rq;
     rq_endDate := rq_endDate rq; rq_search := rq_search rq;
     rq_sortBy := rq_sortBy rq; rq_sortOrder := o |}.

(** ** The dashboard's reading of a summary *)

(** The object that [formatStats] of [getDashboardStats] builds. *)
Record stats := {
  st_income : Z;
  st_expense : Z;
  st_balance : Z;
  st_count : Z
}.

(** The body of its [forEach]: the count is added to, not assigned. *)
Definition formatStats_item (f : stats) (item : group txn_type) : stats :=
  if String.eqb (type_name (g_id item)) "income" then
    {| st_income := total item; st_expense := st_expense f;
       st_balance := st_balance f; st_count := st_count f + count item |}
  else if String.eqb (type_name (g_id item)) "expense" then
    {| st_income := st_income f; st_expense := total item;
       st_balance := st_balance f; st_count := st_count f + count item |}
  else f.

Definition formatStats (groups : list (group txn_type)) : stats :=
  let f := fold_left formatStats_item groups
             {| st_income := 0; st_expense := 0; st_balance := 0; st_count := 0 |} in
  {| st_income := st_income f; st_expense := st_expense f;
     st_balance := st_income f - st_expense f; st_count := st_count f |}.

(** ** Closing an account

    The user documents are kept abstract: [user_id] reads [_id] and
    [comparePassword] is the method of that name.  The user collection is
    passed along explicitly, next to the transaction store. *)

Section Account.
Variable User : Type.
Variable user_id : User -> ObjectId.
Variable comparePassword : User -> string -> bool.

Definition User_findById (uid : ObjectId) (users : list User) : option User :=
  List.find (fun u => N.eqb (user_id u) uid) users.

Fixpoint User_findByIdAndDelete (uid : ObjectId) (users : list User) : list User :=
  match users with
  | [] => []
  | u :: r => if N.eqb (user_id u) uid then r
              else u :: User_findByIdAndDelete uid r
  end.

(** [password] is [req.body.password].  Calling [comparePassword] on the
    [null] of a missing user throws inside the [try], so that case gives the
    answer of the [catch] block. *)
Definition deleteAccount (uid : ObjectId) (password : option string)
    (users : list User) : M (response unit * list User) :=
  try_catch
    (if negb (truthy password)
     then ret (Fail 400 "Password is required to delete account" [], users)
     else
       match User_findById uid users with
       | None => ret (Fail 500 "Server error deleting account" [], users)
       | Some user =>
           if negb (comparePassword user (str password))
           then ret (Fail 400 "Password is incorrect" [], users)
           else
             deleteMany (by_user uid) ;;;
             ret (Ok 200 tt, User_findByIdAndDelete uid users)
       end)
    (fun _ => ret (Fail 500 "Server error deleting account" [], users)).

(** Whether the request is entitled to close the account. *)
Definition password_accepted (uid : ObjectId) (password : option string)
    (users : list User) : bool :=
  truthy password &&
  match User_findById uid users with
  | Some user => comparePassword user (str password)
  | None => false
  end.

End Account.

(** Users as an identifier with a stored password, compared literally. *)
Definition plain_user : Type := ObjectId * string.
Definition plain_compare (u : plain_user) (p : string) : bool :=
  String.eqb (snd u) p.

(** ** The client's bulk delete

    A parsed JSON body whose fields hold arrays of identifiers, as far as
    the bulk delete reads it. *)
Definition json_body := list (string * list json_id).

(** [req.body[field]] when it is an array. *)
Definition body_array (field : string) (b : json_body) : option (list json_id) :=
  option_map snd (List.find (fun kv => String.eqb (fst kv) field) b).

(** The body that [transactionApi.bulkDeleteTransactions(ids)] of the
    client sends: [{ ids }]. *)
Definition api_bulkDeleteTransactions (ids : list req_id) : json_body :=
  [("ids", map JString ids)].

(** The handler on a parsed body: [const { transactionIds } = req.body]. *)
Definition bulk_delete_request (uid : ObjectId) (b : json_body)
  : M (response Z) :=
  Controller.bulkDeleteTransactions uid (body_array "transactionIds" b).

(** A body whose amount is above the maximum of the schema. *)
Definition too_much : body :=
  {| b_user := None; b_type := None; b_amount := Some 100000001;
     b_category := None; b_description := None; b_date := None;
     b_notes := None |}.

(** ** The domain on which list requests are modelled *)

(** The schema paths that [Transaction] keeps.  A sort on one of them is
    modelled; [sortBy] may name any other path of the schema, and a name
    that is no path at all. *)
Definition kept_paths : list string :=
  ["date"; "amount"; "category"; "type"; "description"; "notes"; "_id"; "user"].

Definition sort_path_kept (rq : list_query) : Prop :=
  In (or_else (rq_sortBy rq) "date") kept_paths.

(** A pattern of the modelled fragment: ordinary characters and [.]. *)
Definition pattern_modelled (p : option string) : Prop :=
  Regex.compile (str p) <> None.

Definition patterns_modelled (rq : list_query) : Prop :=
  pattern_modelled (rq_category rq) /\ pattern_modelled (rq_search rq).


(** ** The order of a sorted list, stated on its own *)




(** ** The Gregorian calendar, stated on its own *)

Definition leap_year (y : Z) : bool :=
  (y mod 4 =? 0) && (negb (y mod 100 =? 0) || (y mod 400 =? 0)).

(** The number of days of month [m] (1 to 12) of year [y]. *)
Definition days_in_month (y m : Z) : Z :=
  if m =? 2 then (if leap_year y then 29 else 28)
  else if (m =? 4) || (m =? 6) || (m =? 9) || (m =? 11) then 30
  else 31.

(** [month_begins y m d]: the first day of month [m] of year [y] is day
    number [d], counted from 1 January 1970.  The months follow one another
    from that day, forwards and backwards. *)
Inductive month_begins : Z -> Z -> Z -> Prop :=
| begins_epoch : month_begins 1970 1 0
| begins_next (y m d : Z) :
    month_begins y m d -> 1 <= m < 12 ->
    month_begins y (m + 1) (d + days_in_month y m)
| begins_next_year (y d : Z) :
    month_begins y 12 d -> month_begins (y + 1) 1 (d + 31)
| begins_prev (y m d : Z) :
    month_begins y (m + 1) d -> 1 <= m < 12 ->
    month_begins y m (d - days_in_month y m)
| begins_prev_year (y d : Z) :
    month_begins (y + 1) 1 d -> month_begins y 12 (d - 31).

(** [months_before tza t n start]: [start] is the instant [n] calendar
    months before [t] for a server whose time zone is [tza].  The local
    time of [t] falls [dd] days and [tod] milliseconds into month [m] of
    year [y]; the local time of [start] falls [dd] days and [tod]
    milliseconds into the month that lies [n] months earlier, running into
    the month after it when that month is too short. *)
Definition months_before (tza : time_zone) (t n start : Z) : Prop :=
  exists y m d0 dd tod y' m' d0' : Z,
    month_begins y m d0
    /\ 0 <= dd < days_in_month y m
    /\ 0 <= tod < 86400000
    /\ t + tza t true = (d0 + dd) * 86400000 + tod
    /\ 12 * y' + m' = 12 * y + m - n
    /\ month_begins y' m' d0'
    /\ start = (d0' + dd) * 86400000 + tod
               - tza ((d0' + dd) * 86400000 + tod) false.


(** A server five and a half hours ahead of UTC all year. *)
Definition five_thirty : time_zone := fun _ _ => 19800000.

(** ** Checking the calendar over one cycle of 400 years *)

Fixpoint all_from (f : Z -> bool) (z : Z) (n : nat) : bool :=
  match n with
  | O => true
  | S k => f z && all_from f (z + 1) k
  end.


Definition triple_eqb (a b : Z * Z * Z) : bool :=
  let '(a1, a2, a3) := a in
  let '(b1, b2, b3) := b in
  (a1 =? b1) && (a2 =? b2) && (a3 =? b3).

(** The days of a month have the civil dates of that month, and the next
    month begins when they are over. *)
Definition month_ok (y m : Z) : bool :=
  all_from (fun j => triple_eqb (Calendar.civil (Calendar.first_day y m + j))
                                (y, m, j + 1))
           0 (Z.to_nat (days_in_month y m))
  && (if m =? 12
      then Calendar.first_day (y + 1) 1 =? Calendar.first_day y 12 + 31
      else Calendar.first_day y (m + 1)
           =? Calendar.first_day y m + days_in_month y m).

(** ** Amounts whose sums are exact *)

(** The amounts of the collection are whole units, not negative, and add up
    to at most 2^53 units: the floating-point sums of the store are then
    the exact sums, in whatever order and grouping they are taken. *)
Definition whole_amounts (s : store) : bool :=
  forallb (fun t => (0 <=? amount t) && (amount t mod 100 =? 0)) s
  && (sum_amounts s <=? 900719925474099200).

(** ** The elements of a bulk delete, by their kind *)

(** A well-formed identifier string. *)
Definition id_string (j : json_id) : Prop := exists o, j = JString (GoodId o).

(** A value that [isValid] refuses: a malformed string, or a value that is
    neither a string nor a number and does not look like an ObjectId. *)
Definition not_an_id (j : json_id) : Prop :=
  (exists raw, j = JString (BadId raw)) \/ j = JOther false.

(** A value that is no string and that [isValid] accepts: a number, or an
    object that looks like an ObjectId. *)
Definition not_a_string (j : json_id) : Prop :=
  (exists n, j = JNumber n) \/ j = JOther true.

(** * Properties *)

(** ** Sorting *)

Section SortFacts.
Context {A : Type} (leb : A -> A -> bool).
Hypothesis leb_total : forall a b, leb a b = true \/ leb b a = true.

Let le (a b : A) : Prop := leb a b = true.

Lemma insert_perm (x : A) (l : list A) : Permutation (insert leb x l) (x :: l).
Proof.
  induction l as [|y r IH]; simpl.
  - apply Permutation_refl.
  - destruct (leb x y).
    + apply Permutation_refl.
    + eapply perm_trans; [apply perm_skip, IH | apply perm_swap].
Qed.

Lemma sort_perm (l : list A) : Permutation (sort leb l) l.
Proof.
  induction l as [|x r IH]; simpl.
  - constructor.
  - eapply perm_trans; [apply insert_perm | apply perm_skip, IH].
Qed.

Lemma insert_hd (x y : A) (l : list A) :
  le y x -> HdRel le y l -> HdRel le y (insert leb x l).
Proof.
  intros Hyx Hl. destruct l as [|z r]; simpl.
  - constructor. exact Hyx.
  - destruct (leb x z); constructor; [exact Hyx | now inversion Hl].
Qed.

Lemma insert_sorted (x : A) (l : list A) :
  Sorted le l -> Sorted le (insert leb x l).
Proof.
  induction 1 as [|y r Hr IH Hy]; simpl.
  - repeat constructor.
  - destruct (leb x y) eqn:E.
    + constructor; [constructor; assumption | constructor; exact E].
    + constructor; [exact IH|].
      apply insert_hd; [|exact Hy].
      destruct (leb_total x y) as [H|H]; [congruence | exact H].
Qed.

Lemma sort_sorted (l : list A) : Sorted le (sort leb l).
Proof.
  induction l as [|x r IH]; simpl.
  - constructor.
  - apply insert_sorted, IH.
Qed.
End SortFacts.

Lemma sort_length {A} (leb : A -> A -> bool) (l : list A) :
  List.length (sort leb l) = List.length l.
Proof. apply Permutation_length, sort_perm. Qed.

Lemma sort_in {A} (leb : A -> A -> bool) (l : list A) (x : A) :
  In x (sort leb l) <-> In x l.
Proof.
  split; apply Permutation_in; [|apply Permutation_sym]; apply sort_perm.
Qed.

(** ** Grouping *)

Lemma sum_amounts_app (l1 l2 : list Transaction) :
  sum_amounts (l1 ++ l2) = sum_amounts l1 + sum_amounts l2.
Proof. induction l1 as [|t r IH]; simpl; [reflexivity | rewrite IH; lia]. Qed.

Section GroupFacts.
Context {K : Type} (eqb : K -> K -> bool).
Hypothesis eqb_spec : forall a b, eqb a b = true <-> a = b.
Variable key : Transaction -> K.

Lemma eqb_refl k : eqb k k = true.
Proof. now apply eqb_spec. Qed.

Lemma eqb_false {a b} : a <> b -> eqb a b = false.
Proof.
  intros H. destruct (eqb a b) eqn:E; [|reflexivity].
  apply eqb_spec in E. contradiction.
Qed.

Lemma bucket_snoc k l t :
  bucket eqb key k (l ++ [t]) = bucket eqb key k l ++ (if eqb (key t) k then [t] else []).
Proof. unfold bucket. rewrite filter_app. reflexivity. Qed.

Lemma accumulate_keys k x gs :
  map g_id (accumulate eqb k x gs) =
  if existsb (fun g => eqb (g_id g) k) gs then map g_id gs
  else map g_id gs ++ [k].
Proof.
  induction gs as [|g r IH]; simpl; [reflexivity|].
  destruct (eqb (g_id g) k) eqn:E; simpl; [reflexivity|].
  rewrite IH. destruct (existsb _ r); reflexivity.
Qed.

Lemma existsb_key k gs :
  existsb (fun g => eqb (g_id g) k) gs = true <-> In k (map g_id gs).
Proof.
  rewrite existsb_exists, in_map_iff. split.
  - intros [g [Hg E]]. exists g. split; [now apply eqb_spec | exact Hg].
  - intros [g [E Hg]]. exists g. split; [exact Hg | now apply eqb_spec].
Qed.

Lemma accumulate_nodup k x gs :
  NoDup (map g_id gs) -> NoDup (map g_id (accumulate eqb k x gs)).
Proof.
  intros H. rewrite accumulate_keys.
  destruct (existsb _ gs) eqn:E; [exact H|].
  apply NoDup_app; [exact H | repeat constructor; intros [] | ].
  intros a Ha [<-|[]]. apply existsb_key in Ha. congruence.
Qed.

Lemma lookup_accumulate_same k x gs :
  lookup eqb k (accumulate eqb k x gs) =
  Some match lookup eqb k gs with
       | Some g => {| g_id := g_id g; total := total g + x; count := count g + 1 |}
       | None => {| g_id := k; total := x; count := 1 |}
       end.
Proof.
  unfold lookup. induction gs as [|g r IH]; simpl.
  - rewrite eqb_refl. reflexivity.
  - destruct (eqb (g_id g) k) eqn:E; simpl; rewrite E; [reflexivity | exact IH].
Qed.

Lemma lookup_accumulate_other k k' x gs :
  k <> k' -> lookup eqb k' (accumulate eqb k x gs) = lookup eqb k' gs.
Proof.
  intros Hk. unfold lookup. induction gs as [|g r IH]; simpl.
  - rewrite (eqb_false Hk). reflexivity.
  - destruct (eqb (g_id g) k) eqn:E; simpl.
    + apply eqb_spec in E. rewrite E, (eqb_false Hk). reflexivity.
    + destruct (eqb (g_id g) k'); [reflexivity | exact IH].
Qed.

Lemma lookup_key k gs g : lookup eqb k gs = Some g -> g_id g = k /\ In g gs.
Proof.
  intros H. apply find_some in H. destruct H as [Hin E].
  apply eqb_spec in E. tauto.
Qed.

Lemma group_of_snoc k l t :
  group_of eqb key k (l ++ [t]) =
  if eqb (key t) k then
    Some match group_of eqb key k l with
         | Some g => {| g_id := g_id g; total := total g + amount t;
                        count := count g + 1 |}
         | None => {| g_id := k; total := amount t; count := 1 |}
         end
  else group_of eqb key k l.
Proof.
  unfold group_of. rewrite bucket_snoc.
  destruct (eqb (key t) k).
  - destruct (bucket eqb key k l) as [|a b] eqn:E; simpl.
    + f_equal. f_equal. lia.
    + destruct (b ++ [t]) eqn:E'; [now destruct b|]. rewrite <- E'.
      f_equal. f_equal.
      * change (a :: b ++ [t]) with ((a :: b) ++ [t]).
        rewrite sum_amounts_app. simpl. lia.
      * simpl. rewrite length_app. simpl. lia.
  - rewrite app_nil_r. reflexivity.
Qed.

Lemma group_by_from l : forall gs l0,
  NoDup (map g_id gs) ->
  (forall k, lookup eqb k gs = group_of eqb key k l0) ->
  let out := fold_left (fun gs t => accumulate eqb (key t) (amount t) gs) l gs in
  NoDup (map g_id out) /\ forall k, lookup eqb k out = group_of eqb key k (l0 ++ l).
Proof.
  induction l as [|t r IH]; intros gs l0 Hnd Hgs; simpl.
  - rewrite app_nil_r. split; assumption.
  - replace (l0 ++ t :: r) with ((l0 ++ [t]) ++ r)
      by (rewrite <- app_assoc; reflexivity).
    apply IH; [now apply accumulate_nodup|].
    intros k. rewrite group_of_snoc.
    destruct (eqb (key t) k) eqn:E.
    + apply eqb_spec in E. subst k.
      rewrite lookup_accumulate_same, Hgs. reflexivity.
    + rewrite lookup_accumulate_other, Hgs; [reflexivity|].
      intros Heq. rewrite Heq, eqb_refl in E. discriminate.
Qed.

Lemma group_by_nodup l : NoDup (map g_id (group_by eqb key l)).
Proof.
  apply (group_by_from l [] []); [constructor | reflexivity].
Qed.

Lemma group_by_lookup l k : lookup eqb k (group_by eqb key l) = group_of eqb key k l.
Proof.
  apply (group_by_from l [] []); [constructor | reflexivity].
Qed.

Lemma lookup_in gs g :
  NoDup (map g_id gs) -> In g gs -> lookup eqb (g_id g) gs = Some g.
Proof.
  unfold lookup. induction gs as [|h r IH]; simpl; [tauto|].
  intros Hnd [->|Hin].
  - rewrite eqb_refl. reflexivity.
  - inversion Hnd as [|? ? Hh Hr]; subst.
    destruct (eqb (g_id h) (g_id g)) eqn:E; [|now apply IH].
    apply eqb_spec in E. exfalso. apply Hh. rewrite E.
    now apply in_map.
Qed.

(** Every group of the output stands for the documents of its key. *)
Lemma group_by_in l g :
  In g (group_by eqb key l) <-> group_of eqb key (g_id g) l = Some g.
Proof.
  rewrite <- group_by_lookup. split.
  - apply lookup_in, group_by_nodup.
  - intros H. now apply lookup_key in H.
Qed.

Lemma group_of_some {k l g} :
  group_of eqb key k l = Some g ->
  g_id g = k /\ bucket eqb key k l <> []
  /\ total g = sum_amounts (bucket eqb key k l)
  /\ count g = Z.of_nat (List.length (bucket eqb key k l)).
Proof.
  unfold group_of. destruct (bucket eqb key k l) eqn:E; [discriminate|].
  intros [= <-]. simpl. repeat split. discriminate.
Qed.

Lemma group_of_none k l : group_of eqb key k l = None <-> bucket eqb key k l = [].
Proof.
  unfold group_of. destruct (bucket eqb key k l); split; congruence.
Qed.

(** Every key present among the documents has its group. *)
Lemma group_by_complete l t :
  In t l -> In (key t) (map g_id (group_by eqb key l)).
Proof.
  intros Hin.
  destruct (group_of eqb key (key t) l) as [g|] eqn:E.
  - pose proof (group_of_some E) as [Hk _].
    rewrite <- Hk in E. apply group_by_in in E.
    rewrite <- Hk. now apply in_map.
  - apply group_of_none in E.
    assert (Hb : In t (bucket eqb key (key t) l)).
    { apply filter_In. split; [exact Hin | apply eqb_refl]. }
    rewrite E in Hb. destruct Hb.
Qed.
End GroupFacts.

Lemma txn_type_eqb_spec (a b : txn_type) : txn_type_eqb a b = true <-> a = b.
Proof. destruct a, b; simpl; split; congruence. Qed.

(** ** The scope of the date-ranged pipelines *)

Lemma matches_summary_scope uid sd ed t :
  matches (with_range sd ed (by_user uid)) t = selected uid sd ed t.
Proof.
  unfold with_range, selected, owned, matches.
  destruct sd as [lo|], ed as [hi|]; simpl;
    rewrite ?andb_true_r, ?andb_assoc; reflexivity.
Qed.

(** ** The summary *)

Section Summary.
Import Controller.

Lemma format_item_income f g :
  g_id g = Income ->
  format_item f g =
  {| income := total g; expense := expense f; balance := balance f;
     incomeCount := count g; expenseCount := expenseCount f;
     totalTransactions := totalTransactions f |}.
Proof. intros E. unfold format_item. rewrite E. reflexivity. Qed.

Lemma format_item_expense f g :
  g_id g = Expense ->
  format_item f g =
  {| income := income f; expense := total g; balance := balance f;
     incomeCount := incomeCount f; expenseCount := count g;
     totalTransactions := totalTransactions f |}.
Proof. intros E. unfold format_item. rewrite E. reflexivity. Qed.

Lemma lookup_cons ty (g : group txn_type) r :
  lookup txn_type_eqb ty (g :: r) =
  if txn_type_eqb (g_id g) ty then Some g else lookup txn_type_eqb ty r.
Proof. reflexivity. Qed.

Lemma fold_format_item gs : forall f,
  NoDup (map g_id gs) ->
  let r := fold_left format_item gs f in
  income r = match lookup txn_type_eqb Income gs with
             | Some g => total g | None => income f end
  /\ incomeCount r = match lookup txn_type_eqb Income gs with
                     | Some g => count g | None => incomeCount f end
  /\ expense r = match lookup txn_type_eqb Expense gs with
                 | Some g => total g | None => expense f end
  /\ expenseCount r = match lookup txn_type_eqb Expense gs with
                      | Some g => count g | None => expenseCount f end.
Proof.
  induction gs as [|g r IH]; intros f Hnd.
  - simpl. tauto.
  - inversion Hnd as [|? ? Hg Hr]; subst.
    destruct (IH (format_item f g) Hr) as (A & B & C & D).
    assert (Hnone : lookup txn_type_eqb (g_id g) r = None).
    { destruct (lookup txn_type_eqb (g_id g) r) as [h|] eqn:E; [|reflexivity].
      apply (lookup_key txn_type_eqb txn_type_eqb_spec) in E.
      destruct E as [E Hin]. exfalso. apply Hg. rewrite <- E.
      now apply in_map. }
    cbv zeta. change (fold_left format_item (g :: r) f)
      with (fold_left format_item r (format_item f g)).
    rewrite A, B, C, D, !lookup_cons.
    destruct (g_id g) eqn:Eg; simpl; rewrite Hnone.
    + rewrite (format_item_income f g Eg). simpl. tauto.
    + rewrite (format_item_expense f g Eg). simpl. tauto.
Qed.

(** A group that the aggregation did not produce leaves its two fields at
    zero, whatever the other groups are. *)
Lemma formattedSummary_absent (gs : list (group txn_type)) :
  ((forall g, In g gs -> g_id g <> Income) ->
     income (formattedSummary gs) = 0 /\ incomeCount (formattedSummary gs) = 0)
  /\ ((forall g, In g gs -> g_id g <> Expense) ->
     expense (formattedSummary gs) = 0 /\ expenseCount (formattedSummary gs) = 0).
Proof.
  unfold formattedSummary. simpl.
  assert (H : forall f,
    ((forall g, In g gs -> g_id g <> Income) ->
       income (fold_left format_item gs f) = income f
       /\ incomeCount (fold_left format_item gs f) = incomeCount f)
    /\ ((forall g, In g gs -> g_id g <> Expense) ->
       expense (fold_left format_item gs f) = expense f
       /\ expenseCount (fold_left format_item gs f) = expenseCount f)).
  { induction gs as [|g r IH]; intros f; simpl; [tauto|].
    destruct (IH (format_item f g)) as [IH1 IH2].
    split; intros Hno.
    - destruct IH1 as [-> ->]; [intros; apply Hno; now right|].
      assert (Hg : g_id g <> Income) by (apply Hno; now left).
      unfold format_item. destruct (g_id g); simpl; tauto.
    - destruct IH2 as [-> ->]; [intros; apply Hno; now right|].
      assert (Hg : g_id g <> Expense) by (apply Hno; now left).
      unfold format_item. destruct (g_id g); simpl; tauto. }
  apply (H zero_summary).
Qed.

Lemma lookup_total_count (ty : txn_type) (l : list Transaction) :
  match lookup txn_type_eqb ty (group_by txn_type_eqb type l) with
  | Some g => total g | None => 0 end = sum_amounts (filter (has_type ty) l)
  /\ match lookup txn_type_eqb ty (group_by txn_type_eqb type l) with
     | Some g => count g | None => 0 end
     = Z.of_nat (List.length (filter (has_type ty) l)).
Proof.
  rewrite (group_by_lookup txn_type_eqb txn_type_eqb_spec).
  unfold group_of, bucket. fold (has_type ty).
  destruct (filter (has_type ty) l); simpl; split; reflexivity.
Qed.

(** C3.  For every user and every date range the summary request answers
    200 with the six-field object: [income] and [expense] are the sums of
    the amounts of the selected income and expense transactions, the two
    counts are their numbers, [balance] is [income - expense] and
    [totalTransactions] is [incomeCount + expenseCount]; a type without a
    group in the aggregation output leaves its fields at zero, and when no
    transaction is selected the answer is the all-zero object, not an
    error.  The collection is left as it was. *)
Theorem getTransactionSummary_fixed_shape
    (w : world) (uid : ObjectId) (startDate endDate : option Z) :
  let matched := filter (selected uid startDate endDate) (docs w) in
  exists d : summary,
    fst (getTransactionSummary uid startDate endDate w) = Return (Ok 200 d)
    /\ docs (snd (getTransactionSummary uid startDate endDate w)) = docs w
    /\ income d = sum_amounts (filter (has_type Income) matched)
    /\ incomeCount d = Z.of_nat (List.length (filter (has_type Income) matched))
    /\ expense d = sum_amounts (filter (has_type Expense) matched)
    /\ expenseCount d = Z.of_nat (List.length (filter (has_type Expense) matched))
    /\ balance d = income d - expense d
    /\ totalTransactions d = incomeCount d + expenseCount d
    /\ (matched = [] -> d = zero_summary)
    /\ (forall gs : list (group txn_type),
          ((forall g, In g gs -> g_id g <> Income) ->
             income (formattedSummary gs) = 0
             /\ incomeCount (formattedSummary gs) = 0)
          /\ ((forall g, In g gs -> g_id g <> Expense) ->
             expense (formattedSummary gs) = 0
             /\ expenseCount (formattedSummary gs) = 0)).
Proof.
  intros matched.
  set (q := if both_given startDate endDate
            then with_date (opt_instant startDate) (opt_instant endDate) (by_user uid)
            else by_user uid).
  assert (Hm : filter (matches q) (docs w) = matched).
  { apply filter_ext. intros t. apply matches_summary_scope. }
  exists (formattedSummary (group_by txn_type_eqb type matched)).
  assert (Hrun : getTransactionSummary uid startDate endDate w =
                 (Return (Ok 200 (formattedSummary (group_by txn_type_eqb type matched))),
                  {| docs := docs w; calls := calls w ++ [Aggregate q]; now := now w; zone := zone w |})).
  { unfold getTransactionSummary, Model.getUserSummary, try_catch, bind,
      aggregate_match, call, get_docs, ret. simpl. fold q. rewrite Hm.
    reflexivity. }
  rewrite Hrun. simpl.
  pose proof (fold_format_item (group_by txn_type_eqb type matched) zero_summary
                (group_by_nodup txn_type_eqb txn_type_eqb_spec type matched))
    as (Hi & Hic & He & Hec).
  simpl in Hi, Hic, He, Hec.
  destruct (lookup_total_count Income matched) as [Ti Ci].
  destruct (lookup_total_count Expense matched) as [Te Ce].
  rewrite Hi, Hic, He, Hec, Ti, Ci, Te, Ce.
  do 8 (split; [reflexivity|]).
  split.
  - intros E. subst matched. rewrite E. reflexivity.
  - intros gs. apply formattedSummary_absent.
Qed.
End Summary.

(** The scenario of the specification: user 1 over January 2024, and user
    2, who has no transaction. *)
Example summary_january_2024 :
  fst (run (Controller.getTransactionSummary 1%N
              (Some 1704067200000) (Some 1706745599999)) january 0)
  = Return (Ok 200 {| income := 100000; expense := 5000; balance := 95000;
                      incomeCount := 1; expenseCount := 1;
                      totalTransactions := 2 |}).
Proof. reflexivity. Qed.

Example summary_without_transactions :
  fst (run (Controller.getTransactionSummary 2%N None None) january 0)
  = Return (Ok 200 Controller.zero_summary).
Proof. reflexivity. Qed.

Lemma Sorted_weaken {A} (R S : A -> A -> Prop) (l : list A) :
  (forall a b, R a b -> S a b) -> Sorted R l -> Sorted S l.
Proof.
  intros HRS. induction 1 as [|a l Hl IH Ha]; constructor; [exact IH|].
  destruct Ha; constructor. now apply HRS.
Qed.

Lemma allowed_type_spec (ty : string) :
  allowed_type ty = true <-> ty = "income" \/ ty = "expense".
Proof.
  unfold allowed_type. simpl. rewrite !orb_true_iff, !String.eqb_eq.
  intuition discriminate.
Qed.

(** ** The category breakdown *)

Lemma matches_breakdown_scope uid ty sd ed t :
  matches (with_range sd ed (with_type ty (by_user uid))) t
  = selected_of_type uid ty sd ed t.
Proof.
  unfold with_range, selected_of_type, selected, owned, matches.
  destruct sd as [lo|], ed as [hi|]; simpl;
    destruct (user t =? uid)%N, (String.eqb (type_name (type t)) ty);
    simpl; rewrite ?andb_true_r, ?andb_false_r; reflexivity.
Qed.

(** C6.  The category breakdown answers 400 (the validation error) exactly
    when the type is neither "income" nor "expense".  For an allowed type it
    answers 200 with one entry for each category that occurs among the
    filtered transactions and no other entry, no category twice; an entry
    carries the sum and the number of the transactions of its category; and
    the entries are in descending order of that sum. *)
Theorem getCategoryBreakdown_validates_groups_sorts
    (w : world) (uid : ObjectId) (ty : string) (startDate endDate : option Z) :
  let filtered := filter (selected_of_type uid ty startDate endDate) (docs w) in
  let r := fst (Controller.getCategoryBreakdown uid ty startDate endDate w) in
  (allowed_type ty = true <-> ty = "income" \/ ty = "expense")
  /\ if allowed_type ty then
       exists out : list (group string),
         r = Return (Ok 200 out)
         /\ NoDup (map g_id out)
         /\ (forall c, In c (map g_id out) <->
                       exists t, In t filtered /\ category t = c)
         /\ (forall g, In g out ->
               total g = sum_amounts
                           (filter (fun t => String.eqb (category t) (g_id g)) filtered)
               /\ count g = Z.of_nat (List.length
                           (filter (fun t => String.eqb (category t) (g_id g)) filtered)))
         /\ Sorted (fun a b => total b <= total a) out
     else
       r = Return (Fail 400 "Type must be either income or expense" []).
Proof.
  intros filtered r. split; [apply allowed_type_spec|].
  subst r. unfold Controller.getCategoryBreakdown, try_catch.
  destruct (allowed_type ty) eqn:Hty; simpl; [|reflexivity].
  set (q := if both_given startDate endDate
            then with_date (opt_instant startDate) (opt_instant endDate)
                   (with_type ty (by_user uid))
            else with_type ty (by_user uid)).
  assert (Hm : filter (matches q) (docs w) = filtered).
  { apply filter_ext. intros t. apply matches_breakdown_scope. }
  unfold Model.getCategoryBreakdown, bind, aggregate_match, call, get_docs, ret.
  simpl. fold q. rewrite Hm.
  set (gs := group_by String.eqb category filtered).
  set (leb := fun a b : group string => total b <=? total a).
  exists (sort leb gs). split; [reflexivity|].
  assert (Hperm : Permutation (sort leb gs) gs) by apply sort_perm.
  assert (Hnd : NoDup (map g_id gs))
    by apply (group_by_nodup String.eqb String.eqb_eq).
  split; [|split; [|split]].
  - eapply Permutation_NoDup; [|exact Hnd].
    apply Permutation_sym, Permutation_map, Hperm.
  - intros c. split.
    + intros Hc.
      apply (Permutation_in _ (Permutation_map g_id Hperm)) in Hc.
      apply in_map_iff in Hc. destruct Hc as [g [<- Hg]].
      apply (group_by_in String.eqb String.eqb_eq) in Hg.
      destruct (group_of_some _ _ Hg) as (_ & Hne & _).
      unfold bucket in Hne.
      destruct (filter _ filtered) as [|t b] eqn:E; [congruence|].
      assert (Ht : In t (filter (fun t => String.eqb (category t) (g_id g)) filtered))
        by (rewrite E; now left).
      apply filter_In in Ht. destruct Ht as [Hin Hc].
      exists t. split; [exact Hin | now apply String.eqb_eq].
    + intros [t [Hin <-]].
      apply (Permutation_in _ (Permutation_sym (Permutation_map g_id Hperm))).
      now apply (group_by_complete String.eqb String.eqb_eq).
  - intros g Hg. apply (Permutation_in _ Hperm) in Hg.
    apply (group_by_in String.eqb String.eqb_eq) in Hg.
    destruct (group_of_some _ _ Hg) as (_ & _ & Ht & Hc).
    split; assumption.
  - apply Sorted_weaken with (R := fun a b => leb a b = true).
    + intros a b H. unfold leb in H. now apply Z.leb_le.
    + apply sort_sorted. intros a b. unfold leb.
      rewrite !Z.leb_le. lia.
Qed.

(** ** The monthly trend *)




(** *** The calendar of the model is the Gregorian calendar *)

Lemma all_from_spec (f : Z -> bool) (n : nat) : forall z,
  all_from f z n = true -> forall x, z <= x < z + Z.of_nat n -> f x = true.
Proof.
  induction n as [|k IH]; intros z H x Hx.
  - simpl in Hx. lia.
  - cbn [all_from] in H. apply andb_true_iff in H. destruct H as [H0 H1].
    destruct (Z.eq_dec x z) as [->|Hne]; [exact H0|].
    apply (IH (z + 1) H1). lia.
Qed.


Lemma months_ok_era :
  all_from (fun y => all_from (month_ok y) 1 12) 0 (Z.to_nat 400) = true.
Proof. vm_compute. reflexivity. Qed.

Lemma civil_shift (d e : Z) :
  Calendar.civil (d + 146097 * e)
  = let '(y, m, dd) := Calendar.civil d in (y + 400 * e, m, dd).
Proof.
  unfold Calendar.civil.
  replace (d + 146097 * e + 719468) with (d + 719468 + e * 146097) by ring.
  rewrite Z.div_add by lia.
  set (q := (d + 719468) / 146097).
  replace (d + 719468 + e * 146097 - (q + e) * 146097)
    with (d + 719468 - q * 146097) by ring.
  set (doe := d + 719468 - q * 146097).
  cbv zeta.
  set (yoe := (doe - doe / 1460 + doe / 36524 - doe / 146096) / 365).
  set (doy := doe - (365 * yoe + yoe / 4 - yoe / 100)).
  set (mp := (5 * doy + 2) / 153).
  f_equal. f_equal. ring.
Qed.

Lemma first_day_shift (y m e : Z) :
  Calendar.first_day (y + 400 * e) m = Calendar.first_day y m + 146097 * e.
Proof.
  unfold Calendar.first_day. cbv zeta.
  replace (if m <=? 2 then y + 400 * e - 1 else y + 400 * e)
    with ((if m <=? 2 then y - 1 else y) + e * 400)
    by (destruct (m <=? 2); ring).
  set (y' := if m <=? 2 then y - 1 else y).
  rewrite Z.div_add by lia.
  replace (y' + e * 400 - (y' / 400 + e) * 400) with (y' - y' / 400 * 400) by ring.
  ring.
Qed.

Lemma leap_year_shift (y e : Z) : leap_year (y + 400 * e) = leap_year y.
Proof.
  unfold leap_year.
  replace ((y + 400 * e) mod 4) with (y mod 4)
    by (replace (y + 400 * e) with (y + (100 * e) * 4) by ring;
        now rewrite Z.mod_add by lia).
  replace ((y + 400 * e) mod 100) with (y mod 100)
    by (replace (y + 400 * e) with (y + (4 * e) * 100) by ring;
        now rewrite Z.mod_add by lia).
  replace ((y + 400 * e) mod 400) with (y mod 400)
    by (replace (y + 400 * e) with (y + e * 400) by ring;
        now rewrite Z.mod_add by lia).
  reflexivity.
Qed.

Lemma days_in_month_shift (y m e : Z) :
  days_in_month (y + 400 * e) m = days_in_month y m.
Proof. unfold days_in_month. now rewrite leap_year_shift. Qed.

Lemma days_in_month_bounds (y m : Z) : 28 <= days_in_month y m <= 31.
Proof.
  unfold days_in_month.
  destruct (m =? 2); [destruct (leap_year y); lia|].
  destruct ((m =? 4) || (m =? 6) || (m =? 9) || (m =? 11)); lia.
Qed.


Lemma month_ok_spec (y m : Z) :
  0 <= y < 400 -> 1 <= m <= 12 -> month_ok y m = true.
Proof.
  intros Hy Hm.
  assert (H : all_from (month_ok y) 1 12 = true).
  { apply (all_from_spec _ (Z.to_nat 400) 0 months_ok_era y).
    rewrite Z2Nat.id by lia. lia. }
  apply (all_from_spec (month_ok y) 12%nat 1 H).
  change (Z.of_nat 12) with 12. lia.
Qed.

(** the months follow one another *)
Lemma first_day_next (y m : Z) :
  1 <= m <= 12 ->
  (if m =? 12 then Calendar.first_day (y + 1) 1 = Calendar.first_day y 12 + 31
   else Calendar.first_day y (m + 1) = Calendar.first_day y m + days_in_month y m).
Proof.
  intros Hm.
  set (e := y / 400). set (y0 := y - 400 * e).
  assert (Hy0 : 0 <= y0 < 400).
  { subst y0 e. pose proof (Z.div_mod y 400 ltac:(lia)).
    pose proof (Z.mod_pos_bound y 400 ltac:(lia)). lia. }
  pose proof (month_ok_spec y0 m Hy0 Hm) as H.
  unfold month_ok in H. apply andb_true_iff in H. destruct H as [_ H].
  replace y with (y0 + 400 * e) by (subst y0; ring).
  destruct (m =? 12) eqn:E.
  - apply Z.eqb_eq in E. subst m. apply Z.eqb_eq in H.
    replace (y0 + 400 * e + 1) with (y0 + 1 + 400 * e) by ring.
    rewrite !first_day_shift. lia.
  - apply Z.eqb_eq in H. rewrite !first_day_shift, days_in_month_shift. lia.
Qed.

(** the days of a month *)
Lemma civil_first_day (y m j : Z) :
  1 <= m <= 12 -> 0 <= j < days_in_month y m ->
  Calendar.civil (Calendar.first_day y m + j) = (y, m, j + 1).
Proof.
  intros Hm Hj.
  set (e := y / 400). set (y0 := y - 400 * e).
  assert (Hy0 : 0 <= y0 < 400).
  { subst y0 e. pose proof (Z.div_mod y 400 ltac:(lia)).
    pose proof (Z.mod_pos_bound y 400 ltac:(lia)). lia. }
  pose proof (month_ok_spec y0 m Hy0 Hm) as H.
  unfold month_ok in H. apply andb_true_iff in H. destruct H as [H _].
  replace y with (y0 + 400 * e) in * by (subst y0; ring).
  rewrite days_in_month_shift in Hj.
  assert (Hj' : 0 <= j < 0 + Z.of_nat (Z.to_nat (days_in_month y0 m))).
  { rewrite Z2Nat.id by lia. lia. }
  pose proof (all_from_spec _ _ _ H j Hj') as Hc. cbv beta in Hc.
  rewrite first_day_shift.
  replace (Calendar.first_day y0 m + 146097 * e + j)
    with (Calendar.first_day y0 m + j + 146097 * e) by ring.
  rewrite civil_shift.
  destruct (Calendar.civil (Calendar.first_day y0 m + j)) as [[a b] c].
  unfold triple_eqb in Hc. rewrite !andb_true_iff, !Z.eqb_eq in Hc.
  destruct Hc as [[-> ->] ->]. reflexivity.
Qed.


Lemma month_begins_inv (y m d : Z) :
  month_begins y m d -> 1 <= m <= 12 /\ d = Calendar.first_day y m.
Proof.
  induction 1 as [|y m d _ [IHm IHd] Hm|y d _ [IHm IHd]
                  |y m d _ [IHm IHd] Hm|y d _ [IHm IHd]].
  - split; [lia | reflexivity].
  - split; [lia|]. pose proof (first_day_next y m ltac:(lia)) as H.
    destruct (Z.eqb_spec m 12); lia.
  - split; [lia|]. pose proof (first_day_next y 12 ltac:(lia)) as H.
    cbn [Z.eqb Pos.eqb] in H. lia.
  - split; [lia|]. pose proof (first_day_next y m ltac:(lia)) as H.
    destruct (Z.eqb_spec m 12); lia.
  - split; [lia|]. pose proof (first_day_next y 12 ltac:(lia)) as H.
    cbn [Z.eqb Pos.eqb] in H. lia.
Qed.





(** The day and the number of months determine the instant. *)
Lemma months_before_unique (tza : time_zone) (t n s1 s2 : Z) :
  months_before tza t n s1 -> months_before tza t n s2 -> s1 = s2.
Proof.
  intros (y & m & d0 & dd & tod & y' & m' & d0' & Hb & Hdd & Htod & Hl & Hi & Hb' & ->)
         (z & k & e0 & ee & tof & z' & k' & e0' & Gb & Gdd & Gtod & Gl & Gi & Gb' & ->).
  apply month_begins_inv in Hb, Hb', Gb, Gb'.
  destruct Hb as [Hm ->], Hb' as [Hm' ->], Gb as [Gm ->], Gb' as [Gm' ->].
  assert (Hday : Calendar.first_day y m + dd = Calendar.first_day z k + ee
                 /\ tod = tof) by lia.
  destruct Hday as [Hday <-].
  pose proof (civil_first_day y m dd Hm Hdd) as C1.
  pose proof (civil_first_day z k ee Gm Gdd) as C2.
  rewrite Hday, C2 in C1. injection C1 as E1 E2 E3. subst z k.
  assert (ee = dd) by lia. subst ee.
  assert (H : y' = z' /\ m' = k') by lia. destruct H as [-> ->].
  reflexivity.
Qed.

Lemma filter_filter_and {A} (p q : A -> bool) (l : list A) :
  filter q (filter p l) = filter (fun x => p x && q x) l.
Proof.
  induction l as [|x r IH]; simpl; [reflexivity|].
  destruct (p x); simpl; [destruct (q x)|]; now rewrite IH.
Qed.

(** On 31 March 2024 at 23:30 UTC a server five and a half hours ahead of
    UTC is at 1 April, 05:00: one month back is 1 March, 05:00 local time,
    which is 29 February, 23:30 UTC.  A server in UTC is at 31 March; one
    month back is "31 February", which is 2 March. *)
Example setMonth_follows_local_time :
  Calendar.setMonth_back five_thirty 1711927800000 1 = 1709249400000
  /\ Calendar.setMonth_back utc 1711927800000 1 = 1709422200000.
Proof. split; reflexivity. Qed.


(** On 8 February 2024, one month back is 8 January: of the two
    transactions of January only the later one is in the window. *)
Example trends_one_month :
  fst (run (Controller.getMonthlyTrends 1%N (Some 1)) january 1707350400000)
  = Return (Ok 200 [{| g_id := (2024, 1, Income); total := 100000; count := 1 |}]).
Proof. reflexivity. Qed.

Example trends_default_year :
  fst (run (Controller.getMonthlyTrends 1%N None) january 1707350400000)
  = Return (Ok 200 [{| g_id := (2024, 1, Expense); total := 5000; count := 1 |};
                    {| g_id := (2024, 1, Income); total := 100000; count := 1 |}]).
Proof. reflexivity. Qed.

(** The window follows the time zone of the server.  At 23:30 UTC on 31
    March 2024, with one month asked for, a transaction of 1 March, noon
    UTC, is in the trend of a server five and a half hours ahead of UTC and
    is not in the trend of a server in UTC. *)
Example trend_window_in_local_time :
  let march_first :=
    [ {| _id := 1%N; user := 1%N; type := Expense; amount := 5000;
         category := "Food"; description := None; date := 1709294400000;
         notes := None |} ] in
  fst (Controller.getMonthlyTrends 1%N (Some 1)
         {| docs := march_first; calls := []; now := 1711927800000;
            zone := five_thirty |})
  = Return (Ok 200 [{| g_id := (2024, 3, Expense); total := 5000; count := 1 |}])
  /\ fst (Controller.getMonthlyTrends 1%N (Some 1)
            {| docs := march_first; calls := []; now := 1711927800000;
               zone := utc |})
     = Return (Ok 200 []).
Proof. split; reflexivity. Qed.

(** ** The paginated list *)

Lemma matches_user (q : query) (uid : ObjectId) (t : Transaction) :
  q_user q = Some uid -> matches q t = true -> owned uid t = true.
Proof.
  intros Hq. unfold matches, owned. rewrite Hq. simpl.
  rewrite !andb_true_iff. tauto.
Qed.

Lemma in_firstn {A} (n : nat) (l : list A) (x : A) : In x (firstn n l) -> In x l.
Proof. intros H. rewrite <- (firstn_skipn n l). apply in_or_app. now left. Qed.

Lemma in_skipn {A} (n : nat) (l : list A) (x : A) : In x (skipn n l) -> In x l.
Proof. intros H. rewrite <- (firstn_skipn n l). apply in_or_app. now right. Qed.

Lemma in_cursor {A} (n k : Z) (l : list A) (x : A) :
  In x (cursor_limit n (cursor_skip k l)) -> In x l.
Proof.
  unfold cursor_limit, cursor_skip. destruct (n =? 0); intros H.
  - now apply in_skipn in H.
  - now apply in_firstn, in_skipn in H.
Qed.

Lemma getTransactions_ok (w : world) (uid : ObjectId) (rq : list_query) :
  castable (Controller.list_predicate uid rq) = true ->
  0 <= (page_of rq - 1) * limit_of rq ->
  Controller.getTransactions uid rq w =
  (Return (Ok 200
     {| data := cursor_limit (limit_of rq)
                  (cursor_skip ((page_of rq - 1) * limit_of rq)
                     (sorted_matches uid rq (docs w)));
        paging :=
          {| currentPage := page_of rq;
             totalPages :=
               Math_ceil_div
                 (Z.of_nat (List.length
                    (filter (matches (Controller.list_predicate uid rq)) (docs w))))
                 (limit_of rq);
             totalItems :=
               Z.of_nat (List.length
                 (filter (matches (Controller.list_predicate uid rq)) (docs w)));
             itemsPerPage := limit_of rq;
             hasNextPage :=
               js_lt (page_of rq)
                 (Math_ceil_div
                    (Z.of_nat (List.length
                       (filter (matches (Controller.list_predicate uid rq)) (docs w))))
                    (limit_of rq));
             hasPrevPage := 1 <? page_of rq |} |}),
   logged w [Find (Controller.list_predicate uid rq);
             CountDocuments (Controller.list_predicate uid rq)]).
Proof.
  intros Hc Hs.
  unfold Controller.getTransactions, try_catch, bind, both, find, countDocuments,
    cast, call, get_docs, ret, throw, bind.
  fold (page_of rq) (limit_of rq).
  rewrite Hc.
  destruct ((page_of rq - 1) * limit_of rq <? 0) eqn:E;
    [apply Z.ltb_lt in E; lia|].
  unfold logged, sorted_matches, dir_of. simpl.
  rewrite <- app_assoc. reflexivity.
Qed.

Lemma getTransactions_cast_error (w : world) (uid : ObjectId) (rq : list_query) :
  castable (Controller.list_predicate uid rq) = false ->
  Controller.getTransactions uid rq w =
  (Return (Fail 500 "Server error fetching transactions" []),
   logged w [Find (Controller.list_predicate uid rq);
             CountDocuments (Controller.list_predicate uid rq)]).
Proof.
  intros Hc.
  unfold Controller.getTransactions, try_catch, bind, both, find, countDocuments,
    cast, call, get_docs, ret, throw, bind.
  rewrite Hc. unfold logged. simpl. rewrite <- app_assoc. reflexivity.
Qed.

Lemma list_predicate_dates (uid : ObjectId) (rq : list_query) :
  q_gte (Controller.list_predicate uid rq)
  = (if date_truthy (rq_startDate rq) then Some (new_Date (rq_startDate rq)) else None)
  /\ q_lte (Controller.list_predicate uid rq)
  = (if date_truthy (rq_endDate rq) then Some (new_Date (rq_endDate rq)) else None)
  /\ q_id (Controller.list_predicate uid rq) = None
  /\ q_user (Controller.list_predicate uid rq) = Some uid.
Proof.
  unfold Controller.list_predicate.
  destruct (truthy (rq_type rq) && allowed_type (str (rq_type rq))),
    (truthy (rq_category rq)), (truthy (rq_search rq)),
    (date_truthy (rq_startDate rq)), (date_truthy (rq_endDate rq));
    simpl; repeat split; reflexivity.
Qed.

(** C8, as the code has it.  A list request whose [startDate] or [endDate]
    is a non-empty string that is not a date does fail, and the collection
    is left as it was; the failure is the generic server error (status 500,
    raised when the store casts the Invalid Date), with no field listed. *)
Theorem getTransactions_malformed_date_server_error
    (w : world) (uid : ObjectId) (rq : list_query) :
  rq_startDate rq = DateString InvalidDate
  \/ rq_endDate rq = DateString InvalidDate ->
  fst (Controller.getTransactions uid rq w)
  = Return (Fail 500 "Server error fetching transactions" [])
  /\ docs (snd (Controller.getTransactions uid rq w)) = docs w.
Proof.
  intros H.
  rewrite getTransactions_cast_error; [split; reflexivity|].
  destruct (list_predicate_dates uid rq) as (Hlo & Hhi & Hid & _).
  unfold castable. rewrite Hlo, Hhi, Hid.
  destruct H as [H|H]; rewrite H; simpl; [reflexivity|].
  destruct (date_truthy (rq_startDate rq)); [|reflexivity].
  destruct (new_Date (rq_startDate rq)); reflexivity.
Qed.

Lemma getTransactions_malformed_date_witness :
  (rq_startDate (with_startDate (DateString InvalidDate) no_filter)
     = DateString InvalidDate
   \/ rq_endDate (with_startDate (DateString InvalidDate) no_filter)
        = DateString InvalidDate)
  /\ fst (Controller.getTransactions 1%N
         (with_startDate (DateString InvalidDate) no_filter)
         {| docs := []; calls := []; now := 0; zone := utc |})
  = Return (Fail 500 "Server error fetching transactions" [])
  /\ docs (snd (Controller.getTransactions 1%N
                  (with_startDate (DateString InvalidDate) no_filter)
                  {| docs := []; calls := []; now := 0; zone := utc |})) = [].
Proof.
  split; [left; reflexivity|].
  apply (getTransactions_malformed_date_server_error
           {| docs := []; calls := []; now := 0; zone := utc |} 1%N
           (with_startDate (DateString InvalidDate) no_filter)).
  left. reflexivity.
Defined.

(** Against C8 as worded: the answer to a list request with a malformed
    [startDate] is the generic 500, not a validation error (400). *)
Lemma malformed_date_is_not_a_validation_error :
  fst (run (Controller.getTransactions 1%N
              (with_startDate (DateString InvalidDate) no_filter)) [] 0)
  = Return (Fail 500 "Server error fetching transactions" [])
  /\ ~ (exists message errors,
          fst (run (Controller.getTransactions 1%N
                      (with_startDate (DateString InvalidDate) no_filter)) [] 0)
          = Return (Fail 400 message errors)).
Proof.
  split; [reflexivity|].
  intros (message & errors & H). vm_compute in H. discriminate.
Qed.

(** ** The date range of the aggregations *)

(** Against C7 as worded: with [startDate] alone, a transaction dated
    before it still contributes to the summary and to the breakdown; the
    one-sided bound is not applied. *)
Lemma summary_ignores_one_sided_range :
  spec_in_range (Some 50) None early_income = false
  /\ owned 7%N early_income = true
  /\ fst (run (Controller.getTransactionSummary 7%N (Some 50) None)
            [early_income] 0)
     = Return (Ok 200 {| income := 500; expense := 0; balance := 500;
                         incomeCount := 1; expenseCount := 0;
                         totalTransactions := 1 |})
  /\ fst (run (Controller.getCategoryBreakdown 7%N "income" (Some 50) None)
            [early_income] 0)
     = Return (Ok 200 [{| g_id := "Salary"; total := 500; count := 1 |}]).
Proof. repeat split. Qed.

(** C7, as the code has it.  The summary and the category breakdown
    aggregate exactly the user's transactions that [selected] keeps (for the
    breakdown, those of the requested type among them).  When both
    [startDate] and [endDate] are supplied these are the transactions with
    [startDate <= date <= endDate], both ends included; when either one is
    absent, no constraint on [date] applies. *)
Theorem aggregation_date_range_needs_both_ends
    (w : world) (uid : ObjectId) (ty : string)
    (startDate endDate : option Z) (t : Transaction) :
  fst (Model.getUserSummary uid startDate endDate w)
  = Return (group_by txn_type_eqb type
              (filter (selected uid startDate endDate) (docs w)))
  /\ fst (Model.getCategoryBreakdown uid ty startDate endDate w)
     = Return (sort (fun a b => total b <=? total a)
                 (group_by String.eqb category
                    (filter (selected_of_type uid ty startDate endDate) (docs w))))
  /\ (selected_of_type uid ty startDate endDate t = true <->
      selected uid startDate endDate t = true /\ type_name (type t) = ty)
  /\ match startDate, endDate with
     | Some lo, Some hi =>
         selected uid startDate endDate t = true <->
         user t = uid /\ lo <= date t <= hi
     | _, _ =>
         selected uid startDate endDate t = true <-> user t = uid
     end.
Proof.
  split; [|split; [|split]].
  - unfold Model.getUserSummary, bind, aggregate_match, call, get_docs, ret.
    simpl. f_equal. f_equal. apply filter_ext. intros x.
    apply matches_summary_scope.
  - unfold Model.getCategoryBreakdown, bind, aggregate_match, call, get_docs, ret.
    simpl. f_equal. f_equal. f_equal. apply filter_ext. intros x.
    apply matches_breakdown_scope.
  - unfold selected_of_type. rewrite andb_true_iff, String.eqb_eq. tauto.
  - unfold selected, owned.
    destruct startDate as [lo|], endDate as [hi|];
      rewrite ?andb_true_iff, ?N.eqb_eq, ?Z.leb_le; tauto.
Qed.

(** ** Bulk delete *)

Lemma filter_all_length {A} (p : A -> bool) (l : list A) :
  Nat.eqb (List.length (filter p l)) (List.length l) = forallb p l.
Proof.
  assert (Hle : forall l', (List.length (filter p l') <= List.length l')%nat).
  { induction l' as [|x r IH]; simpl; [lia|]. destruct (p x); simpl; lia. }
  induction l as [|a r IH]; simpl; [reflexivity|].
  destruct (p a); simpl; [exact IH|].
  apply Nat.eqb_neq. specialize (Hle r). lia.
Qed.

Lemma filter_all {A} (p : A -> bool) (l : list A) :
  forallb p l = true -> filter p l = l.
Proof.
  induction l as [|a r IH]; simpl; [reflexivity|].
  destruct (p a); simpl; [intros H; now rewrite IH | discriminate].
Qed.

Lemma matches_bulk uid ids t :
  matches (with_id (IdIn ids) (by_user uid)) t = bulk_target uid ids t.
Proof.
  unfold matches, bulk_target, owned. simpl.
  rewrite ?andb_true_r. apply andb_comm.
Qed.

(** Against C5 as worded: one malformed identifier with two identifiers of
    transactions that the requester owns.  The request is rejected as a
    whole and nothing is deleted. *)
Lemma bulk_delete_rejects_malformed_id :
  run (Controller.bulkDeleteTransactions 7%N
         (Some [JString (BadId "not-an-id"); JString (GoodId 1%N);
                JString (GoodId 2%N)])) two_owned 0
  = (Return (Fail 400 "Some transaction IDs are invalid" []),
     {| docs := two_owned; calls := []; now := 0; zone := utc |}).
Proof. reflexivity. Qed.

Lemma bulkDeleteTransactions_run
    (w : world) (uid : ObjectId) (i : json_id) (ids : list json_id) :
  Controller.bulkDeleteTransactions uid (Some (i :: ids)) w =
  if forallb isValid (i :: ids) then
    if forallb casts (i :: ids) then
      (Return (Ok 200 (Z.of_nat (List.length
                 (filter (bulk_target uid (i :: ids)) (docs w))))),
       {| docs := filter (fun t => negb (bulk_target uid (i :: ids) t)) (docs w);
          calls := calls w ++
                   [DeleteMany (with_id (IdIn (i :: ids)) (by_user uid))];
          now := now w; zone := zone w |})
    else
      (Return (Fail 500 "Server error deleting transactions" []),
       logged w [DeleteMany (with_id (IdIn (i :: ids)) (by_user uid))])
  else (Return (Fail 400 "Some transaction IDs are invalid" []), w).
Proof.
  unfold Controller.bulkDeleteTransactions, try_catch.
  rewrite filter_all_length.
  destruct (forallb isValid (i :: ids)) eqn:E; simpl negb; cbv iota.
  - rewrite (filter_all _ _ E).
    cbv [negb bind deleteMany cast call get_docs put_docs ret throw].
    change (castable (with_id (IdIn (i :: ids)) (by_user uid)))
      with (forallb casts (i :: ids) && true && true).
    rewrite !andb_true_r.
    destruct (forallb casts (i :: ids)); cbv beta iota; cbn [docs calls now zone].
    + rewrite (filter_ext _ _ (matches_bulk uid (i :: ids))).
      f_equal. f_equal. apply filter_ext. intros t.
      now rewrite matches_bulk.
    + reflexivity.
  - unfold ret. reflexivity.
Qed.

Lemma in_oids (x : ObjectId) (ids : list json_id) :
  existsb (N.eqb x) (oids ids) = true <-> In (JString (GoodId x)) ids.
Proof.
  unfold oids. rewrite existsb_exists. split.
  - intros [y [Hy E]]. apply N.eqb_eq in E. subst y.
    apply in_flat_map in Hy. destruct Hy as [[[raw|o]|n|p] [Hin Ho]]; simpl in Ho;
      try destruct Ho.
    + subst o. exact Hin.
    + contradiction.
  - intros H. exists x. split; [|apply N.eqb_refl].
    apply in_flat_map. exists (JString (GoodId x)). split; [exact H | now left].
Qed.

(** A number among the identifiers passes the guard of the handler and is
    then refused by the cast of the store's predicate: the answer is the
    generic 500 and nothing is deleted. *)
Example bulk_delete_number_id_server_error :
  run (Controller.bulkDeleteTransactions 7%N
         (Some [JNumber 12345; JString (GoodId 1%N)])) two_owned 0
  = (Return (Fail 500 "Server error deleting transactions" []),
     {| docs := two_owned;
        calls := [DeleteMany (with_id (IdIn [JNumber 12345; JString (GoodId 1%N)])
                                (by_user 7%N))];
        now := 0; zone := utc |}).
Proof. reflexivity. Qed.

Lemma casts_isValid (ids : list json_id) :
  forallb casts ids = true -> forallb isValid ids = true.
Proof.
  induction ids as [|[[raw|o]|n|p] r IH]; simpl; try discriminate; auto.
Qed.

Lemma isValid_false (j : json_id) : isValid j = false <-> not_an_id j.
Proof.
  unfold not_an_id. destruct j as [[raw|o]|n|[|]]; simpl; split; intros H;
    try discriminate; try reflexivity;
    try (destruct H as [[? H]|H]; discriminate).
  - left. now exists raw.
  - now right.
Qed.

Lemma casts_true (j : json_id) : casts j = true <-> id_string j.
Proof.
  unfold id_string. destruct j as [[raw|o]|n|p]; simpl; split; intros H;
    try discriminate; try reflexivity; try (destruct H; discriminate).
  now exists o.
Qed.

Lemma forallb_isValid_false (l : list json_id) :
  forallb isValid l = false <-> Exists not_an_id l.
Proof.
  induction l as [|j r IH]; simpl.
  - split; [discriminate | intros H; inversion H].
  - rewrite andb_false_iff, isValid_false, IH. split.
    + intros [H|H]; [now left | now right].
    + intros H. inversion H; subst; tauto.
Qed.

Lemma forallb_casts_true (l : list json_id) :
  forallb casts l = true <-> Forall id_string l.
Proof.
  induction l as [|j r IH]; simpl.
  - split; [constructor | reflexivity].
  - rewrite andb_true_iff, casts_true, IH. split.
    + intros [H1 H2]. now constructor.
    + intros H. inversion H; subst; tauto.
Qed.

Lemma not_a_string_does_not_cast (l : list json_id) :
  Exists not_a_string l -> forallb casts l = false.
Proof.
  induction 1 as [j r [[n ->]| ->]|j r _ IH]; simpl.
  - reflexivity.
  - reflexivity.
  - rewrite IH. apply andb_false_r.
Qed.

(** C5, as the code has it.  A list in which some element does not pass
    [isValid] (a malformed string, [null]) is rejected as a whole (400)
    before the store is called, and nothing is deleted.  A list without
    such an element in which some element is no string (a number) reaches
    the store call, which throws when it casts that element: the answer is
    the generic 500 and nothing is deleted.  A non-empty list of
    well-formed identifier strings succeeds: the transactions of the
    requester whose identifier is listed are deleted, all other documents
    stay, and [deletedCount] is the number deleted; an identifier that
    names no transaction of the requester has no effect and raises no
    error. *)
Theorem bulkDeleteTransactions_all_or_count
    (w : world) (uid : ObjectId) (i : json_id) (ids : list json_id) :
  let r := Controller.bulkDeleteTransactions uid (Some (i :: ids)) w in
  let deleted := filter (bulk_target uid (i :: ids)) (docs w) in
  (Exists not_an_id (i :: ids) ->
     fst r = Return (Fail 400 "Some transaction IDs are invalid" [])
     /\ snd r = w)
  /\ (~ Exists not_an_id (i :: ids) -> Exists not_a_string (i :: ids) ->
      fst r = Return (Fail 500 "Server error deleting transactions" [])
      /\ docs (snd r) = docs w)
  /\ (Forall id_string (i :: ids) ->
      fst r = Return (Ok 200 (Z.of_nat (List.length deleted)))
      /\ (forall t, In t deleted <->
                    In t (docs w) /\ user t = uid
                    /\ In (JString (GoodId (_id t))) (i :: ids))
      /\ (forall t, In t (docs (snd r)) <-> In t (docs w) /\ ~ In t deleted)).
Proof.
  intros r deleted. subst r. rewrite bulkDeleteTransactions_run.
  split; [|split].
  - intros H. apply forallb_isValid_false in H. rewrite H. split; reflexivity.
  - intros Hv Hn.
    destruct (forallb isValid (i :: ids)) eqn:E;
      [|apply forallb_isValid_false in E; contradiction].
    rewrite (not_a_string_does_not_cast _ Hn). split; reflexivity.
  - intros Hs. apply forallb_casts_true in Hs.
    rewrite (casts_isValid _ Hs), Hs.
    cbn [fst snd docs]. split; [reflexivity|].
    assert (Hd : forall t, In t deleted <->
                   In t (docs w) /\ user t = uid
                   /\ In (JString (GoodId (_id t))) (i :: ids)).
    { intros t. unfold deleted, bulk_target, owned.
      rewrite filter_In, andb_true_iff, N.eqb_eq, in_oids. tauto. }
    split; [exact Hd|].
    intros t. rewrite filter_In, negb_true_iff. unfold deleted.
    rewrite filter_In. destruct (bulk_target uid (i :: ids) t); intuition congruence.
Qed.

(** ** Free-text search *)















(** ** Pages *)





Lemma opt_string_leb_total (a b : option string) :
  opt_string_leb a b = true \/ opt_string_leb b a = true.
Proof.
  destruct a, b; simpl; try tauto. apply String.leb_total.
Qed.

Lemma field_leb_total (path : string) (a b : Transaction) :
  field_leb path a b = true \/ field_leb path b a = true.
Proof.
  unfold field_leb.
  repeat match goal with
         | |- context [if ?c then _ else _] => destruct c
         end;
    try apply String.leb_total; try apply opt_string_leb_total;
    rewrite ?Z.leb_le, ?N.leb_le; try lia; tauto.
Qed.

Lemma sort_leb_total (path : string) (dir : Z) (a b : Transaction) :
  sort_leb path dir a b = true \/ sort_leb path dir b a = true.
Proof. unfold sort_leb. destruct (dir =? -1); apply field_leb_total. Qed.

Lemma distinct_NoDup (l : list ObjectId) : distinct l = true -> NoDup l.
Proof.
  induction l as [|x r IH]; simpl; [constructor|].
  rewrite andb_true_iff, negb_true_iff. intros [Hx Hr].
  constructor; [|now apply IH].
  intros Hin.
  assert (existsb (N.eqb x) r = true); [|congruence].
  apply existsb_exists. exists x. split; [exact Hin | apply N.eqb_refl].
Qed.

Lemma wf_store_NoDup (s : store) : wf_store s -> NoDup s.
Proof.
  intros H. apply distinct_NoDup in H.
  now apply NoDup_map_inv in H.
Qed.


Lemma ceil_div_bounds (total size : Z) :
  1 <= size ->
  (- ((- total) / size) - 1) * size < total <= - ((- total) / size) * size.
Proof.
  intros Hs.
  pose proof (Z.div_mod (- total) size ltac:(lia)) as Hd.
  pose proof (Z.mod_pos_bound (- total) size ltac:(lia)) as Hm.
  nia.
Qed.









(** ** Single documents *)

Lemma matches_own_doc uid id t :
  matches (own_doc uid id) t = id_test t (IdIs id) && owned uid t.
Proof. unfold matches, owned. simpl. now rewrite ?andb_true_r. Qed.

Lemma matches_any_doc id t : matches (any_doc id) t = id_test t (IdIs id).
Proof. unfold matches. simpl. now rewrite ?andb_true_r. Qed.

Lemma getTransaction_run (w : world) (uid : ObjectId) (id : req_id) :
  Controller.getTransaction uid id w =
  (Return match id with
          | BadId _ => Fail 500 "Server error fetching transaction" []
          | GoodId _ =>
              match List.find (matches (own_doc uid id)) (docs w) with
              | Some t => Ok 200 t
              | None => Fail 404 "Transaction not found" []
              end
          end,
   logged w [FindOne (own_doc uid id)]).
Proof.
  unfold Controller.getTransaction, try_catch, bind, findOne, cast, call,
    get_docs, ret, throw, logged. fold (own_doc uid id).
  destruct id as [raw|i]; [reflexivity|].
  cbn -[matches List.find].
  destruct (List.find _ (docs w)); reflexivity.
Qed.

Lemma updateTransaction_run (w : world) (uid : ObjectId) (id : req_id) (b : body) :
  Controller.updateTransaction uid id b w =
  match id with
  | BadId _ =>
      (Return (Fail 500 "Server error updating transaction" []),
       logged w [FindOne (own_doc uid id)])
  | GoodId _ =>
      match List.find (matches (own_doc uid id)) (docs w) with
      | None =>
          (Return (Fail 404 "Transaction not found" []),
           logged w [FindOne (own_doc uid id)])
      | Some _ =>
          match validate b with
          | [] =>
              (Return (Ok 200 (option_map (apply_update b)
                                 (List.find (matches (any_doc id)) (docs w)))),
               {| docs := update_first (matches (any_doc id)) (apply_update b) (docs w);
                  calls := calls w ++ [FindOne (own_doc uid id); FindByIdAndUpdate id];
                  now := now w; zone := zone w |})
          | errors =>
              (Return (Fail 400 "Validation failed" errors),
               logged w [FindOne (own_doc uid id); FindByIdAndUpdate id])
          end
      end
  end.
Proof.
  unfold Controller.updateTransaction, try_catch, bind, findOne, findByIdAndUpdate,
    cast, call, get_docs, put_docs, ret, throw, logged.
  fold (own_doc uid id) (any_doc id).
  destruct id as [raw|i]; [reflexivity|].
  cbn -[matches List.find validate update_first].
  destruct (List.find _ (docs w)); [|reflexivity].
  cbn -[matches List.find validate update_first].
  destruct (validate b); cbn -[matches List.find validate update_first];
    rewrite <- app_assoc; reflexivity.
Qed.

Lemma deleteTransaction_run (w : world) (uid : ObjectId) (id : req_id) :
  Controller.deleteTransaction uid id w =
  match id with
  | BadId _ =>
      (Return (Fail 500 "Server error deleting transaction" []),
       logged w [FindOne (own_doc uid id)])
  | GoodId _ =>
      match List.find (matches (own_doc uid id)) (docs w) with
      | None =>
          (Return (Fail 404 "Transaction not found" []),
           logged w [FindOne (own_doc uid id)])
      | Some _ =>
          (Return (Ok 200 tt),
           {| docs := remove_first (matches (any_doc id)) (docs w);
              calls := calls w ++ [FindOne (own_doc uid id); FindByIdAndDelete id];
              now := now w; zone := zone w |})
      end
  end.
Proof.
  unfold Controller.deleteTransaction, try_catch, bind, findOne, findByIdAndDelete,
    cast, call, get_docs, put_docs, ret, throw, logged.
  fold (own_doc uid id) (any_doc id).
  destruct id as [raw|i]; [reflexivity|].
  cbn -[matches List.find remove_first].
  destruct (List.find _ (docs w)); [|reflexivity].
  cbn -[matches List.find remove_first].
  rewrite <- app_assoc. reflexivity.
Qed.

(** ** Isolation between users *)

(** Against C1 as worded: the update of an own transaction calls the store
    with a predicate that does not include the user, the write going by
    [_id] alone. *)
Lemma update_write_is_not_scoped :
  calls (snd (run (route 7%N (UpdateTransaction (GoodId 1%N) to_other_user))
                [dotted] 0))
  = [FindOne (own_doc 7%N (GoodId 1%N)); FindByIdAndUpdate (GoodId 1%N)]
  /\ call_predicate (FindByIdAndUpdate (GoodId 1%N)) = Some (any_doc (GoodId 1%N))
  /\ q_user (any_doc (GoodId 1%N)) = None
  /\ scoped 7%N (FindByIdAndUpdate (GoodId 1%N)) = false.
Proof. repeat split. Qed.

Lemma fmap_run {A B} (f : A -> B) (m : M A) (w : world) :
  fmap f m w =
  (match fst (m w) with Return a => Return (f a) | Throw e => Throw e end,
   snd (m w)).
Proof. unfold fmap, bind, ret. destruct (m w) as [[a|e] w']; reflexivity. Qed.

Lemma filter_within {A} (p o : A -> bool) (l : list A) :
  (forall x, p x = true -> o x = true) -> filter p (filter o l) = filter p l.
Proof.
  intros H. induction l as [|x r IH]; simpl; [reflexivity|].
  destruct (o x) eqn:Eo; simpl.
  - now rewrite IH.
  - rewrite IH. destruct (p x) eqn:Ep; [|reflexivity].
    apply H in Ep. congruence.
Qed.

Lemma find_within {A} (p o : A -> bool) (l : list A) :
  (forall x, p x = true -> o x = true) ->
  List.find p (filter o l) = List.find p l.
Proof.
  intros H. induction l as [|x r IH]; simpl; [reflexivity|].
  destruct (o x) eqn:Eo; simpl.
  - now rewrite IH.
  - rewrite IH. destruct (p x) eqn:Ep; [|reflexivity].
    apply H in Ep. congruence.
Qed.

Lemma filter_scoped (q : query) (uid : ObjectId) (l : store) :
  q_user q = Some uid ->
  filter (matches q) (filter (owned uid) l) = filter (matches q) l.
Proof. intros H. apply filter_within. intros t. now apply matches_user. Qed.

Lemma same_id_same_doc (l : store) (a b : Transaction) :
  wf_store l -> In a l -> In b l -> _id a = _id b -> a = b.
Proof.
  unfold wf_store. intros H. apply distinct_NoDup in H.
  induction l as [|x r IH]; simpl in *; [tauto|].
  inversion H as [|? ? Hx Hr]; subst.
  intros [->|Ha] [->|Hb] E; try reflexivity.
  - exfalso. apply Hx. rewrite E. now apply in_map.
  - exfalso. apply Hx. rewrite <- E. now apply in_map.
  - now apply IH.
Qed.

Lemma wf_store_filter (p : Transaction -> bool) (l : store) :
  wf_store l -> wf_store (filter p l).
Proof.
  unfold wf_store. induction l as [|x r IH]; simpl; [reflexivity|].
  rewrite andb_true_iff, negb_true_iff. intros [Hx Hr].
  destruct (p x); simpl; [|now apply IH].
  rewrite (IH Hr), andb_true_r, negb_true_iff.
  destruct (existsb (N.eqb (_id x)) (map _id (filter p r))) eqn:E; [|reflexivity].
  apply existsb_exists in E. destruct E as [y [Hy Ey]].
  apply in_map_iff in Hy. destruct Hy as [t [<- Ht]].
  apply filter_In in Ht.
  assert (existsb (N.eqb (_id x)) (map _id r) = true); [|congruence].
  apply existsb_exists. exists (_id t). split; [|exact Ey].
  apply in_map. tauto.
Qed.

(** When the ownership lookup finds a document, the write by [_id] finds
    the same one. *)
Lemma find_any_is_own (l : store) (uid : ObjectId) (id : req_id) (t0 : Transaction) :
  wf_store l ->
  List.find (matches (own_doc uid id)) l = Some t0 ->
  List.find (matches (any_doc id)) l = Some t0.
Proof.
  intros Hwf H. pose proof (find_some _ _ H) as [Hin Hm].
  rewrite matches_own_doc, andb_true_iff in Hm. destruct Hm as [Hid _].
  destruct (List.find (matches (any_doc id)) l) as [t1|] eqn:E.
  - pose proof (find_some _ _ E) as [Hin1 Hm1]. rewrite matches_any_doc in Hm1.
    f_equal. apply (same_id_same_doc l); try assumption.
    destruct id as [raw|i]; simpl in *; [discriminate|].
    apply N.eqb_eq in Hid, Hm1. congruence.
  - exfalso. apply (find_none _ _ E) in Hin.
    rewrite matches_any_doc in Hin. congruence.
Qed.

Lemma update_first_in (p : Transaction -> bool) (f : Transaction -> Transaction)
    (l : store) (t0 t : Transaction) :
  List.find p l = Some t0 ->
  (In t (update_first p f l) -> In t l \/ t = f t0)
  /\ (In t l -> t <> t0 -> In t (update_first p f l)).
Proof.
  induction l as [|x r IH]; simpl; [discriminate|].
  destruct (p x) eqn:E.
  - intros [= ->]. simpl. split; [intuition congruence|].
    intros [->|H] Hne; tauto.
  - intros H. specialize (IH H). simpl. destruct IH as [IH1 IH2]. split.
    + intros [->|Hin]; [tauto|]. destruct (IH1 Hin); tauto.
    + intros [->|Hin] Hne; [tauto|]. right. now apply IH2.
Qed.

Lemma remove_first_in (p : Transaction -> bool) (l : store) (t0 t : Transaction) :
  List.find p l = Some t0 ->
  (In t (remove_first p l) -> In t l)
  /\ (In t l -> t <> t0 -> In t (remove_first p l)).
Proof.
  induction l as [|x r IH]; simpl; [discriminate|].
  destruct (p x) eqn:E.
  - intros [= ->]. split; [tauto|]. intros [->|H] Hne; tauto.
  - intros H. specialize (IH H). simpl. destruct IH as [IH1 IH2]. split.
    + intros [->|Hin]; [tauto|]. right. now apply IH1.
    + intros [->|Hin] Hne; [tauto|]. right. now apply IH2.
Qed.

Lemma getTransactions_run (w : world) (uid : ObjectId) (rq : list_query) :
  exists r,
    Controller.getTransactions uid rq w =
    (Return r, logged w [Find (Controller.list_predicate uid rq);
                         CountDocuments (Controller.list_predicate uid rq)])
    /\ Controller.getTransactions uid rq (own_world uid w) =
       (Return r, logged (own_world uid w)
                    [Find (Controller.list_predicate uid rq);
                     CountDocuments (Controller.list_predicate uid rq)])
    /\ forall t, In t (returned (Listed r)) -> In t (docs w) /\ user t = uid.
Proof.
  destruct (list_predicate_dates uid rq) as (_ & _ & _ & Hu).
  destruct (castable (Controller.list_predicate uid rq)) eqn:Hc.
  - destruct (Z.ltb_spec ((page_of rq - 1) * limit_of rq) 0) as [Hs|Hs].
    + exists (Fail 500 "Server error fetching transactions" []).
      assert (H : forall w0, Controller.getTransactions uid rq w0 =
        (Return (Fail 500 "Server error fetching transactions" []),
         logged w0 [Find (Controller.list_predicate uid rq);
                    CountDocuments (Controller.list_predicate uid rq)])).
      { intros w0.
        unfold Controller.getTransactions, try_catch, bind, both, find,
          countDocuments, cast, call, get_docs, ret, throw, bind.
        fold (page_of rq) (limit_of rq). rewrite Hc.
        destruct (Z.ltb_spec ((page_of rq - 1) * limit_of rq) 0); [|lia].
        unfold logged. simpl. rewrite <- app_assoc. reflexivity. }
      rewrite !H. repeat split; simpl in *; tauto.
    + eexists. rewrite (getTransactions_ok w uid rq Hc Hs).
      rewrite (getTransactions_ok (own_world uid w) uid rq Hc Hs).
      unfold sorted_matches. cbn [docs own_world].
      rewrite (filter_scoped _ uid (docs w) Hu).
      split; [reflexivity|]. split; [reflexivity|].
      intros t Ht. cbn [returned data] in Ht.
      apply in_cursor in Ht. apply sort_in in Ht. apply filter_In in Ht.
      destruct Ht as [Hin Hm]. split; [exact Hin|].
      apply (matches_user _ uid t Hu) in Hm. now apply N.eqb_eq.
  - exists (Fail 500 "Server error fetching transactions" []).
    rewrite !(getTransactions_cast_error _ uid rq Hc).
    repeat split; simpl in *; tauto.
Qed.

Lemma scoped_list_predicate uid rq :
  scoped uid (Find (Controller.list_predicate uid rq)) = true
  /\ scoped uid (CountDocuments (Controller.list_predicate uid rq)) = true.
Proof.
  destruct (list_predicate_dates uid rq) as (_ & _ & _ & Hu).
  unfold scoped. simpl. rewrite Hu, N.eqb_refl. tauto.
Qed.

Lemma scoped_own_doc uid id : scoped uid (FindOne (own_doc uid id)) = true.
Proof. unfold scoped. simpl. apply N.eqb_refl. Qed.

Lemma isolation_list w uid rq : isolation_at w uid (ListTransactions rq).
Proof.
  unfold isolation_at, route. rewrite !fmap_run.
  destruct (getTransactions_run w uid rq) as (r & -> & -> & Hr).
  cbn [fst snd logged docs calls reply_of].
  split; [reflexivity|]. split.
  { intros t Ht. destruct (Hr t Ht) as [Hin Hu]. exists t. tauto. }
  split; [tauto|]. split; [tauto|].
  eexists. split; [reflexivity|].
  intros c [<-|[<-|[]]]; left; apply scoped_list_predicate.
Qed.

Lemma find_own_doc (l : store) (uid : ObjectId) (id : req_id) :
  List.find (matches (own_doc uid id)) (filter (owned uid) l)
  = List.find (matches (own_doc uid id)) l.
Proof.
  apply find_within. intros t. rewrite matches_own_doc, andb_true_iff. tauto.
Qed.

Lemma found_own_doc (l : store) (uid : ObjectId) (id : req_id) (t0 : Transaction) :
  List.find (matches (own_doc uid id)) l = Some t0 ->
  In t0 l /\ user t0 = uid /\ exists i, id = GoodId i /\ _id t0 = i.
Proof.
  intros H. apply find_some in H. destruct H as [Hin Hm].
  rewrite matches_own_doc, andb_true_iff in Hm. destruct Hm as [Hid Ho].
  split; [exact Hin|]. split; [now apply N.eqb_eq|].
  destruct id as [raw|i]; simpl in Hid; [discriminate|].
  exists i. split; [reflexivity | now apply N.eqb_eq].
Qed.

Lemma isolation_get w uid id : isolation_at w uid (GetTransaction id).
Proof.
  unfold isolation_at, route. rewrite !fmap_run, !getTransaction_run.
  cbn [fst snd logged docs calls own_world]. rewrite find_own_doc.
  split; [reflexivity|]. split.
  { destruct id as [raw|i]; [intros t []|].
    destruct (List.find _ (docs w)) as [t0|] eqn:E; [|intros t []].
    intros t [<-|[]]. apply found_own_doc in E.
    exists t0. tauto. }
  split; [tauto|]. split; [tauto|].
  eexists. split; [reflexivity|].
  intros c [<-|[]]. left. apply scoped_own_doc.
Qed.

Lemma isolation_update w uid id b :
  wf_store (docs w) -> isolation_at w uid (UpdateTransaction id b).
Proof.
  intros Hwf. unfold isolation_at, route.
  rewrite !fmap_run, !updateTransaction_run.
  cbn [own_world docs calls now]. rewrite find_own_doc.
  destruct id as [raw|i].
  { cbn [fst snd logged docs calls reply_of returned].
    split; [reflexivity|]. split; [intros t []|].
    split; [tauto|]. split; [tauto|].
    eexists. split; [reflexivity|]. intros c [<-|[]]. left. apply scoped_own_doc. }
  destruct (List.find (matches (own_doc uid (GoodId i))) (docs w)) as [t0|] eqn:E.
  2:{ cbn [fst snd logged docs calls reply_of returned].
      split; [reflexivity|]. split; [intros t []|].
      split; [tauto|]. split; [tauto|].
      eexists. split; [reflexivity|]. intros c [<-|[]]. left. apply scoped_own_doc. }
  pose proof (find_any_is_own _ _ _ _ Hwf E) as Hany.
  assert (Hany' : List.find (matches (any_doc (GoodId i))) (filter (owned uid) (docs w))
                  = Some t0).
  { apply (find_any_is_own _ uid); [now apply wf_store_filter|].
    now rewrite find_own_doc. }
  destruct (found_own_doc _ _ _ _ E) as (Hin & Hu & j & Hj & Hid).
  injection Hj as <-.
  assert (Hcalls : forall c,
            In c [FindOne (own_doc uid (GoodId i));
                  FindByIdAndUpdate (GoodId i)] ->
            scoped uid c = true
            \/ exists j t1,
                 (c = FindByIdAndUpdate (GoodId j) \/ c = FindByIdAndDelete (GoodId j))
                 /\ In t1 (docs w) /\ user t1 = uid /\ _id t1 = j).
  { intros c [<-|[<-|[]]]; [left; apply scoped_own_doc|].
    right. exists i, t0. tauto. }
  destruct (validate b) as [|e errs].
  - rewrite Hany, Hany'.
    cbn [fst snd logged docs calls reply_of returned option_map].
    split; [reflexivity|]. split.
    { intros t [<-|[]]. exists t0. repeat split; try assumption.
      right. now exists (GoodId i), b. }
    split.
    { intros t Ht Hne. apply (proj2 (update_first_in _ (apply_update b) _ t0 t Hany));
        [exact Ht | congruence]. }
    split.
    { intros t Ht.
      apply (proj1 (update_first_in _ (apply_update b) _ t0 t Hany)) in Ht.
      destruct Ht as [Ht| ->]; [now left|]. right. exists t0. tauto. }
    eexists. split; [reflexivity | exact Hcalls].
  - cbn [fst snd logged docs calls reply_of returned].
    split; [reflexivity|]. split; [intros t []|].
    split; [tauto|]. split; [tauto|].
    eexists. split; [reflexivity | exact Hcalls].
Qed.

Lemma isolation_delete w uid id :
  wf_store (docs w) -> isolation_at w uid (DeleteTransaction id).
Proof.
  intros Hwf. unfold isolation_at, route.
  rewrite !fmap_run, !deleteTransaction_run.
  cbn [own_world docs calls now]. rewrite find_own_doc.
  destruct id as [raw|i].
  { cbn [fst snd logged docs calls reply_of returned].
    split; [reflexivity|]. split; [intros t []|].
    split; [tauto|]. split; [tauto|].
    eexists. split; [reflexivity|]. intros c [<-|[]]. left. apply scoped_own_doc. }
  destruct (List.find (matches (own_doc uid (GoodId i))) (docs w)) as [t0|] eqn:E.
  2:{ cbn [fst snd logged docs calls reply_of returned].
      split; [reflexivity|]. split; [intros t []|].
      split; [tauto|]. split; [tauto|].
      eexists. split; [reflexivity|]. intros c [<-|[]]. left. apply scoped_own_doc. }
  pose proof (find_any_is_own _ _ _ _ Hwf E) as Hany.
  destruct (found_own_doc _ _ _ _ E) as (Hin & Hu & j & Hj & Hid).
  injection Hj as <-.
  cbn [fst snd logged docs calls reply_of returned].
  split; [reflexivity|]. split; [intros t []|].
  split.
  { intros t Ht Hne. apply (proj2 (remove_first_in _ _ t0 t Hany));
      [exact Ht | congruence]. }
  split.
  { intros t Ht. left. exact (proj1 (remove_first_in _ _ t0 t Hany) Ht). }
  eexists. split; [reflexivity|].
  intros c [<-|[<-|[]]]; [left; apply scoped_own_doc|].
  right. exists i, t0. tauto.
Qed.

Lemma bulk_target_owned uid ids t : bulk_target uid ids t = true -> owned uid t = true.
Proof. unfold bulk_target. rewrite andb_true_iff. tauto. Qed.

Lemma isolation_bulk w uid ids : isolation_at w uid (BulkDelete ids).
Proof.
  unfold isolation_at, route. rewrite !fmap_run.
  destruct ids as [[|i ids]|];
    try (cbn; split; [reflexivity|]; split; [intros t []|];
         split; [tauto|]; split; [tauto|];
         exists []; split; [now rewrite app_nil_r | intros c []]).
  pose proof (bulkDeleteTransactions_run w uid i ids) as H.
  pose proof (bulkDeleteTransactions_run (own_world uid w) uid i ids) as H'.
  destruct (forallb isValid (i :: ids));
    [destruct (forallb casts (i :: ids))|].
  - rewrite H, H'. cbn [fst snd docs calls own_world reply_of returned].
    rewrite (filter_within _ _ _ (bulk_target_owned uid (i :: ids))).
    split; [reflexivity|]. split; [intros t []|]. split.
    { intros t Ht Hne. apply filter_In. split; [exact Ht|].
      apply negb_true_iff. destruct (bulk_target uid (i :: ids) t) eqn:E;
        [|reflexivity].
      apply bulk_target_owned, N.eqb_eq in E. contradiction. }
    split.
    { intros t Ht. apply filter_In in Ht. tauto. }
    eexists. split; [reflexivity|].
    intros c [<-|[]]. left. unfold scoped. simpl. apply N.eqb_refl.
  - rewrite H, H'. cbn [fst snd docs calls own_world reply_of returned logged].
    split; [reflexivity|]. split; [intros t []|].
    split; [tauto|]. split; [tauto|].
    eexists. split; [reflexivity|].
    intros c [<-|[]]. left. unfold scoped. simpl. apply N.eqb_refl.
  - rewrite H, H'. cbn.
    split; [reflexivity|]. split; [intros t []|].
    split; [tauto|]. split; [tauto|].
    exists []. split; [now rewrite app_nil_r | intros c []].
Qed.

Lemma with_range_user sd ed q : q_user (with_range sd ed q) = q_user q.
Proof. unfold with_range. destruct (both_given sd ed); reflexivity. Qed.

Lemma scoped_aggregate uid q : q_user q = Some uid -> scoped uid (Aggregate q) = true.
Proof. intros H. unfold scoped. simpl. rewrite H. apply N.eqb_refl. Qed.

Lemma isolation_summary w uid sd ed : isolation_at w uid (Summary sd ed).
Proof.
  set (q := with_range sd ed (by_user uid)).
  assert (Hq : q_user q = Some uid) by apply with_range_user.
  assert (H : forall w0, route uid (Summary sd ed) w0 =
            (Return (Summarised (Ok 200 (Controller.formattedSummary
                       (group_by txn_type_eqb type (filter (matches q) (docs w0)))))),
             logged w0 [Aggregate q])).
  { intros w0. unfold route. rewrite fmap_run. reflexivity. }
  unfold isolation_at. rewrite !H.
  cbn [fst snd logged docs calls reply_of returned own_world].
  rewrite (filter_scoped q uid (docs w) Hq).
  split; [reflexivity|]. split; [intros t []|].
  split; [tauto|]. split; [tauto|].
  eexists. split; [reflexivity|].
  intros c [<-|[]]. left. now apply scoped_aggregate.
Qed.

Lemma isolation_breakdown w uid ty sd ed :
  isolation_at w uid (CategoryBreakdown ty sd ed).
Proof.
  set (q := with_range sd ed (with_type ty (by_user uid))).
  assert (Hq : q_user q = Some uid) by apply with_range_user.
  unfold isolation_at, route. rewrite !fmap_run.
  unfold Controller.getCategoryBreakdown, try_catch.
  destruct (allowed_type ty).
  - assert (H : forall w0,
      (breakdown <- Model.getCategoryBreakdown uid ty sd ed ;;
       ret (Ok 200 breakdown)) w0 =
      (Return (Ok 200 (sort (fun a b => total b <=? total a)
                         (group_by String.eqb category (filter (matches q) (docs w0))))),
       logged w0 [Aggregate q])) by reflexivity.
    cbn [negb]. rewrite !H.
    cbn [fst snd logged docs calls reply_of returned own_world].
    rewrite (filter_scoped q uid (docs w) Hq).
    split; [reflexivity|]. split; [intros t []|].
    split; [tauto|]. split; [tauto|].
    eexists. split; [reflexivity|].
    intros c [<-|[]]. left. now apply scoped_aggregate.
  - cbn. split; [reflexivity|]. split; [intros t []|].
    split; [tauto|]. split; [tauto|].
    exists []. split; [now rewrite app_nil_r | intros c []].
Qed.

Lemma isolation_trends w uid months : isolation_at w uid (MonthlyTrends months).
Proof.
  set (q := with_date
              (Some (Instant (Calendar.setMonth_back (zone w) (now w) (or_else months 12))))
              None (by_user uid)).
  assert (Hq : q_user q = Some uid) by reflexivity.
  assert (H : forall w0, now w0 = now w -> zone w0 = zone w ->
            route uid (MonthlyTrends months) w0 =
            (Return (Trended (Ok 200
               (sort (fun a b => Model.month_key_leb (g_id a) (g_id b))
                  (group_by Model.month_key_eqb Model.month_key_of
                     (filter (matches q) (docs w0)))))),
             logged w0 [Aggregate q])).
  { intros [d c n z] Hn Hz. cbn [now zone] in Hn, Hz. subst n z.
    unfold route. rewrite fmap_run. reflexivity. }
  unfold isolation_at. rewrite !H by reflexivity.
  cbn [fst snd logged docs calls reply_of returned own_world].
  rewrite (filter_scoped q uid (docs w) Hq).
  split; [reflexivity|]. split; [intros t []|].
  split; [tauto|]. split; [tauto|].
  eexists. split; [reflexivity|].
  intros c [<-|[]]. left. now apply scoped_aggregate.
Qed.

(** C1, as the code has it.  Over a collection with unique identifiers, for
    each of the eight operations and whatever the request holds: the answer
    is the one that the requester's own documents alone would give; each
    document in the answer is one of the requester's, or the updated form of
    one; every document of another user is still in the collection
    afterwards; every document of the collection afterwards is one from
    before or carries the identifier of one of the requester's; and every
    store call either has the requester's id in its predicate or is the
    write by [_id] alone of an update or a delete, made after the scoped
    lookup has found that [_id] among the requester's documents. *)
Theorem isolation_between_users (w : world) (uid : ObjectId) (op : operation) :
  wf_store (docs w) ->
  fst (route uid op (own_world uid w)) = fst (route uid op w)
  /\ (forall t, In t (reply_of (fst (route uid op w))) ->
        exists t0, In t0 (docs w) /\ user t0 = uid /\ _id t0 = _id t
                   /\ (t = t0 \/ exists id b, op = UpdateTransaction id b
                                               /\ t = apply_update b t0))
  /\ (forall t, In t (docs w) -> user t <> uid ->
        In t (docs (snd (route uid op w))))
  /\ (forall t, In t (docs (snd (route uid op w))) ->
        In t (docs w)
        \/ exists t0, In t0 (docs w) /\ user t0 = uid /\ _id t0 = _id t)
  /\ exists cs, calls (snd (route uid op w)) = calls w ++ cs
       /\ forall c, In c cs ->
            scoped uid c = true
            \/ exists i t0,
                 (c = FindByIdAndUpdate (GoodId i) \/ c = FindByIdAndDelete (GoodId i))
                 /\ In t0 (docs w) /\ user t0 = uid /\ _id t0 = i.
Proof.
  intros Hwf. change (isolation_at w uid op).
  destruct op.
  - apply isolation_list.
  - apply isolation_get.
  - now apply isolation_update.
  - now apply isolation_delete.
  - apply isolation_bulk.
  - apply isolation_summary.
  - apply isolation_breakdown.
  - apply isolation_trends.
Qed.

Lemma isolation_between_users_witness :
  wf_store [dotted; foreign]
  /\ isolation_at {| docs := [dotted; foreign]; calls := []; now := 0; zone := utc |} 7%N
       (UpdateTransaction (GoodId 1%N) to_other_user).
Proof.
  split; [reflexivity|].
  apply (isolation_between_users
           {| docs := [dotted; foreign]; calls := []; now := 0; zone := utc |} 7%N
           (UpdateTransaction (GoodId 1%N) to_other_user)).
  reflexivity.
Defined.

(** ** The owner of a document under update *)

(** C2 fails on the code.  User 7 updates the own transaction [dotted] with
    a body that supplies [user]: the request succeeds, and the stored
    document, like the one in the answer, now belongs to user 8. *)
Lemma updateTransaction_reassigns_owner :
  user dotted = 7%N
  /\ run (Controller.updateTransaction 7%N (GoodId 1%N) to_other_user) [dotted] 0
     = (Return (Ok 200 (Some (apply_update to_other_user dotted))),
        {| docs := [apply_update to_other_user dotted];
           calls := [FindOne (own_doc 7%N (GoodId 1%N));
                     FindByIdAndUpdate (GoodId 1%N)];
           now := 0; zone := utc |})
  /\ user (apply_update to_other_user dotted) = 8%N.
Proof. repeat split. Qed.

(** The same for every valid body that supplies [user]: the update of an
    own transaction succeeds and hands the document to the user named in
    the body. *)
Lemma updateTransaction_takes_body_user
    (w : world) (uid v : ObjectId) (i : ObjectId) (b : body) (t0 : Transaction) :
  wf_store (docs w) ->
  In t0 (docs w) -> user t0 = uid -> _id t0 = i ->
  validate b = [] -> b_user b = Some v ->
  fst (Controller.updateTransaction uid (GoodId i) b w)
  = Return (Ok 200 (Some (apply_update b t0)))
  /\ user (apply_update b t0) = v
  /\ In (apply_update b t0)
        (docs (snd (Controller.updateTransaction uid (GoodId i) b w))).
Proof.
  intros Hwf Hin Hu Hi Hv Hb.
  assert (Hfind : List.find (matches (own_doc uid (GoodId i))) (docs w) = Some t0).
  { destruct (List.find (matches (own_doc uid (GoodId i))) (docs w)) as [t1|] eqn:E.
    - destruct (found_own_doc _ _ _ _ E) as (Hin1 & _ & j & Hj & Hid).
      injection Hj as <-. f_equal.
      apply (same_id_same_doc (docs w)); try assumption. congruence.
    - exfalso. apply (find_none _ _ E) in Hin.
      rewrite matches_own_doc in Hin. unfold owned in Hin. simpl in Hin.
      rewrite Hi, Hu, !N.eqb_refl in Hin. discriminate. }
  pose proof (find_any_is_own _ _ _ _ Hwf Hfind) as Hany.
  rewrite updateTransaction_run, Hfind, Hv, Hany. cbn [fst snd docs option_map].
  split; [reflexivity|]. split.
  - unfold apply_update. simpl. rewrite Hb. reflexivity.
  - clear Hfind. revert Hany. generalize (docs w) as l.
    induction l as [|x r IH]; simpl; [discriminate|].
    destruct (matches (any_doc (GoodId i)) x).
    + intros [= ->]. now left.
    + intros H. right. now apply IH.
Qed.

(** The sibling path: whatever [user] the body of a creation supplies, the
    document is created for the requesting user. *)
Lemma createTransaction_owner (w : world) (uid : ObjectId) (b : body)
    (t : Transaction) :
  fst (Controller.createTransaction uid b w) = Return (Ok 201 t) -> user t = uid.
Proof.
  unfold Controller.createTransaction, try_catch, bind, create, call, get_docs,
    put_docs, new_Date_now, ret, throw.
  cbn -[validate validate_required fresh_id].
  destruct (validate_required _ ++ validate _);
    cbn -[validate validate_required fresh_id].
  - intros [= <-]. reflexivity.
  - discriminate.
Qed.

(** * Further properties *)

(** ** Single fetch, update and delete *)

Lemma find_own_doc_some (l : store) (uid : ObjectId) (t : Transaction) :
  wf_store l -> In t l -> user t = uid ->
  List.find (matches (own_doc uid (GoodId (_id t)))) l = Some t.
Proof.
  intros Hwf Hin Hu.
  destruct (List.find (matches (own_doc uid (GoodId (_id t)))) l) as [t1|] eqn:E.
  - destruct (found_own_doc _ _ _ _ E) as (Hin1 & _ & j & Hj & Hid).
    injection Hj as <-. f_equal. now apply (same_id_same_doc l).
  - exfalso. apply (find_none _ _ E) in Hin.
    rewrite matches_own_doc in Hin. unfold owned in Hin. simpl in Hin.
    rewrite Hu, !N.eqb_refl in Hin. discriminate.
Qed.

Lemma find_own_doc_none (l : store) (uid : ObjectId) (id : req_id) :
  (forall t, In t l -> id_test t (IdIs id) = true -> user t <> uid) ->
  List.find (matches (own_doc uid id)) l = None.
Proof.
  intros H.
  destruct (List.find (matches (own_doc uid id)) l) as [t|] eqn:E; [|reflexivity].
  apply find_some in E. destruct E as [Hin Hm].
  rewrite matches_own_doc, andb_true_iff in Hm. destruct Hm as [Hid Ho].
  exfalso. apply (H t Hin Hid). now apply N.eqb_eq.
Qed.

(** X1.  Over a collection with unique identifiers, the single fetch of a
    well-formed identifier answers 200 with a document exactly when that
    document is in the collection, belongs to the requester and carries the
    identifier; when no document of the requester carries it, whether the
    identifier is unknown or names a document of somebody else, the answer
    is the same 404.  The collection is never changed. *)
Theorem getTransaction_own_or_not_found (w : world) (uid i : ObjectId) :
  wf_store (docs w) ->
  (forall t, fst (Controller.getTransaction uid (GoodId i) w) = Return (Ok 200 t)
             <-> In t (docs w) /\ user t = uid /\ _id t = i)
  /\ ((forall t, In t (docs w) -> _id t = i -> user t <> uid) ->
      fst (Controller.getTransaction uid (GoodId i) w)
      = Return (Fail 404 "Transaction not found" []))
  /\ docs (snd (Controller.getTransaction uid (GoodId i) w)) = docs w.
Proof.
  intros Hwf. rewrite getTransaction_run. cbn [fst snd logged docs].
  split; [|split; [|reflexivity]].
  - intros t. split.
    + destruct (List.find _ (docs w)) as [t0|] eqn:E; [|discriminate].
      intros [= <-]. destruct (found_own_doc _ _ _ _ E) as (Hin & Hu & j & Hj & Hid).
      injection Hj as <-. tauto.
    + intros (Hin & Hu & <-). now rewrite (find_own_doc_some _ uid t Hwf Hin Hu).
  - intros H. rewrite find_own_doc_none; [reflexivity|].
    intros t Hin Hid. apply (H t Hin). simpl in Hid. now apply N.eqb_eq.
Qed.

Lemma getTransaction_own_or_not_found_witness :
  wf_store [dotted; foreign]
  /\ fst (Controller.getTransaction 7%N (GoodId 2%N)
            {| docs := [dotted; foreign]; calls := []; now := 0; zone := utc |})
     = Return (Fail 404 "Transaction not found" []).
Proof.
  split; [reflexivity|].
  apply (getTransaction_own_or_not_found
           {| docs := [dotted; foreign]; calls := []; now := 0; zone := utc |} 7%N 2%N).
  - reflexivity.
  - intros t [<-|[<-|[]]]; simpl; intros H; discriminate.
Defined.

(** X2.  When no document of the requester carries the identifier of the
    request, the single fetch, the update and the delete stop after the
    ownership lookup: the collection is unchanged, no write is sent to the
    store, and the answer is 404 for a well-formed identifier and the
    generic 500 for a malformed one, whatever the body of the update. *)
Theorem lookup_refuses_without_write
    (w : world) (uid : ObjectId) (id : req_id) (b : body) :
  (forall t, In t (docs w) -> id_test t (IdIs id) = true -> user t <> uid) ->
  Controller.getTransaction uid id w
  = (Return match id with
            | BadId _ => Fail 500 "Server error fetching transaction" []
            | GoodId _ => Fail 404 "Transaction not found" []
            end, logged w [FindOne (own_doc uid id)])
  /\ Controller.updateTransaction uid id b w
     = (Return match id with
               | BadId _ => Fail 500 "Server error updating transaction" []
               | GoodId _ => Fail 404 "Transaction not found" []
               end, logged w [FindOne (own_doc uid id)])
  /\ Controller.deleteTransaction uid id w
     = (Return match id with
               | BadId _ => Fail 500 "Server error deleting transaction" []
               | GoodId _ => Fail 404 "Transaction not found" []
               end, logged w [FindOne (own_doc uid id)]).
Proof.
  intros H. pose proof (find_own_doc_none _ uid id H) as Hn.
  rewrite getTransaction_run, updateTransaction_run, deleteTransaction_run, Hn.
  destruct id; repeat split; reflexivity.
Qed.

Lemma lookup_refuses_without_write_witness :
  (forall t, In t [dotted; foreign] -> id_test t (IdIs (GoodId 2%N)) = true ->
             user t <> 7%N)
  /\ Controller.deleteTransaction 7%N (GoodId 2%N)
       {| docs := [dotted; foreign]; calls := []; now := 0; zone := utc |}
     = (Return (Fail 404 "Transaction not found" []),
        {| docs := [dotted; foreign];
           calls := [FindOne (own_doc 7%N (GoodId 2%N))]; now := 0; zone := utc |}).
Proof.
  assert (H : forall t, In t [dotted; foreign] ->
                id_test t (IdIs (GoodId 2%N)) = true -> user t <> 7%N).
  { intros t [<-|[<-|[]]]; simpl; intros H; discriminate. }
  split; [exact H|].
  apply (lookup_refuses_without_write
           {| docs := [dotted; foreign]; calls := []; now := 0; zone := utc |} 7%N
           (GoodId 2%N) to_other_user H).
Defined.

Lemma NoDup_distinct (l : list ObjectId) : NoDup l -> distinct l = true.
Proof.
  induction 1 as [|x r Hx Hr IH]; simpl; [reflexivity|].
  rewrite IH, andb_true_r, negb_true_iff.
  destruct (existsb (N.eqb x) r) eqn:E; [|reflexivity].
  apply existsb_exists in E. destruct E as [y [Hy E]].
  apply N.eqb_eq in E. subst y. contradiction.
Qed.

Lemma wf_store_iff (l : store) : wf_store l <-> NoDup (map _id l).
Proof. split; [apply distinct_NoDup | apply NoDup_distinct]. Qed.

Lemma remove_first_incl (p : Transaction -> bool) (l : store) (t : Transaction) :
  In t (remove_first p l) -> In t l.
Proof.
  induction l as [|x r IH]; simpl; [tauto|].
  destruct (p x); simpl; [tauto|]. intros [->|H]; [tauto|]. right. now apply IH.
Qed.

Lemma wf_remove_first (p : Transaction -> bool) (l : store) :
  wf_store l -> wf_store (remove_first p l).
Proof.
  rewrite !wf_store_iff. induction l as [|x r IH]; simpl; [tauto|].
  intros H. inversion H as [|? ? Hx Hr]; subst.
  destruct (p x); [exact Hr|]. simpl. constructor; [|now apply IH].
  intros Hin. apply Hx. apply in_map_iff in Hin. destruct Hin as [t [E Ht]].
  apply remove_first_incl in Ht. rewrite <- E. now apply in_map.
Qed.

Lemma remove_first_spec (p : Transaction -> bool) (l : store) (t0 t : Transaction) :
  NoDup l -> List.find p l = Some t0 ->
  (In t (remove_first p l) <-> In t l /\ t <> t0)
  /\ S (List.length (remove_first p l)) = List.length l.
Proof.
  induction l as [|x r IH]; simpl; [discriminate|].
  intros Hnd. inversion Hnd as [|? ? Hx Hr]; subst.
  destruct (p x) eqn:E.
  - intros [= ->]. split; [|reflexivity]. split.
    + intros H. split; [now right|]. intros ->. contradiction.
    + intros [[->|H] Hne]; [contradiction | exact H].
  - intros Hf. destruct (IH Hr Hf) as [IH1 IH2]. simpl. split; [|now rewrite IH2].
    rewrite IH1. split.
    + intros [->|[H Hne]]; [|tauto]. split; [now left|].
      intros ->. apply find_some in Hf. tauto.
    + intros [[->|H] Hne]; tauto.
Qed.

(** X3.  Over a collection with unique identifiers, the delete of an own
    transaction answers 200 and removes that document and no other: the
    collection is one document shorter and keeps unique identifiers; a
    fetch or a second delete of the same identifier then answers 404. *)
Theorem deleteTransaction_removes_one
    (w : world) (uid : ObjectId) (t0 : Transaction) :
  wf_store (docs w) -> In t0 (docs w) -> user t0 = uid ->
  let w' := snd (Controller.deleteTransaction uid (GoodId (_id t0)) w) in
  fst (Controller.deleteTransaction uid (GoodId (_id t0)) w) = Return (Ok 200 tt)
  /\ (forall t, In t (docs w') <-> In t (docs w) /\ t <> t0)
  /\ S (List.length (docs w')) = List.length (docs w)
  /\ wf_store (docs w')
  /\ fst (Controller.getTransaction uid (GoodId (_id t0)) w')
     = Return (Fail 404 "Transaction not found" [])
  /\ fst (Controller.deleteTransaction uid (GoodId (_id t0)) w')
     = Return (Fail 404 "Transaction not found" []).
Proof.
  intros Hwf Hin Hu w'.
  pose proof (find_own_doc_some _ uid t0 Hwf Hin Hu) as Hfind.
  pose proof (find_any_is_own _ _ _ _ Hwf Hfind) as Hany.
  assert (Hw' : docs w' = remove_first (matches (any_doc (GoodId (_id t0)))) (docs w)).
  { unfold w'. rewrite deleteTransaction_run, Hfind. reflexivity. }
  assert (Hspec : forall t, In t (docs w') <-> In t (docs w) /\ t <> t0).
  { intros t. rewrite Hw'.
    apply (remove_first_spec _ _ t0 t (wf_store_NoDup _ Hwf) Hany). }
  assert (Hgone : forall t, In t (docs w') ->
                    id_test t (IdIs (GoodId (_id t0))) = true -> user t <> uid).
  { intros t Ht Hid _. apply Hspec in Ht. destruct Ht as [Ht Hne].
    apply Hne. apply (same_id_same_doc (docs w)); try assumption.
    simpl in Hid. now apply N.eqb_eq. }
  split; [rewrite deleteTransaction_run, Hfind; reflexivity|].
  split; [exact Hspec|]. split.
  { rewrite Hw'.
    apply (remove_first_spec _ _ t0 t0 (wf_store_NoDup _ Hwf) Hany). }
  split; [rewrite Hw'; now apply wf_remove_first|].
  rewrite getTransaction_run, deleteTransaction_run,
    (find_own_doc_none _ uid _ Hgone).
  split; reflexivity.
Qed.

Lemma deleteTransaction_removes_one_witness :
  (wf_store [dotted; foreign] /\ In dotted [dotted; foreign] /\ user dotted = 7%N)
  /\ fst (Controller.deleteTransaction 7%N (GoodId (_id dotted))
            {| docs := [dotted; foreign]; calls := []; now := 0; zone := utc |})
     = Return (Ok 200 tt).
Proof.
  split; [repeat split; now left|].
  apply (deleteTransaction_removes_one
           {| docs := [dotted; foreign]; calls := []; now := 0; zone := utc |} 7%N dotted);
    [reflexivity | now left | reflexivity].
Defined.

Lemma map_id_update_first (p : Transaction -> bool) (b : body) (l : store) :
  map _id (update_first p (apply_update b) l) = map _id l.
Proof.
  induction l as [|x r IH]; simpl; [reflexivity|].
  destruct (p x); simpl; [reflexivity | now rewrite IH].
Qed.





Lemma app_nil_iff {A} (l1 l2 : list A) : l1 ++ l2 = [] <-> l1 = [] /\ l2 = [].
Proof. destruct l1; simpl; split; intros H; try tauto; try discriminate; destruct H; discriminate. Qed.

Lemma fails_nil (c : bool) (path : string) : fails c path = [] <-> c = false.
Proof. destruct c; simpl; split; congruence. Qed.

Lemma validate_nil (b : body) :
  validate b = [] ->
  (forall s, b_type b = Some s -> parse_type s <> None)
  /\ (forall a, b_amount b = Some a -> 1 <= a <= 100000000)
  /\ (forall s, b_category b = Some s -> s <> "" /\ (String.length s <= 50)%nat)
  /\ within 200 (b_description b)
  /\ within 500 (b_notes b).
Proof.
  unfold validate. rewrite !app_nil_iff, !fails_nil.
  intros (Ht & Ha & Hc & Hd & Hn).
  split; [|split; [|split; [|split]]].
  - intros s E. rewrite E in Ht. destruct (parse_type s); congruence.
  - intros a E. rewrite E in Ha. apply orb_false_iff in Ha.
    rewrite !Z.ltb_ge in Ha. lia.
  - intros s E. rewrite E in Hc. apply orb_false_iff in Hc.
    destruct Hc as [Hc1 Hc2]. apply String.eqb_neq in Hc1.
    apply Nat.ltb_ge in Hc2. tauto.
  - unfold too_long in Hd. destruct (b_description b); simpl; [|exact I].
    now apply Nat.ltb_ge in Hd.
  - unfold too_long in Hn. destruct (b_notes b); simpl; [|exact I].
    now apply Nat.ltb_ge in Hn.
Qed.




(** ** What the operations keep *)

Lemma apply_update_schema_ok (b : body) (t : Transaction) :
  validate b = [] -> schema_ok t -> schema_ok (apply_update b t).
Proof.
  intros Hv (Ha & Hc1 & Hc2 & Hd & Hn).
  destruct (validate_nil b Hv) as (_ & Va & Vc & Vd & Vn).
  unfold schema_ok, apply_update, or_else, or_keep. simpl.
  split; [destruct (b_amount b) as [a|]; [now apply Va | exact Ha]|].
  split; [destruct (b_category b) as [s|]; [now apply (Vc s) | exact Hc1]|].
  split; [destruct (b_category b) as [s|]; [now apply (Vc s) | exact Hc2]|].
  split.
  - destruct (b_description b); [exact Vd | exact Hd].
  - destruct (b_notes b); [exact Vn | exact Hn].
Qed.

(** The collection after a request: as before, or with one document
    updated under a valid body, or with documents taken away. *)
Lemma route_docs (w : world) (uid : ObjectId) (op : operation) :
  docs (snd (route uid op w)) = docs w
  \/ (exists id b, validate b = []
        /\ docs (snd (route uid op w))
           = update_first (matches (any_doc id)) (apply_update b) (docs w))
  \/ (exists p, docs (snd (route uid op w)) = remove_first p (docs w))
  \/ (exists p, docs (snd (route uid op w)) = filter p (docs w)).
Proof.
  destruct op as [rq|id|id b|id|ids|sd ed|ty sd ed|months];
    unfold route; rewrite fmap_run; cbn [snd].
  - destruct (getTransactions_run w uid rq) as (r & -> & _). now left.
  - rewrite getTransaction_run. now left.
  - rewrite updateTransaction_run.
    destruct id as [raw|i]; [now left|].
    destruct (List.find _ (docs w)); [|now left].
    destruct (validate b) eqn:Hv; [|now left].
    right; left. exists (GoodId i), b. split; [exact Hv | reflexivity].
  - rewrite deleteTransaction_run.
    destruct id as [raw|i]; [now left|].
    destruct (List.find _ (docs w)); [|now left].
    right; right; left. eexists. reflexivity.
  - destruct ids as [[|i ids]|]; [now left| |now left].
    rewrite bulkDeleteTransactions_run.
    destruct (forallb isValid (i :: ids)); [|now left].
    destruct (forallb casts (i :: ids)); [|now left].
    right; right; right. eexists. reflexivity.
  - now left.
  - unfold Controller.getCategoryBreakdown, try_catch.
    destruct (allowed_type ty); now left.
  - now left.
Qed.

Lemma Forall_update_first (P : Transaction -> Prop) (p : Transaction -> bool)
    (f : Transaction -> Transaction) (l : store) :
  (forall t, P t -> P (f t)) -> Forall P l -> Forall P (update_first p f l).
Proof.
  intros Hf. induction 1 as [|x r Hx Hr IH]; simpl; [constructor|].
  destruct (p x); constructor; auto.
Qed.

Lemma Forall_remove_first (P : Transaction -> Prop) (p : Transaction -> bool)
    (l : store) : Forall P l -> Forall P (remove_first p l).
Proof.
  induction 1 as [|x r Hx Hr IH]; simpl; [constructor|].
  destruct (p x); [exact Hr | now constructor].
Qed.

Lemma Forall_filter_keep {A} (P : A -> Prop) (p : A -> bool) (l : list A) :
  Forall P l -> Forall P (filter p l).
Proof.
  induction 1 as [|x r Hx Hr IH]; simpl; [constructor|].
  destruct (p x); [now constructor | exact IH].
Qed.

Lemma createTransaction_run (w : world) (uid : ObjectId) (b : body) :
  Controller.createTransaction uid b w =
  match create_errors uid b with
  | [] => (Return (Ok 201 (created w uid b)),
           {| docs := docs w ++ [created w uid b]; calls := calls w ++ [Create];
              now := now w; zone := zone w |})
  | errors => (Return (Fail 400 "Validation failed" errors), logged w [Create])
  end.
Proof.
  unfold Controller.createTransaction, create_errors, try_catch, bind, create, call,
    get_docs, put_docs, new_Date_now, ret, throw, logged.
  cbn -[validate validate_required fresh_id Controller.transactionData].
  destruct (validate_required _ ++ validate _); reflexivity.
Qed.

Lemma max_id_bound (l : list ObjectId) (x : ObjectId) :
  In x l -> (x <= fold_right N.max 0 l)%N.
Proof.
  induction l as [|y r IH]; simpl; [tauto|].
  intros [->|H]; [lia|]. specialize (IH H). lia.
Qed.

Lemma fresh_id_new (s : store) : ~ In (fresh_id s) (map _id s).
Proof.
  unfold fresh_id. intros H. apply max_id_bound in H. lia.
Qed.

Lemma wf_store_snoc (s : store) (t : Transaction) :
  wf_store s -> ~ In (_id t) (map _id s) -> wf_store (s ++ [t]).
Proof.
  rewrite !wf_store_iff, map_app. intros Hs Ht.
  apply NoDup_app; [exact Hs | repeat constructor; intros [] |].
  intros a Ha [<-|[]]. contradiction.
Qed.

Lemma create_errors_nil (uid : ObjectId) (b : body) :
  create_errors uid b = [] ->
  (exists ty, b_type b = Some ty /\ parse_type ty <> None)
  /\ (exists a, b_amount b = Some a /\ 1 <= a <= 100000000)
  /\ (exists c, b_category b = Some c /\ c <> "" /\ (String.length c <= 50)%nat)
  /\ within 200 (b_description b) /\ within 500 (b_notes b).
Proof.
  unfold create_errors. rewrite app_nil_iff. intros [Hr Hv].
  apply validate_nil in Hv. simpl in Hv.
  destruct Hv as (Vt & Va & Vc & Vd & Vn).
  unfold validate_required in Hr. simpl in Hr.
  destruct (b_type b) as [ty|]; [|discriminate].
  destruct (b_amount b) as [a|]; [|discriminate].
  destruct (b_category b) as [c|]; [|discriminate].
  split; [exists ty; split; [reflexivity | now apply Vt]|].
  split; [exists a; split; [reflexivity | now apply Va]|].
  split; [exists c; split; [reflexivity | now apply Vc]|].
  tauto.
Qed.

Lemma created_schema_ok (w : world) (uid : ObjectId) (b : body) :
  create_errors uid b = [] -> schema_ok (created w uid b).
Proof.
  intros H. destruct (create_errors_nil uid b H)
    as ((ty & Ety & _) & (a & Ea & Ha) & (c & Ec & Hc1 & Hc2) & Hd & Hn).
  unfold schema_ok, created. simpl. rewrite Ea, Ec. simpl. tauto.
Qed.

(** X5.  The operations of the transaction layer and the creation, on
    requests whose bodies give plain values for the paths (no update
    operators), keep the stored documents within the bounds of the schema:
    if every document has an amount between 0.01 and 1,000,000, a non-empty
    category of at most 50 characters, a description of at most 200 and
    notes of at most 500, then so does every document afterwards. *)
Theorem schema_bounds_are_kept
    (w : world) (uid : ObjectId) (op : operation) (b : body) :
  Forall schema_ok (docs w) ->
  Forall schema_ok (docs (snd (route uid op w)))
  /\ Forall schema_ok (docs (snd (Controller.createTransaction uid b w))).
Proof.
  intros H. split.
  - destruct (route_docs w uid op)
      as [->|[(id & b0 & Hv & ->)|[(p & ->)|(p & ->)]]].
    + exact H.
    + apply Forall_update_first; [|exact H].
      intros t. now apply apply_update_schema_ok.
    + now apply Forall_remove_first.
    + now apply Forall_filter_keep.
  - rewrite createTransaction_run.
    destruct (create_errors uid b) eqn:E; [|exact H].
    cbn [snd docs]. apply Forall_app. split; [exact H|].
    constructor; [|constructor]. now apply created_schema_ok.
Qed.

Lemma schema_bounds_are_kept_witness :
  Forall schema_ok [dotted]
  /\ Forall schema_ok
       (docs (snd (route 7%N (UpdateTransaction (GoodId 1%N) new_amount)
                     {| docs := [dotted]; calls := []; now := 0; zone := utc |}))).
Proof.
  assert (H : Forall schema_ok [dotted]).
  { constructor; [|constructor]. unfold schema_ok. simpl.
    repeat split; try lia; discriminate. }
  split; [exact H|].
  apply (schema_bounds_are_kept {| docs := [dotted]; calls := []; now := 0; zone := utc |} 7%N
           (UpdateTransaction (GoodId 1%N) new_amount) lunch H).
Defined.

(** ** Creation *)

Lemma required_listed (uid : ObjectId) (b : body) :
  (b_type b = None -> In "type" (create_errors uid b))
  /\ (b_amount b = None -> In "amount" (create_errors uid b))
  /\ (b_category b = None -> In "category" (create_errors uid b)).
Proof.
  unfold create_errors, validate_required.
  cbn [Controller.transactionData b_user b_type b_amount b_category].
  repeat split; intros E; rewrite E, !in_app_iff; unfold fails; simpl; tauto.
Qed.

(** X7.  Over a collection with unique identifiers, a creation whose body
    passes the validators answers 201 with a new document that is appended
    to the collection, belongs to the requester whatever [user] the body
    names, and carries an identifier that no document had; the requester
    then fetches it back under that identifier, and any other user gets 404
    for it.  A creation whose body fails a validator answers 400 with the
    failing paths, among them each of [type], [amount] and [category] that
    the body does not supply, and stores nothing. *)
Theorem createTransaction_then_fetch (w : world) (uid : ObjectId) (b : body) :
  wf_store (docs w) ->
  match create_errors uid b with
  | [] =>
      let t := created w uid b in
      let w' := snd (Controller.createTransaction uid b w) in
      fst (Controller.createTransaction uid b w) = Return (Ok 201 t)
      /\ user t = uid
      /\ ~ In (_id t) (map _id (docs w))
      /\ docs w' = docs w ++ [t]
      /\ fst (Controller.getTransaction uid (GoodId (_id t)) w') = Return (Ok 200 t)
      /\ (forall other, other <> uid ->
            fst (Controller.getTransaction other (GoodId (_id t)) w')
            = Return (Fail 404 "Transaction not found" []))
  | errors =>
      Controller.createTransaction uid b w
      = (Return (Fail 400 "Validation failed" errors), logged w [Create])
      /\ (b_type b = None -> In "type" errors)
      /\ (b_amount b = None -> In "amount" errors)
      /\ (b_category b = None -> In "category" errors)
  end.
Proof.
  intros Hwf. pose proof (createTransaction_run w uid b) as Hrun.
  pose proof (required_listed uid b) as Hreq.
  destruct (create_errors uid b) as [|e errors] eqn:E.
  - cbv zeta. rewrite Hrun. cbn [fst snd docs].
    assert (Hwf' : wf_store (docs w ++ [created w uid b])).
    { apply wf_store_snoc; [exact Hwf | apply fresh_id_new]. }
    assert (Hin : In (created w uid b) (docs w ++ [created w uid b])).
    { apply in_or_app. right. now left. }
    split; [reflexivity|]. split; [reflexivity|].
    split; [apply fresh_id_new|]. split; [reflexivity|].
    split.
    + rewrite getTransaction_run. cbn [fst docs].
      now rewrite (find_own_doc_some _ uid (created w uid b) Hwf' Hin eq_refl).
    + intros other Hne. rewrite getTransaction_run. cbn [fst docs].
      rewrite find_own_doc_none; [reflexivity|].
      intros t Ht Hid Hu. apply Hne. rewrite <- Hu.
      assert (t = created w uid b); [|now subst t].
      apply (same_id_same_doc _ _ _ Hwf' Ht Hin).
      simpl in Hid. now apply N.eqb_eq.
  - split; [exact Hrun | exact Hreq].
Qed.

Lemma createTransaction_then_fetch_witness :
  wf_store [dotted; foreign]
  /\ user (created {| docs := [dotted; foreign]; calls := []; now := 0; zone := utc |} 7%N lunch)
     = 7%N
  /\ fst (Controller.getTransaction 7%N (GoodId 3%N)
            (snd (Controller.createTransaction 7%N lunch
                    {| docs := [dotted; foreign]; calls := []; now := 0; zone := utc |})))
     = Return (Ok 200
                 (created {| docs := [dotted; foreign]; calls := []; now := 0; zone := utc |}
                    7%N lunch)).
Proof.
  split; [reflexivity|].
  pose proof (createTransaction_then_fetch
                {| docs := [dotted; foreign]; calls := []; now := 0; zone := utc |} 7%N lunch
                eq_refl) as H.
  change (create_errors 7%N lunch) with (@nil string) in H.
  destruct H as (_ & Hu & _ & _ & Hg & _). split; [exact Hu | exact Hg].
Defined.

(** ** The list and its filters *)






(** X9.  A [type] that is neither "income" nor "expense" is ignored: the
    list request is answered as the same request without a type. *)
Theorem getTransactions_ignores_other_type
    (w : world) (uid : ObjectId) (rq : list_query) (ty : string) :
  allowed_type ty = false ->
  Controller.getTransactions uid (with_rq_type (Some ty) rq) w
  = Controller.getTransactions uid (with_rq_type None rq) w.
Proof.
  intros H.
  assert (Hp : Controller.list_predicate uid (with_rq_type (Some ty) rq)
               = Controller.list_predicate uid (with_rq_type None rq)).
  { unfold Controller.list_predicate.
    cbn [rq_type rq_category rq_startDate rq_endDate rq_search with_rq_type str].
    rewrite H, andb_false_r. reflexivity. }
  unfold Controller.getTransactions. rewrite Hp. reflexivity.
Qed.

Lemma getTransactions_ignores_other_type_witness :
  allowed_type "Income" = false
  /\ Controller.getTransactions 1%N (with_rq_type (Some "Income") no_filter)
       {| docs := january; calls := []; now := 0; zone := utc |}
     = Controller.getTransactions 1%N (with_rq_type None no_filter)
         {| docs := january; calls := []; now := 0; zone := utc |}.
Proof.
  split; [reflexivity|].
  apply (getTransactions_ignores_other_type
           {| docs := january; calls := []; now := 0; zone := utc |} 1%N no_filter "Income").
  reflexivity.
Defined.

(** X10.  For a request with well-formed dates, patterns of the modelled
    fragment and a sort field that is absent or one of the paths kept, a
    page that starts at or past the end of the matches is not an error: the
    answer is 200 with no record, the total unchanged, and no next page. *)
Theorem getTransactions_past_the_end
    (w : world) (uid : ObjectId) (rq : list_query) :
  castable (Controller.list_predicate uid rq) = true ->
  sort_path_kept rq -> patterns_modelled rq ->
  1 <= limit_of rq ->
  Z.of_nat (List.length (sorted_matches uid rq (docs w)))
    <= (page_of rq - 1) * limit_of rq ->
  exists r : page_result,
    fst (Controller.getTransactions uid rq w) = Return (Ok 200 r)
    /\ data r = []
    /\ totalItems (paging r) = Z.of_nat (List.length (sorted_matches uid rq (docs w)))
    /\ hasNextPage (paging r) = false.
Proof.
  intros Hc Hkept Hpat Hl Hpast.
  assert (Hlen : List.length (filter (matches (Controller.list_predicate uid rq)) (docs w))
                 = List.length (sorted_matches uid rq (docs w))).
  { unfold sorted_matches, sort_docs. now rewrite sort_length. }
  eexists. rewrite getTransactions_ok; [|exact Hc|lia].
  cbn [fst]. split; [reflexivity|].
  cbn [data paging totalItems hasNextPage]. rewrite Hlen.
  split; [|split; [reflexivity|]].
  - unfold cursor_limit, cursor_skip.
    destruct (Z.eqb_spec (limit_of rq) 0); [lia|].
    rewrite skipn_all2; [apply firstn_nil | lia].
  - unfold Math_ceil_div. destruct (Z.eqb_spec (limit_of rq) 0); [lia|].
    simpl. apply Z.ltb_ge.
    pose proof (ceil_div_bounds
                  (Z.of_nat (List.length (sorted_matches uid rq (docs w))))
                  (limit_of rq) Hl).
    nia.
Qed.

Lemma getTransactions_past_the_end_witness :
  (castable (Controller.list_predicate 1%N (with_page 2 no_filter)) = true
   /\ sort_path_kept (with_page 2 no_filter)
   /\ patterns_modelled (with_page 2 no_filter)
   /\ 1 <= limit_of (with_page 2 no_filter)
   /\ Z.of_nat (List.length (sorted_matches 1%N (with_page 2 no_filter) january))
      <= (page_of (with_page 2 no_filter) - 1) * limit_of (with_page 2 no_filter))
  /\ exists r : page_result,
       fst (Controller.getTransactions 1%N (with_page 2 no_filter)
              {| docs := january; calls := []; now := 0; zone := utc |}) = Return (Ok 200 r)
       /\ data r = [].
Proof.
  assert (H : castable (Controller.list_predicate 1%N (with_page 2 no_filter)) = true
              /\ sort_path_kept (with_page 2 no_filter)
              /\ patterns_modelled (with_page 2 no_filter)
              /\ 1 <= limit_of (with_page 2 no_filter)
              /\ Z.of_nat (List.length (sorted_matches 1%N (with_page 2 no_filter) january))
                 <= (page_of (with_page 2 no_filter) - 1)
                    * limit_of (with_page 2 no_filter)).
  { split; [reflexivity|]. split; [now left|]. split; [split; discriminate|].
    split; vm_compute; congruence. }
  split; [exact H|]. destruct H as (H1 & H2 & H3 & H4 & H5).
  destruct (getTransactions_past_the_end
              {| docs := january; calls := []; now := 0; zone := utc |} 1%N
              (with_page 2 no_filter) H1 H2 H3 H4 H5) as (r & Hr & Hd & _).
  exists r. split; assumption.
Defined.

Lemma StronglySorted_skipn {A} (R : A -> A -> Prop) (n : nat) : forall l,
  StronglySorted R l -> StronglySorted R (skipn n l).
Proof.
  induction n as [|n IH]; intros l H; [exact H|].
  destruct l as [|x r]; [constructor|]. simpl. apply IH.
  now inversion H.
Qed.

Lemma StronglySorted_firstn {A} (R : A -> A -> Prop) (n : nat) : forall l,
  StronglySorted R l -> StronglySorted R (firstn n l).
Proof.
  induction n as [|n IH]; intros l H; [constructor|].
  destruct l as [|x r]; [constructor|]. simpl.
  inversion H as [|? ? Hr Hx]; subst. constructor; [now apply IH|].
  rewrite Forall_forall in *. intros y Hy. apply Hx. now apply in_firstn in Hy.
Qed.

Lemma StronglySorted_cursor {A} (R : A -> A -> Prop) (n k : Z) (l : list A) :
  StronglySorted R l -> StronglySorted R (cursor_limit n (cursor_skip k l)).
Proof.
  intros H. unfold cursor_limit, cursor_skip.
  destruct (n =? 0); [|apply StronglySorted_firstn]; now apply StronglySorted_skipn.
Qed.

(** The records of a page: none, or a window of the sorted matches. *)
Lemma page_data_window (w : world) (uid : ObjectId) (rq : list_query) (n : Z) :
  page_data w uid rq n = []
  \/ exists a b, page_data w uid rq n
                 = cursor_limit a (cursor_skip b (sorted_matches uid rq (docs w))).
Proof.
  unfold page_data.
  destruct (castable (Controller.list_predicate uid (with_page n rq))) eqn:Hc.
  - destruct (Z.ltb_spec ((page_of (with_page n rq) - 1) * limit_of (with_page n rq)) 0)
      as [Hs|Hs].
    + left. unfold Controller.getTransactions, try_catch, bind, both, find,
        countDocuments, cast, call, get_docs, ret, throw, bind.
      fold (page_of (with_page n rq)) (limit_of (with_page n rq)). rewrite Hc.
      destruct (Z.ltb_spec ((page_of (with_page n rq) - 1) * limit_of (with_page n rq)) 0);
        [reflexivity | lia].
    + right. rewrite (getTransactions_ok w uid (with_page n rq) Hc Hs).
      cbn [fst data]. eexists. eexists. reflexivity.
  - left. now rewrite (getTransactions_cast_error w uid (with_page n rq) Hc).
Qed.

Lemma sorted_by_date (dir : Z) (l : list Transaction) :
  StronglySorted (fun a b => if dir =? -1 then date b <= date a else date a <= date b)
    (sort_docs "date" dir l).
Proof.
  apply Sorted_StronglySorted.
  - intros a b c. destruct (dir =? -1); lia.
  - apply Sorted_weaken with (R := fun a b => sort_leb "date" dir a b = true).
    + intros a b. unfold sort_leb, field_leb. simpl.
      destruct (dir =? -1); apply Z.leb_le.
    + apply sort_sorted. intros a b. apply sort_leb_total.
Qed.

(** X11.  When no sort field is given the list is ordered by date: newest
    first when the sort order is absent or is "desc", oldest first for any
    other sort order, whatever its spelling.  This holds for the whole
    sequence of matches and within every page of the answer. *)
Theorem getTransactions_date_order
    (w : world) (uid : ObjectId) (rq : list_query) (n : Z) :
  rq_sortBy rq = None ->
  let newest_first := fun a b : Transaction => date b <= date a in
  let oldest_first := fun a b : Transaction => date a <= date b in
  match rq_sortOrder rq with
  | None =>
      StronglySorted newest_first (sorted_matches uid rq (docs w))
      /\ StronglySorted newest_first (page_data w uid rq n)
  | Some o =>
      if String.eqb o "desc"
      then StronglySorted newest_first (sorted_matches uid rq (docs w))
           /\ StronglySorted newest_first (page_data w uid rq n)
      else StronglySorted oldest_first (sorted_matches uid rq (docs w))
           /\ StronglySorted oldest_first (page_data w uid rq n)
  end.
Proof.
  intros Hby newest_first oldest_first.
  assert (H : StronglySorted
                (fun a b => if dir_of rq =? -1 then date b <= date a
                            else date a <= date b)
                (sorted_matches uid rq (docs w))).
  { unfold sorted_matches. rewrite Hby. apply sorted_by_date. }
  assert (Hp : StronglySorted
                 (fun a b => if dir_of rq =? -1 then date b <= date a
                             else date a <= date b)
                 (page_data w uid rq n)).
  { destruct (page_data_window w uid rq n) as [->|(a & b & ->)]; [constructor|].
    now apply StronglySorted_cursor. }
  unfold dir_of in H, Hp.
  destruct (rq_sortOrder rq) as [o|]; simpl in H, Hp.
  - destruct (String.eqb o "desc"); simpl in H, Hp; split; assumption.
  - split; assumption.
Qed.

Lemma getTransactions_date_order_witness :
  rq_sortBy (with_sortOrder (Some "DESC") no_filter) = None
  /\ StronglySorted (fun a b : Transaction => date a <= date b)
       (page_data {| docs := january; calls := []; now := 0; zone := utc |} 1%N
          (with_sortOrder (Some "DESC") no_filter) 1).
Proof.
  split; [reflexivity|].
  apply (getTransactions_date_order {| docs := january; calls := []; now := 0; zone := utc |} 1%N
           (with_sortOrder (Some "DESC") no_filter) 1 eq_refl).
Defined.

(** ** Bulk delete, again *)

Lemma filter_split_length {A} (p : A -> bool) (l : list A) :
  (List.length (filter p l) + List.length (filter (fun x => negb (p x)) l)
   = List.length l)%nat.
Proof.
  induction l as [|x r IH]; simpl; [reflexivity|].
  destruct (p x); simpl; lia.
Qed.

Lemma filter_none {A} (p : A -> bool) (l : list A) :
  (forall x, In x l -> p x = false) -> filter p l = [].
Proof.
  induction l as [|x r IH]; simpl; [reflexivity|].
  intros H. rewrite (H x (or_introl eq_refl)). apply IH.
  intros y Hy. apply H. now right.
Qed.

Lemma oids_length (ids : list json_id) : (List.length (oids ids) <= List.length ids)%nat.
Proof.
  unfold oids. induction ids as [|[[raw|o]|n|p] r IH]; simpl; lia.
Qed.

Lemma bulk_target_count (s : store) (uid : ObjectId) (ids : list json_id) :
  wf_store s ->
  (List.length (filter (bulk_target uid ids) s) <= List.length ids)%nat.
Proof.
  intros Hwf. apply Nat.le_trans with (m := List.length (oids ids));
    [|apply oids_length].
  rewrite <- (length_map _id).
  apply NoDup_incl_length.
  - apply wf_store_iff, wf_store_filter, Hwf.
  - intros x Hx. apply in_map_iff in Hx. destruct Hx as [t [<- Ht]].
    apply filter_In in Ht. destruct Ht as [_ Ht].
    unfold bulk_target in Ht. apply andb_true_iff in Ht. destruct Ht as [_ Ht].
    apply existsb_exists in Ht. destruct Ht as [y [Hy E]].
    apply N.eqb_eq in E. now subst y.
Qed.

(** X12.  Over a collection with unique identifiers, a bulk delete of a
    non-empty list of well-formed identifier strings answers 200 with a
    count that is at most the number of identifiers sent and is exactly the
    number of documents by which the collection shrinks; the same request
    sent again answers 200 with the count 0 and changes nothing. *)
Theorem bulkDeleteTransactions_count_and_repeat
    (w : world) (uid : ObjectId) (i : json_id) (ids : list json_id) :
  wf_store (docs w) ->
  Forall id_string (i :: ids) ->
  let w' := snd (Controller.bulkDeleteTransactions uid (Some (i :: ids)) w) in
  exists n : Z,
    fst (Controller.bulkDeleteTransactions uid (Some (i :: ids)) w)
    = Return (Ok 200 n)
    /\ 0 <= n <= Z.of_nat (List.length (i :: ids))
    /\ Z.of_nat (List.length (docs w')) + n = Z.of_nat (List.length (docs w))
    /\ fst (Controller.bulkDeleteTransactions uid (Some (i :: ids)) w')
       = Return (Ok 200 0)
    /\ docs (snd (Controller.bulkDeleteTransactions uid (Some (i :: ids)) w'))
       = docs w'.
Proof.
  intros Hwf Hc w'. apply forallb_casts_true in Hc.
  pose proof (casts_isValid _ Hc) as Hv.
  pose proof (bulkDeleteTransactions_run w uid i ids) as Hrun.
  pose proof (bulkDeleteTransactions_run w' uid i ids) as Hrun'.
  rewrite Hv, Hc in Hrun, Hrun'.
  assert (Hw' : docs w' = filter (fun t => negb (bulk_target uid (i :: ids) t)) (docs w)).
  { unfold w'. now rewrite Hrun. }
  assert (Hnone : filter (bulk_target uid (i :: ids)) (docs w') = []).
  { apply filter_none. intros t Ht. rewrite Hw' in Ht. apply filter_In in Ht.
    now apply negb_true_iff. }
  eexists. rewrite Hrun at 1. cbn [fst]. split; [reflexivity|].
  split.
  { split; [lia|]. apply inj_le. now apply bulk_target_count. }
  split.
  { rewrite Hw'.
    pose proof (filter_split_length (bulk_target uid (i :: ids)) (docs w)). lia. }
  rewrite Hrun'. cbn [fst snd docs]. rewrite Hnone. split; [reflexivity|].
  apply filter_all. apply forallb_forall. intros t Ht.
  rewrite Hw' in Ht. apply filter_In in Ht. tauto.
Qed.

Lemma bulkDeleteTransactions_count_and_repeat_witness :
  (wf_store two_owned
   /\ Forall id_string [JString (GoodId 2%N); JString (GoodId 9%N)])
  /\ exists n : Z,
       fst (Controller.bulkDeleteTransactions 7%N
              (Some [JString (GoodId 2%N); JString (GoodId 9%N)])
              {| docs := two_owned; calls := []; now := 0; zone := utc |})
       = Return (Ok 200 n)
       /\ 0 <= n <= 2.
Proof.
  assert (Hs : Forall id_string [JString (GoodId 2%N); JString (GoodId 9%N)]).
  { constructor; [now exists 2%N|]. constructor; [now exists 9%N | constructor]. }
  split; [split; [reflexivity | exact Hs]|].
  destruct (bulkDeleteTransactions_count_and_repeat
              {| docs := two_owned; calls := []; now := 0; zone := utc |} 7%N
              (JString (GoodId 2%N)) [JString (GoodId 9%N)] eq_refl Hs)
    as (n & Hn & Hb & _).
  exists n. split; [exact Hn | exact Hb].
Defined.

(** ** The aggregations add up *)

Section GroupSums.
Context {K : Type} (eqb : K -> K -> bool).

Lemma sums_accumulate (k : K) (x : Z) (gs : list (group K)) :
  sum_totals (accumulate eqb k x gs) = sum_totals gs + x
  /\ sum_counts (accumulate eqb k x gs) = sum_counts gs + 1.
Proof.
  induction gs as [|g r [IHt IHc]]; simpl; [lia|].
  destruct (eqb (g_id g) k); simpl; lia.
Qed.

Lemma sums_fold (key : Transaction -> K) (l : list Transaction) :
  forall gs,
    sum_totals (fold_left (fun gs t => accumulate eqb (key t) (amount t) gs) l gs)
    = sum_totals gs + sum_amounts l
    /\ sum_counts (fold_left (fun gs t => accumulate eqb (key t) (amount t) gs) l gs)
       = sum_counts gs + Z.of_nat (List.length l).
Proof.
  induction l as [|t r IH]; intros gs; [simpl; lia|].
  cbn [fold_left]. destruct (IH (accumulate eqb (key t) (amount t) gs)) as [-> ->].
  destruct (sums_accumulate (key t) (amount t) gs) as [-> ->].
  cbn [sum_amounts fold_right List.length]. fold (sum_amounts r). lia.
Qed.

Lemma group_by_sums (key : Transaction -> K) (l : list Transaction) :
  sum_totals (group_by eqb key l) = sum_amounts l
  /\ sum_counts (group_by eqb key l) = Z.of_nat (List.length l).
Proof.
  unfold group_by. destruct (sums_fold key l []) as [-> ->]. simpl. lia.
Qed.

Lemma sums_perm (a b : list (group K)) :
  Permutation a b -> sum_totals a = sum_totals b /\ sum_counts a = sum_counts b.
Proof.
  induction 1 as [|x l l' _ [IHt IHc]|x y l|l l' l'' _ [E1 E2] _ [E3 E4]];
    simpl; lia.
Qed.

Lemma sorted_group_by_sums (leb : group K -> group K -> bool)
    (key : Transaction -> K) (l : list Transaction) :
  sum_totals (sort leb (group_by eqb key l)) = sum_amounts l
  /\ sum_counts (sort leb (group_by eqb key l)) = Z.of_nat (List.length l).
Proof.
  destruct (sums_perm _ _ (sort_perm leb (group_by eqb key l))) as [-> ->].
  apply group_by_sums.
Qed.
End GroupSums.

Lemma getCategoryBreakdown_run (w : world) (uid : ObjectId) (ty : string)
    (sd ed : option Z) :
  allowed_type ty = true ->
  fst (Controller.getCategoryBreakdown uid ty sd ed w)
  = Return (Ok 200 (sort (fun a b : group string => total b <=? total a)
                      (group_by String.eqb category
                         (filter (selected_of_type uid ty sd ed) (docs w))))).
Proof.
  intros Hty.
  unfold Controller.getCategoryBreakdown, try_catch. rewrite Hty. simpl.
  set (q := if both_given sd ed
            then with_date (opt_instant sd) (opt_instant ed)
                   (with_type ty (by_user uid))
            else with_type ty (by_user uid)).
  assert (Hm : filter (matches q) (docs w)
               = filter (selected_of_type uid ty sd ed) (docs w)).
  { apply filter_ext. intros t. apply matches_breakdown_scope. }
  unfold Model.getCategoryBreakdown, bind, aggregate_match, call, get_docs, ret.
  simpl. fold q. rewrite Hm. reflexivity.
Qed.

Lemma getTransactionSummary_run (w : world) (uid : ObjectId) (sd ed : option Z) :
  fst (Controller.getTransactionSummary uid sd ed w)
  = Return (Ok 200 (Controller.formattedSummary
                      (group_by txn_type_eqb type
                         (filter (selected uid sd ed) (docs w))))).
Proof.
  set (q := if both_given sd ed
            then with_date (opt_instant sd) (opt_instant ed) (by_user uid)
            else by_user uid).
  assert (Hm : filter (matches q) (docs w) = filter (selected uid sd ed) (docs w)).
  { apply filter_ext. intros t. apply matches_summary_scope. }
  unfold Controller.getTransactionSummary, Model.getUserSummary, try_catch, bind,
    aggregate_match, call, get_docs, ret. simpl. fold q. rewrite Hm.
  reflexivity.
Qed.

Lemma formattedSummary_fields (l : list Transaction) :
  let d := Controller.formattedSummary (group_by txn_type_eqb type l) in
  income d = sum_amounts (filter (has_type Income) l)
  /\ incomeCount d = Z.of_nat (List.length (filter (has_type Income) l))
  /\ expense d = sum_amounts (filter (has_type Expense) l)
  /\ expenseCount d = Z.of_nat (List.length (filter (has_type Expense) l))
  /\ balance d = income d - expense d
  /\ totalTransactions d = incomeCount d + expenseCount d.
Proof.
  pose proof (fold_format_item (group_by txn_type_eqb type l) Controller.zero_summary
                (group_by_nodup txn_type_eqb txn_type_eqb_spec type l))
    as (Hi & Hic & He & Hec).
  simpl in Hi, Hic, He, Hec.
  destruct (lookup_total_count Income l) as [Ti Ci].
  destruct (lookup_total_count Expense l) as [Te Ce].
  simpl. rewrite Hi, Hic, He, Hec, Ti, Ci, Te, Ce. repeat split; reflexivity.
Qed.

Lemma selected_of_type_split (uid : ObjectId) (ty : txn_type) (sd ed : option Z)
    (s : store) :
  filter (selected_of_type uid (type_name ty) sd ed) s
  = filter (has_type ty) (filter (selected uid sd ed) s).
Proof.
  rewrite filter_filter_and. apply filter_ext. intros t.
  unfold selected_of_type, has_type. f_equal.
  destruct (type t), ty; reflexivity.
Qed.

(** X13.  For a collection whose amounts are whole units, so that the sums
    of the store are exact, and for every user and date range, the category
    breakdowns of the two types account for the summary: the totals of the
    income categories add up to the summary's [income] and their counts to
    [incomeCount], the same for the expense categories, so the difference
    of the two breakdown totals is [balance] and the sum of all counts is
    [totalTransactions]; no selected transaction is lost or counted twice
    by the grouping. *)
Theorem breakdowns_add_up_to_summary
    (w : world) (uid : ObjectId) (startDate endDate : option Z) :
  whole_amounts (docs w) = true ->
  exists (d : summary) (inc exp : list (group string)),
    fst (Controller.getTransactionSummary uid startDate endDate w)
    = Return (Ok 200 d)
    /\ fst (Controller.getCategoryBreakdown uid "income" startDate endDate w)
       = Return (Ok 200 inc)
    /\ fst (Controller.getCategoryBreakdown uid "expense" startDate endDate w)
       = Return (Ok 200 exp)
    /\ sum_totals inc = income d /\ sum_counts inc = incomeCount d
    /\ sum_totals exp = expense d /\ sum_counts exp = expenseCount d
    /\ sum_totals inc - sum_totals exp = balance d
    /\ sum_counts inc + sum_counts exp = totalTransactions d.
Proof.
  intros _.
  do 3 eexists.
  split; [apply getTransactionSummary_run|].
  split; [now apply getCategoryBreakdown_run|].
  split; [now apply getCategoryBreakdown_run|].
  set (l := filter (selected uid startDate endDate) (docs w)).
  destruct (formattedSummary_fields l) as (Hi & Hic & He & Hec & Hb & Ht).
  change "income" with (type_name Income).
  change "expense" with (type_name Expense).
  rewrite !selected_of_type_split. fold l.
  destruct (sorted_group_by_sums String.eqb
              (fun a b : group string => total b <=? total a) category
              (filter (has_type Income) l)) as [-> ->].
  destruct (sorted_group_by_sums String.eqb
              (fun a b : group string => total b <=? total a) category
              (filter (has_type Expense) l)) as [-> ->].
  cbv zeta in Hi, Hic, He, Hec, Hb, Ht.
  rewrite Hb, Ht, Hi, Hic, He, Hec. repeat split; reflexivity.
Qed.

Lemma breakdowns_add_up_to_summary_witness :
  whole_amounts january = true
  /\ exists (d : summary) (inc exp : list (group string)),
       fst (Controller.getTransactionSummary 1%N None None
              {| docs := january; calls := []; now := 0; zone := utc |})
       = Return (Ok 200 d)
       /\ fst (Controller.getCategoryBreakdown 1%N "income" None None
                 {| docs := january; calls := []; now := 0; zone := utc |})
          = Return (Ok 200 inc)
       /\ sum_totals inc = income d.
Proof.
  split; [reflexivity|].
  destruct (breakdowns_add_up_to_summary
              {| docs := january; calls := []; now := 0; zone := utc |} 1%N None None
              eq_refl) as (d & inc & exp & Hd & Hi & _ & Hs & _).
  exists d, inc, exp. split; [exact Hd|]. split; [exact Hi | exact Hs].
Defined.



(** ** The dashboard's reading of a summary *)

Lemma formatStats_item_fold (gs : list (group txn_type)) : forall f,
  NoDup (map g_id gs) ->
  let r := fold_left formatStats_item gs f in
  st_income r = match lookup txn_type_eqb Income gs with
                | Some g => total g | None => st_income f end
  /\ st_expense r = match lookup txn_type_eqb Expense gs with
                    | Some g => total g | None => st_expense f end
  /\ st_count r = st_count f + sum_counts gs.
Proof.
  induction gs as [|g r IH]; intros f Hnd.
  - simpl. repeat split; lia.
  - inversion Hnd as [|? ? Hg Hr]; subst.
    destruct (IH (formatStats_item f g) Hr) as (A & B & C).
    assert (Hnone : lookup txn_type_eqb (g_id g) r = None).
    { destruct (lookup txn_type_eqb (g_id g) r) as [h|] eqn:E; [|reflexivity].
      apply (lookup_key txn_type_eqb txn_type_eqb_spec) in E.
      destruct E as [E Hin]. exfalso. apply Hg. rewrite <- E.
      now apply in_map. }
    cbv zeta. change (fold_left formatStats_item (g :: r) f)
      with (fold_left formatStats_item r (formatStats_item f g)).
    rewrite A, B, C, !lookup_cons.
    unfold formatStats_item.
    destruct (g_id g) eqn:Eg; simpl; rewrite Hnone; simpl;
      repeat split; lia.
Qed.

(** X15.  On the groups that the summary aggregation returns, the
    dashboard's [formatStats] and the summary endpoint's formatting agree:
    same income, same expense, same balance, and the dashboard's running
    [count] equals [totalTransactions], which is the number of selected
    transactions.  The aggregation gives one group per type, so adding the
    counts up and assigning them per type come to the same. *)
Theorem formatStats_agrees_with_summary
    (w : world) (uid : ObjectId) (startDate endDate : option Z) :
  exists gs : list (group txn_type),
    fst (Model.getUserSummary uid startDate endDate w) = Return gs
    /\ st_income (formatStats gs) = income (Controller.formattedSummary gs)
    /\ st_expense (formatStats gs) = expense (Controller.formattedSummary gs)
    /\ st_balance (formatStats gs) = balance (Controller.formattedSummary gs)
    /\ st_count (formatStats gs)
       = totalTransactions (Controller.formattedSummary gs)
    /\ st_count (formatStats gs)
       = Z.of_nat (List.length (filter (selected uid startDate endDate) (docs w))).
Proof.
  set (l := filter (selected uid startDate endDate) (docs w)).
  exists (group_by txn_type_eqb type l). split.
  { set (q := if both_given startDate endDate
              then with_date (opt_instant startDate) (opt_instant endDate)
                     (by_user uid)
              else by_user uid).
    assert (Hm : filter (matches q) (docs w) = l).
    { apply filter_ext. intros t. apply matches_summary_scope. }
    unfold Model.getUserSummary, bind, aggregate_match, call, get_docs, ret.
    simpl. fold q. rewrite Hm. reflexivity. }
  set (gs := group_by txn_type_eqb type l).
  assert (Hnd : NoDup (map g_id gs))
    by apply (group_by_nodup txn_type_eqb txn_type_eqb_spec).
  destruct (formatStats_item_fold gs
              {| st_income := 0; st_expense := 0; st_balance := 0; st_count := 0 |}
              Hnd) as (Si & Se & Sc).
  destruct (fold_format_item gs Controller.zero_summary Hnd) as (Hi & Hic & He & Hec).
  cbv zeta in Si, Se, Sc, Hi, Hic, He, Hec.
  destruct (group_by_sums txn_type_eqb type l) as [_ Hlen]. fold gs in Hlen.
  assert (Htot : totalTransactions (Controller.formattedSummary gs)
                 = Z.of_nat (List.length l)).
  { destruct (formattedSummary_fields l) as (_ & Hc1 & _ & Hc2 & _ & Ht).
    cbv zeta in Hc1, Hc2, Ht. fold gs in Hc1, Hc2, Ht. rewrite Ht, Hc1, Hc2.
    pose proof (filter_split_length (has_type Income) l) as Hs.
    assert (Hx : filter (fun x => negb (has_type Income x)) l
                 = filter (has_type Expense) l).
    { apply filter_ext. intros t. unfold has_type. now destruct (type t). }
    rewrite Hx in Hs. lia. }
  unfold formatStats. cbn [st_income st_expense st_balance st_count].
  unfold Controller.formattedSummary at 1 2 3.
  cbn [income expense balance].
  rewrite Si, Se, Sc, Hi, He, Htot, Hlen. cbn [st_income st_expense st_count
    income expense Controller.zero_summary].
  repeat split; lia.
Qed.

(** ** Closing an account *)

Section AccountFacts.
Variable User : Type.
Variable user_id : User -> ObjectId.
Variable comparePassword : User -> string -> bool.

Lemma User_findByIdAndDelete_spec (uid : ObjectId) (users : list User) :
  NoDup (map user_id users) ->
  forall v, In v (User_findByIdAndDelete User user_id uid users)
            <-> In v users /\ user_id v <> uid.
Proof.
  induction users as [|u r IH]; intros Hnd v; simpl; [tauto|].
  inversion Hnd as [|? ? Hu Hr]; subst.
  destruct (N.eqb (user_id u) uid) eqn:E.
  - apply N.eqb_eq in E. split.
    + intros Hv. split; [now right|]. intros Ev. apply Hu.
      rewrite E, <- Ev. now apply in_map.
    + intros [[->|Hv] Hne]; [contradiction | exact Hv].
  - apply N.eqb_neq in E. simpl. rewrite (IH Hr v). split.
    + intros [->|[Hv Hne]]; [split; [now left | exact E] | split; [now right | exact Hne]].
    + intros [[->|Hv] Hne]; [now left | right; split; assumption].
Qed.

Lemma deleteAccount_refused (w : world) (uid : ObjectId)
    (password : option string) (users : list User) :
  password_accepted User user_id comparePassword uid password users = false ->
  exists st msg,
    deleteAccount User user_id comparePassword uid password users w
    = (Return (Fail st msg [], users), w).
Proof.
  unfold password_accepted, deleteAccount, try_catch.
  destruct (truthy password); simpl.
  - destruct (User_findById User user_id uid users) as [u|].
    + intros ->. simpl. eauto.
    + intros _. simpl. eauto.
  - intros _. eauto.
Qed.

Lemma deleteAccount_accepted (w : world) (uid : ObjectId)
    (password : option string) (users : list User) :
  password_accepted User user_id comparePassword uid password users = true ->
  deleteAccount User user_id comparePassword uid password users w
  = (Return (Ok 200 tt, User_findByIdAndDelete User user_id uid users),
     {| docs := filter (fun t => negb (owned uid t)) (docs w);
        calls := calls w ++ [DeleteMany (by_user uid)];
        now := now w; zone := zone w |}).
Proof.
  unfold password_accepted, deleteAccount, try_catch.
  destruct (truthy password); simpl; [|discriminate].
  destruct (User_findById User user_id uid users) as [u|]; [|discriminate].
  intros ->. simpl.
  unfold bind, deleteMany, call, cast, get_docs, put_docs, ret. simpl.
  f_equal. f_equal. apply filter_ext. intros t. unfold matches, owned. simpl.
  now rewrite ?andb_true_r.
Qed.

(** X16.  Closing an account, over user documents with unique identifiers.
    The request always answers.  It answers 200 exactly when a non-empty
    password is sent, the user exists and [comparePassword] accepts the
    password; then no transaction of the user remains while every
    transaction of any other user is kept, and the user document is the
    only one removed.  Otherwise the answer is a failure, and neither the
    transactions, nor the log of store calls, nor the users have changed. *)
Theorem deleteAccount_cascades_when_password_accepted
    (w : world) (uid : ObjectId) (password : option string) (users : list User) :
  NoDup (map user_id users) ->
  let r := deleteAccount User user_id comparePassword uid password users w in
  exists (resp : response unit) (users' : list User),
    fst r = Return (resp, users')
    /\ if password_accepted User user_id comparePassword uid password users
       then resp = Ok 200 tt
            /\ (forall t, In t (docs (snd r)) <-> In t (docs w) /\ user t <> uid)
            /\ (forall v, In v users' <-> In v users /\ user_id v <> uid)
       else (exists st msg, resp = Fail st msg [])
            /\ snd r = w /\ users' = users.
Proof.
  intros Hnd r. subst r.
  destruct (password_accepted User user_id comparePassword uid password users)
    eqn:Hacc.
  - rewrite (deleteAccount_accepted w uid password users Hacc).
    do 2 eexists. split; [reflexivity|]. split; [reflexivity|]. split.
    + intros t. cbn [snd docs]. rewrite filter_In. unfold owned.
      rewrite negb_true_iff, N.eqb_neq. tauto.
    + now apply User_findByIdAndDelete_spec.
  - destruct (deleteAccount_refused w uid password users Hacc) as (st & msg & ->).
    do 2 eexists. split; [reflexivity|]. eauto.
Qed.
End AccountFacts.

Lemma deleteAccount_cascades_when_password_accepted_witness :
  NoDup (map fst [(1%N, "hunter2"); (2%N, "secret")])
  /\ exists (resp : response unit) (users' : list plain_user),
       fst (deleteAccount plain_user fst plain_compare 1%N (Some "hunter2")
              [(1%N, "hunter2"); (2%N, "secret")]
              {| docs := january; calls := []; now := 0; zone := utc |})
       = Return (resp, users')
       /\ resp = Ok 200 tt.
Proof.
  assert (Hnd : NoDup (map (@fst ObjectId string) [(1%N, "hunter2"); (2%N, "secret")])).
  { simpl. constructor; [simpl; intros [H|[]]; discriminate|].
    constructor; [simpl; tauto | constructor]. }
  split; [exact Hnd|].
  destruct (deleteAccount_cascades_when_password_accepted plain_user fst plain_compare
              {| docs := january; calls := []; now := 0; zone := utc |} 1%N (Some "hunter2")
              [(1%N, "hunter2"); (2%N, "secret")] Hnd)
    as (resp & users' & Hr & Hc).
  exists resp, users'. split; [exact Hr|].
  exact (proj1 Hc).
Defined.

(** ** The client's bulk delete *)

(** X17.  The bulk delete as the client sends it never deletes anything:
    the client puts the identifiers under [ids], the handler reads
    [transactionIds], so for every list of identifiers the answer is 400
    "Please provide an array of transaction IDs" and the store is not
    called.  The same identifiers under the name that the handler reads are
    taken up: a non-empty list of valid identifiers is answered 200 with
    the number of the user's documents among them. *)
Theorem client_bulk_delete_is_refused
    (w : world) (uid : ObjectId) (ids : list req_id) :
  bulk_delete_request uid (api_bulkDeleteTransactions ids) w
  = (Return (Fail 400 "Please provide an array of transaction IDs" []), w)
  /\ fst (bulk_delete_request uid [("transactionIds", map JString ids)] w)
     = match ids with
       | [] => Return (Fail 400 "Please provide an array of transaction IDs" [])
       | _ :: _ =>
           if forallb ObjectId_isValid ids
           then Return (Ok 200 (Z.of_nat (List.length
                                  (filter (bulk_target uid (map JString ids))
                                     (docs w)))))
           else Return (Fail 400 "Some transaction IDs are invalid" [])
       end.
Proof.
  split; [reflexivity|].
  destruct ids as [|i r]; [reflexivity|].
  unfold bulk_delete_request, body_array. cbn [List.find fst snd option_map].
  change (String.eqb "transactionIds" "transactionIds") with true. cbv iota.
  cbn [option_map snd map].
  rewrite (bulkDeleteTransactions_run w uid (JString i) (map JString r)).
  change (JString i :: map JString r) with (map JString (i :: r)).
  assert (Hv : forall l, forallb isValid (map JString l) = forallb ObjectId_isValid l).
  { induction l as [|x l IH]; simpl; [reflexivity | now rewrite IH]. }
  assert (Hc : forall l, forallb casts (map JString l) = forallb ObjectId_isValid l).
  { induction l as [|[raw|o] l IH]; simpl; [reflexivity | reflexivity |].
    exact IH. }
  rewrite Hv, Hc.
  now destruct (forallb ObjectId_isValid (i :: r)).
Qed.

(** ** Updates that the validators refuse *)

Lemma in_fails (c : bool) (path x : string) :
  In x (fails c path) <-> c = true /\ x = path.
Proof.
  unfold fails. destruct c; simpl; split.
  - intros [H|[]]. now split.
  - intros [_ ->]. now left.
  - tauto.
  - intros [H _]. discriminate.
Qed.

Lemma parse_type_none (s : string) :
  parse_type s = None <-> s <> "income" /\ s <> "expense".
Proof.
  unfold parse_type.
  destruct (String.eqb_spec s "income") as [->|Hi]; [split; [discriminate | tauto]|].
  destruct (String.eqb_spec s "expense") as [->|He]; [split; [discriminate | tauto]|].
  tauto.
Qed.

(** X18.  Over a collection with unique identifiers, an update of an own
    transaction whose body fails a validator answers 400 "Validation
    failed" with the failing paths and changes no document.  [amount] is
    among the paths exactly when the body gives an amount below 0.01 or
    above 1,000,000, and [type] exactly when it gives a type other than
    "income" and "expense". *)
Theorem updateTransaction_rejects_invalid_body
    (w : world) (uid : ObjectId) (t0 : Transaction) (b : body) :
  wf_store (docs w) -> In t0 (docs w) -> user t0 = uid -> validate b <> [] ->
  Controller.updateTransaction uid (GoodId (_id t0)) b w
  = (Return (Fail 400 "Validation failed" (validate b)),
     logged w [FindOne (own_doc uid (GoodId (_id t0)));
               FindByIdAndUpdate (GoodId (_id t0))])
  /\ (In "amount" (validate b)
      <-> exists a, b_amount b = Some a /\ (a < 1 \/ 100000000 < a))
  /\ (In "type" (validate b)
      <-> exists s, b_type b = Some s /\ s <> "income" /\ s <> "expense").
Proof.
  intros Hwf Hin Hu Hv. split; [|split].
  - rewrite updateTransaction_run, (find_own_doc_some _ uid t0 Hwf Hin Hu).
    destruct (validate b); [congruence | reflexivity].
  - unfold validate. rewrite !in_app_iff, !in_fails. split.
    + intros [[_ H]|[[H _]|[[_ H]|[[_ H]|[_ H]]]]]; try discriminate.
      destruct (b_amount b) as [a|]; [|discriminate].
      exists a. split; [reflexivity|].
      apply orb_true_iff in H. destruct H as [H|H]; apply Z.ltb_lt in H; lia.
    + intros (a & E & Ha). right. left. split; [|reflexivity].
      rewrite E. apply orb_true_iff.
      destruct Ha as [Ha|Ha]; [left | right]; now apply Z.ltb_lt.
  - unfold validate. rewrite !in_app_iff, !in_fails. split.
    + intros [[H _]|[[_ H]|[[_ H]|[[_ H]|[_ H]]]]]; try discriminate.
      destruct (b_type b) as [s|]; [|discriminate].
      exists s. split; [reflexivity|]. apply parse_type_none.
      destruct (parse_type s); [discriminate | reflexivity].
    + intros (s & E & Hs). left. split; [|reflexivity].
      rewrite E. apply parse_type_none in Hs. now rewrite Hs.
Qed.

Lemma updateTransaction_rejects_invalid_body_witness :
  (wf_store two_owned /\ validate too_much <> [])
  /\ fst (Controller.updateTransaction 7%N (GoodId 2%N) too_much
            {| docs := two_owned; calls := []; now := 0; zone := utc |})
     = Return (Fail 400 "Validation failed" ["amount"]).
Proof.
  split; [split; [reflexivity | discriminate]|].
  pose proof (updateTransaction_rejects_invalid_body
                {| docs := two_owned; calls := []; now := 0; zone := utc |} 7%N
                {| _id := 2%N; user := 7%N; type := Income; amount := 100000;
                   category := "Salary"; description := None; date := 20;
                   notes := None |} too_much
                eq_refl (or_intror (or_introl eq_refl)) eq_refl
                ltac:(discriminate)) as [H _].
  cbn [_id] in H. rewrite H. reflexivity.
Defined.

(** ** Pages outside the usual range *)

(** X19.  A list request with [limit=0], well-formed dates, patterns of the
    modelled fragment and a sort field that is absent or one of the paths
    kept is answered 200 with every matching record at once, whatever the
    page number: the skip is zero and a limit of zero is no limit.
    [totalPages] is then not a number of pages, it is [Infinity] when
    something matches and [NaN] when nothing does, and [hasNextPage] is
    true exactly when something matches, so the list never reports a last
    page. *)
Theorem getTransactions_limit_zero
    (w : world) (uid : ObjectId) (rq : list_query) :
  castable (Controller.list_predicate uid rq) = true ->
  sort_path_kept rq -> patterns_modelled rq ->
  rq_limit rq = Some 0 ->
  let all := sorted_matches uid rq (docs w) in
  exists r : page_result,
    fst (Controller.getTransactions uid rq w) = Return (Ok 200 r)
    /\ data r = all
    /\ totalItems (paging r) = Z.of_nat (List.length all)
    /\ totalPages (paging r) = match all with [] => NaN | _ :: _ => Infinity end
    /\ hasNextPage (paging r) = match all with [] => false | _ :: _ => true end.
Proof.
  intros Hc Hkept Hpat Hl all.
  assert (Hlim : limit_of rq = 0) by (unfold limit_of; now rewrite Hl).
  assert (Hlen : List.length (filter (matches (Controller.list_predicate uid rq)) (docs w))
                 = List.length all).
  { unfold all, sorted_matches, sort_docs. now rewrite sort_length. }
  eexists. rewrite getTransactions_ok; [|exact Hc | rewrite Hlim; lia].
  cbn [fst]. split; [reflexivity|].
  cbn [data paging totalItems totalPages hasNextPage].
  rewrite Hlim, Hlen. fold all.
  split.
  { unfold cursor_limit, cursor_skip. rewrite Z.mul_0_r. reflexivity. }
  split; [reflexivity|].
  unfold Math_ceil_div. cbn [Z.eqb].
  destruct all as [|t r]; [split; reflexivity|].
  cbn [List.length]. rewrite Nat2Z.inj_succ.
  destruct (Z.eqb_spec (Z.succ (Z.of_nat (List.length r))) 0); [lia|].
  split; reflexivity.
Qed.

Lemma getTransactions_limit_zero_witness :
  (castable (Controller.list_predicate 1%N (with_limit 0 (with_page 3 no_filter))) = true
   /\ sort_path_kept (with_limit 0 (with_page 3 no_filter))
   /\ patterns_modelled (with_limit 0 (with_page 3 no_filter))
   /\ rq_limit (with_limit 0 (with_page 3 no_filter)) = Some 0)
  /\ exists r : page_result,
       fst (Controller.getTransactions 1%N (with_limit 0 (with_page 3 no_filter))
              {| docs := january; calls := []; now := 0; zone := utc |}) = Return (Ok 200 r)
       /\ data r = sorted_matches 1%N (with_limit 0 (with_page 3 no_filter)) january.
Proof.
  split; [split; [reflexivity | split; [now left | split; [split; discriminate
                                                          | reflexivity]]]|].
  assert (Hp : patterns_modelled (with_limit 0 (with_page 3 no_filter)))
    by (split; discriminate).
  destruct (getTransactions_limit_zero
              {| docs := january; calls := []; now := 0; zone := utc |} 1%N
              (with_limit 0 (with_page 3 no_filter)) eq_refl
              (or_introl eq_refl) Hp eq_refl)
    as (r & Hr & Hd & _).
  exists r. split; [exact Hr | exact Hd].
Defined.

(** X20.  A list request whose skip [(page - 1) * limit] is negative, as
    for page 0 or a negative page with the default limit, is answered with
    the generic 500 "Server error fetching transactions", not with a
    validation error and not with the first page; the collection is
    unchanged. *)
Theorem getTransactions_negative_skip
    (w : world) (uid : ObjectId) (rq : list_query) :
  (page_of rq - 1) * limit_of rq < 0 ->
  Controller.getTransactions uid rq w
  = (Return (Fail 500 "Server error fetching transactions" []),
     logged w [Find (Controller.list_predicate uid rq);
               CountDocuments (Controller.list_predicate uid rq)]).
Proof.
  intros Hs.
  destruct (castable (Controller.list_predicate uid rq)) eqn:Hc;
    [|now apply getTransactions_cast_error].
  apply Z.ltb_lt in Hs. unfold page_of, limit_of in Hs.
  unfold Controller.getTransactions, try_catch, bind, both, find, countDocuments,
    cast, call, get_docs, ret, throw, bind.
  rewrite Hc, Hs. unfold logged. simpl. rewrite <- app_assoc. reflexivity.
Qed.

Lemma getTransactions_negative_skip_witness :
  (page_of (with_page 0 no_filter) - 1) * limit_of (with_page 0 no_filter) < 0
  /\ fst (Controller.getTransactions 1%N (with_page 0 no_filter)
            {| docs := january; calls := []; now := 0; zone := utc |})
     = Return (Fail 500 "Server error fetching transactions" []).
Proof.
  split; [reflexivity|].
  rewrite (getTransactions_negative_skip
             {| docs := january; calls := []; now := 0; zone := utc |} 1%N
             (with_page 0 no_filter) eq_refl).
  reflexivity.
Defined.

(** ** Every request is answered *)

Lemma remove_first_length (p : Transaction -> bool) (l : store) :
  (List.length (remove_first p l) <= List.length l)%nat.
Proof.
  induction l as [|x r IH]; simpl; [lia|].
  destruct (p x); simpl; lia.
Qed.

Lemma route_length (w : world) (uid : ObjectId) (op : operation) :
  (List.length (docs (snd (route uid op w))) <= List.length (docs w))%nat.
Proof.
  destruct (route_docs w uid op) as [->|[(id & b & _ & ->)|[(p & ->)|(p & ->)]]].
  - lia.
  - rewrite <- (length_map _id), map_id_update_first, length_map. lia.
  - apply remove_first_length.
  - apply filter_length_le.
Qed.

Lemma route_returns (w : world) (uid : ObjectId) (op : operation) :
  exists r, fst (route uid op w) = Return r.
Proof.
  destruct op as [rq|id|id b|id|ids|sd ed|ty sd ed|months];
    unfold route; rewrite fmap_run; cbn [fst].
  - destruct (getTransactions_run w uid rq) as (r & -> & _). cbn [fst]. eauto.
  - rewrite getTransaction_run. cbn [fst]. eauto.
  - rewrite updateTransaction_run.
    destruct id as [raw|i]; [cbn [fst]; eauto|].
    destruct (List.find _ (docs w)); [|cbn [fst]; eauto].
    destruct (validate b); cbn [fst]; eauto.
  - rewrite deleteTransaction_run.
    destruct id as [raw|i]; [cbn [fst]; eauto|].
    destruct (List.find _ (docs w)); cbn [fst]; eauto.
  - destruct ids as [[|i ids]|]; [cbn; eauto| |cbn; eauto].
    rewrite bulkDeleteTransactions_run.
    destruct (forallb isValid (i :: ids)); [|cbn [fst]; eauto].
    destruct (forallb casts (i :: ids)); cbn [fst]; eauto.
  - rewrite getTransactionSummary_run. eauto.
  - unfold Controller.getCategoryBreakdown, try_catch.
    destruct (allowed_type ty); cbn; eauto.
  - cbn. eauto.
Qed.

(** X21.  No handler of the transaction layer lets an exception escape:
    whatever the request and the collection, each of the eight operations
    and the creation ends with an answer.  None of the eight operations
    makes the collection longer, and the five reading ones (list, single
    fetch, summary, category breakdown, monthly trend) leave it exactly as
    it was. *)
Theorem every_request_is_answered
    (w : world) (uid : ObjectId) (op : operation) (b : body) :
  (exists r, fst (route uid op w) = Return r)
  /\ (exists r, fst (Controller.createTransaction uid b w) = Return r)
  /\ (List.length (docs (snd (route uid op w))) <= List.length (docs w))%nat
  /\ match op with
     | ListTransactions _ | GetTransaction _ | Summary _ _
     | CategoryBreakdown _ _ _ | MonthlyTrends _ =>
         docs (snd (route uid op w)) = docs w
     | _ => True
     end.
Proof.
  split; [apply route_returns|].
  split.
  { rewrite createTransaction_run. destruct (create_errors uid b); cbn [fst]; eauto. }
  split; [apply route_length|].
  destruct op as [rq|id|id b'|id|ids|sd ed|ty sd ed|months]; try exact I;
    unfold route; rewrite fmap_run; cbn [snd].
  - destruct (getTransactions_run w uid rq) as (r & -> & _). reflexivity.
  - rewrite getTransaction_run. reflexivity.
  - reflexivity.
  - unfold Controller.getCategoryBreakdown, try_catch.
    destruct (allowed_type ty); reflexivity.
  - reflexivity.
Qed.
